(** * Water-treatment train: coagulation, flocculation, sedimentation

    A shallow embedding of [water_treatment_simulation.py], and of the
    pilot-plant class of [pilot_plant_simulation.py] that runs it, with
    the properties the specification states about the code and further
    properties of the code itself.

    Numbers.  Python floats and numpy float64 values are idealised as real
    numbers: rounding, overflow and underflow are not modelled, except in
    the two places where they change what ordinary inputs give: [np.exp]
    in the log-normal density (0.0 below the float range) and the power of
    ten in the viscosity correlation (outside the float range near
    -133.15 degrees Celsius).  What is modelled besides is where the
    arithmetic leaves the finite numbers:
    - a division of two Python numbers by zero raises [ZeroDivisionError];
    - a division in which a numpy value takes part returns [nan] or an
      infinity instead (the module silences numpy's warnings at import),
      and so does a numpy square root or fractional power of a negative
      number.
    Python classes are rendered as modules, objects as records, and
    attribute assignment as a function returning the updated record. *)

From Stdlib Require Import Reals Lra Lia List Bool ZArith.
Import ListNotations.
Open Scope R_scope.

(** ** Outcomes of a call *)

Inductive exn : Type :=
| ZeroDivisionError
| IndexError.

(** [Ok a]: the call returns [a], every number in it finite.
    [Raise e]: the call raises [e].
    [NotFinite]: a numpy operation produced [nan] or an infinity inside an
    array or an intermediate value; Python carries on with that value, the
    model stops following it. *)
Inductive result (A : Type) : Type :=
| Ok (a : A)
| Raise (e : exn)
| NotFinite.

Arguments Ok {A} a.
Arguments Raise {A} e.
Arguments NotFinite {A}.

Definition bind {A B : Type} (m : result A) (k : A -> result B) : result B :=
  match m with
  | Ok a => k a
  | Raise e => Raise e
  | NotFinite => NotFinite
  end.

Declare Scope result_scope.
Delimit Scope result_scope with result.
Notation "x <- m ;; k" := (bind m (fun x => k))
  (at level 61, m at next level, right associativity) : result_scope.
Notation "' p <- m ;; k" := (bind m (fun x => let p := x in k))
  (at level 61, p pattern, m at next level, right associativity) : result_scope.
Open Scope result_scope.

(** A numpy scalar handed back to the caller. *)
Inductive npfloat : Type :=
| Finite (r : R)
| PosInf
| NegInf
| NaN.

(** [a / b] on two finite numpy scalars. *)
Definition np_div (a b : R) : npfloat :=
  if Req_dec_T b 0 then
    if Req_dec_T a 0 then NaN
    else if Rlt_dec 0 a then PosInf else NegInf
  else Finite (a / b).

(** [x * c] for a finite Python number [c]. *)
Definition np_mul (x : npfloat) (c : R) : npfloat :=
  match x with
  | Finite r => Finite (r * c)
  | NaN => NaN
  | PosInf => if Req_dec_T c 0 then NaN else if Rlt_dec 0 c then PosInf else NegInf
  | NegInf => if Req_dec_T c 0 then NaN else if Rlt_dec 0 c then NegInf else PosInf
  end.

(** ** Sequences *)

(** [l[i]] for [0 <= i]. *)
Definition getitem (l : list R) (i : nat) : result R :=
  match nth_error l i with
  | Some x => Ok x
  | None => Raise IndexError
  end.

(** [[f(x) for x in l]], stopping at the first call that does not return. *)
Fixpoint mapM {A B : Type} (f : A -> result B) (l : list A) : result (list B) :=
  match l with
  | [] => Ok []
  | x :: l' => y <- f x ;; ys <- mapM f l' ;; Ok (y :: ys)
  end.

(** [acc = acc0; for j in js: acc += body(j)]. *)
Fixpoint for_sum (js : list nat) (acc : R) (body : nat -> result R) : result R :=
  match js with
  | [] => Ok acc
  | j :: js' => x <- body j ;; for_sum js' (acc + x) body
  end.

(** Elementwise product [a * b] of two arrays of one length (numpy
    broadcasts or raises on other shapes; the properties below are stated
    for arrays of one length). *)
Fixpoint mul_arrays (a b : list R) : list R :=
  match a, b with
  | x :: a', y :: b' => x * y :: mul_arrays a' b'
  | _, _ => []
  end.

(** [np.trapz(y, x)] on two arrays of one length: the sum of
    [(x[i+1] - x[i]) * (y[i+1] + y[i]) / 2]. *)
Fixpoint trapz (y x : list R) : R :=
  match y, x with
  | y0 :: ((y1 :: _) as y'), x0 :: ((x1 :: _) as x') =>
      (x1 - x0) * (y1 + y0) / 2 + trapz y' x'
  | _, _ => 0
  end.

(** A Python float expression that may have left the reals: [x ** y] on a
    negative float and an exponent that is no integer is a complex
    number. *)
Inductive pynumber : Type :=
| PyFloat (r : R)
| PyComplex.

(** [x ** y] on Python floats, for an exponent [y > 0] that is no integer. *)
Definition py_pow_frac (x y : R) : pynumber :=
  if Rlt_dec x 0 then PyComplex
  else if Req_dec_T x 0 then PyFloat 0
  else PyFloat (Rpower x y).

(** ** class WaterProperties *)

Module WaterProperties.

(** [density] and [viscosity] are what [update_properties] stored at
    construction (from the [thermo] package when it is installed, from the
    empirical correlations otherwise). *)
Record t : Type := mk {
  temperature : R;
  pH : R;
  alkalinity : R;
  turbidity : R;
  density : R;
  viscosity : R
}.

Definition set_alkalinity (self : t) (v : R) : t :=
  mk (temperature self) (pH self) v (turbidity self) (density self) (viscosity self).

Definition set_pH (self : t) (v : R) : t :=
  mk (temperature self) v (alkalinity self) (turbidity self) (density self) (viscosity self).

(** [add_coagulant(al2so4_conc, volume)].  [HAS_PYEQL] is the module-level
    flag set at import: with pyEQL installed the pH branch is [pass].
    Returns the updated object and the pair the method returns. *)
Definition add_coagulant (HAS_PYEQL : bool) (self : t) (al2so4_conc volume : R)
  : t * (R * R) :=
  let molar_conc := al2so4_conc / 342.15 in
  let alkalinity_consumed := molar_conc * 6 * 100.09 * 1000 in
  let self1 := set_alkalinity self (Rmax 0 (alkalinity self - alkalinity_consumed)) in
  let self2 :=
    if HAS_PYEQL then self1
    else if Rlt_dec 0 alkalinity_consumed then
      let buffer_capacity := 0.15 in
      let delta_pH := - (alkalinity_consumed / 100.0) * buffer_capacity in
      set_pH self1 (Rmax 4.0 (Rmin 9.0 (pH self1 + delta_pH)))
    else self1 in
  (self2, (pH self2, alkalinity self2)).

(** What [WaterProperties(...)] leaves behind: an object; an object whose
    density is a complex number (which the record cannot hold); or, within
    0.826 degrees of -133.15 degrees Celsius, whatever the floats make of
    the viscosity correlation there, which the model does not follow:
    [10 ** (247.8 / (T_K - 140))] has an exponent beyond 300 in absolute
    value, so the power raises [OverflowError] or is 0.0, and at
    [T_K = 140] the division raises [ZeroDivisionError]. *)
Inductive constructed : Type :=
| Constructed (w : t)
| ComplexDensity
| ViscosityOutOfRange.

(** [update_properties()].  [HAS_THERMO] is the module-level flag set at
    import; [Chemical_water] stands for [Chemical('water', T=T_K)] of the
    [thermo] package and gives its [rho] and [mu]. *)
Definition update_properties (HAS_THERMO : bool) (Chemical_water : R -> R * R)
    (self : t) : constructed :=
  let T_K := temperature self + 273.15 in
  if HAS_THERMO then
    let '(rho, mu) := Chemical_water T_K in
    Constructed (mk (temperature self) (pH self) (alkalinity self) (turbidity self)
                   rho mu)
  else
    let power := py_pow_frac (temperature self - 4) 1.9 in
    let T_K := temperature self + 273.15 in
    if Rlt_dec (Rabs (T_K - 140)) 0.826 then ViscosityOutOfRange
    else
      let viscosity := 2.414e-5 * Rpower 10 (247.8 / (T_K - 140)) in
      match power with
      | PyFloat p =>
          Constructed (mk (temperature self) (pH self) (alkalinity self)
                         (turbidity self) (1000 - 0.0178 * p) viscosity)
      | PyComplex => ComplexDensity
      end.

(** [WaterProperties(temperature, pH, alkalinity, turbidity)]: the four
    attributes are stored, then [update_properties] adds the other two. *)
Definition init (HAS_THERMO : bool) (Chemical_water : R -> R * R)
    (temperature pH alkalinity turbidity : R) : constructed :=
  update_properties HAS_THERMO Chemical_water
    (mk temperature pH alkalinity turbidity 0 0).

End WaterProperties.

(** ** Arithmetic that can leave the finite numbers *)

(** [a / b] on two Python numbers. *)
Definition py_div (a b : R) : result R :=
  if Req_dec_T b 0 then Raise ZeroDivisionError else Ok (a / b).

(** [a / b] where a numpy value takes part. *)
Definition np_divide (a b : R) : result R :=
  if Req_dec_T b 0 then NotFinite else Ok (a / b).

(** [np.sqrt(x)]. *)
Definition np_sqrt (x : R) : result R :=
  if Rlt_dec x 0 then NotFinite else Ok (sqrt x).

(** [x ** y] for a numpy [x] and a positive exponent that is no integer. *)
Definition np_pow (x y : R) : result R :=
  if Rlt_dec x 0 then NotFinite
  else if Req_dec_T x 0 then Ok 0
  else Ok (Rpower x y).

(** [np.log(x)]. *)
Definition np_log (x : R) : result R :=
  if Rlt_dec 0 x then Ok (ln x) else NotFinite.

(** [np.exp(x)]: [inf] above the float range, and 0.0 once [exp x] is at
    most [2 ** -1075], half the smallest float above zero. *)
Definition np_exp (x : R) : result R :=
  if Rlt_dec (1024 * ln 2) x then NotFinite
  else if Rle_dec x (-1075 * ln 2) then Ok 0
  else Ok (exp x).

(** ** class ParticleDistribution *)

Module ParticleDistribution.

Record t : Type := mk {
  sizes : list R;
  concentrations : list R
}.

(** [normalize(total_concentration)]: the array is divided by its own
    trapezoidal integral, whatever that is. *)
Definition normalize (self : t) (total_concentration : R) : result t :=
  let current_total := trapz (concentrations self) (sizes self) in
  cs <- mapM (fun c => np_divide (c * total_concentration) current_total)
             (concentrations self) ;;
  Ok (mk (sizes self) cs).

Definition mean_size (self : t) : npfloat :=
  np_div (trapz (mul_arrays (sizes self) (concentrations self)) (sizes self))
         (trapz (concentrations self) (sizes self)).

(** [_lognormal_distribution(x, mu, sigma)], elementwise on the array [x]. *)
Definition _lognormal_distribution (x : list R) (mu sigma : R) : result (list R) :=
  mapM (fun xi =>
          l <- np_log xi ;;
          e <- np_divide (- (l - mu) ^ 2) (2 * sigma ^ 2) ;;
          density <- np_exp e ;;
          np_divide density (xi * sigma * sqrt (2 * PI)))
       x.

(** [np.logspace(-1, 2, 50)]: 10 to the powers [np.linspace(-1, 2, 50)]. *)
Definition logspace50 : list R :=
  map (fun k => Rpower 10 (INR k * ((2 - -1) / 49) + -1)) (seq 0 50).

(** [ParticleDistribution()], both arguments left at [None]. *)
Definition init_default : result t :=
  c <- _lognormal_distribution logspace50 2.0 0.8 ;;
  Ok (mk logspace50 c).

(** [ParticleDistribution(sizes, concentrations)]. *)
Definition init (sizes concentrations : list R) : t := mk sizes concentrations.

End ParticleDistribution.

(** ** class RapidMixing *)

Module RapidMixing.

Record t : Type := mk {
  volume : R;
  flow_rate : R;
  G : R;
  mixing_time : R;
  residence_time : R
}.

Definition init (volume flow_rate G mixing_time : R) : result t :=
  q <- py_div flow_rate 3600 ;;
  residence_time <- py_div volume q ;;
  Ok (mk volume flow_rate G mixing_time residence_time).

(** [process(water_props, particles, coagulant_dose)].  The distribution
    built by [ParticleDistribution()] has both attributes overwritten at
    once, so only the overwritten object is kept. *)
Definition process (HAS_PYEQL : bool) (self : t) (water_props : WaterProperties.t)
    (particles : ParticleDistribution.t) (coagulant_dose : R)
  : result (WaterProperties.t * ParticleDistribution.t) :=
  let '(water_props', (new_pH, new_alkalinity)) :=
    WaterProperties.add_coagulant HAS_PYEQL water_props coagulant_dose (volume self) in
  let charge_neutralization := Rmin 1.0 (coagulant_dose / 0.05) in
  let new_particles :=
    ParticleDistribution.mk
      (map (fun s => s * (1 + 0.1 * charge_neutralization))
           (ParticleDistribution.sizes particles))
      (ParticleDistribution.concentrations particles) in
  normalized <- ParticleDistribution.normalize new_particles
                  (trapz (ParticleDistribution.concentrations particles)
                         (ParticleDistribution.sizes particles)) ;;
  Ok (water_props', normalized).

End RapidMixing.

(** ** class Flocculation *)

Module Flocculation.

Record t : Type := mk {
  chambers : Z;
  total_volume : R;
  G_avg : R;
  total_time : R;
  chamber_volume : R;
  chamber_time : R
}.

Definition init (chambers : Z) (total_volume G_avg total_time : R) : result t :=
  chamber_volume <- py_div total_volume (IZR chambers) ;;
  chamber_time <- py_div total_time (IZR chambers) ;;
  Ok (mk chambers total_volume G_avg total_time chamber_volume chamber_time).

(** [coagulation_kernel(di, dj, G, temperature, viscosity)] as
    [population_balance] calls it: [di] and [dj] are numpy scalars, the
    other arguments Python numbers. *)
Definition coagulation_kernel (di dj G temperature viscosity : R) : result R :=
  let kB := 1.38e-23 in
  let T := temperature + 273.15 in
  let rho := 1000 in
  q <- py_div (2 * kB * T) (3 * viscosity) ;;
  K_brown <- np_divide (q * (di + dj) ^ 2) (di * dj) ;;
  epsilon <- py_div (G ^ 2 * viscosity) rho ;;
  nu <- py_div viscosity rho ;;
  ratio <- py_div epsilon nu ;;
  shear_rate <- np_sqrt ratio ;;
  let alpha := 0.2 in
  let K_turb := alpha * shear_rate * (di + dj) ^ 3 in
  Ok (K_brown + K_turb).

(** [breakage_kernel(d, G, density_floc, viscosity, density_water)], [d] a
    numpy scalar. *)
Definition breakage_kernel (d G density_floc viscosity density_water : R) : result R :=
  epsilon <- py_div (G ^ 2 * viscosity) density_water ;;
  nu <- py_div viscosity density_water ;;
  let C_break := 1e-5 in
  ratio <- py_div epsilon nu ;;
  shear_rate <- np_sqrt ratio ;;
  p <- np_pow d (2 / 3) ;;
  Ok (C_break * shear_rate * p).

(** The two kernels are methods looked up on [self]; the balance is
    written over whatever the object binds them to. *)
Section PopulationBalance.

Variable coagulation_kernel_of_self : R -> R -> R -> R -> R -> result R.
Variable breakage_kernel_of_self : R -> R -> R -> R -> R -> result R.

Definition birth_term (n sizes : list R) (G : R) (water_props : WaterProperties.t)
    (N i j : nat) : result R :=
  if (j <? N)%nat && (i - j - 1 <? N)%nat then
    sj <- getitem sizes j ;;
    sk <- getitem sizes (i - j - 1) ;;
    K_ij <- coagulation_kernel_of_self (sj * 1e-6) (sk * 1e-6) G
              (WaterProperties.temperature water_props)
              (WaterProperties.viscosity water_props) ;;
    nj <- getitem n j ;;
    nk <- getitem n (i - j - 1) ;;
    Ok (0.5 * K_ij * nj * nk)
  else Ok 0.

Definition death_agg_term (n sizes : list R) (G : R) (water_props : WaterProperties.t)
    (i j : nat) : result R :=
  si <- getitem sizes i ;;
  sj <- getitem sizes j ;;
  K_ij <- coagulation_kernel_of_self (si * 1e-6) (sj * 1e-6) G
            (WaterProperties.temperature water_props)
            (WaterProperties.viscosity water_props) ;;
  ni <- getitem n i ;;
  nj <- getitem n j ;;
  Ok (K_ij * ni * nj).

Definition birth_break_term (n sizes : list R) (G : R) (water_props : WaterProperties.t)
    (i j : nat) : result R :=
  sj <- getitem sizes j ;;
  S_j <- breakage_kernel_of_self (sj * 1e-6) G 1200
           (WaterProperties.viscosity water_props)
           (WaterProperties.density water_props) ;;
  let b_ij := if (i <? j)%nat then 2.0 / (INR j - INR i + 1) else 0.0 in
  nj <- getitem n j ;;
  Ok (b_ij * S_j * nj).

(** The body of the loop over [i]: the value stored in [dndt[i]]. *)
Definition dndt_at (n sizes : list R) (G : R) (water_props : WaterProperties.t)
    (N i : nat) : result R :=
  birth <- for_sum (seq 0 i) 0 (birth_term n sizes G water_props N i) ;;
  death_agg <- for_sum (seq 0 N) 0 (death_agg_term n sizes G water_props i) ;;
  si <- getitem sizes i ;;
  S_i <- breakage_kernel_of_self (si * 1e-6) G 1200
           (WaterProperties.viscosity water_props)
           (WaterProperties.density water_props) ;;
  ni <- getitem n i ;;
  let death_break := S_i * ni in
  birth_break <- for_sum (seq (i + 1) (N - (i + 1))) 0
                   (birth_break_term n sizes G water_props i) ;;
  Ok (birth - death_agg - death_break + birth_break).

Definition population_balance_of_self (t : R) (n sizes : list R) (G : R)
    (water_props : WaterProperties.t) : result (list R) :=
  let N := length sizes in
  mapM (dndt_at n sizes G water_props N) (seq 0 N).

End PopulationBalance.

(** [population_balance(t, n, sizes, G, water_props)] of the class as
    written. *)
Definition population_balance : R -> list R -> list R -> R -> WaterProperties.t
    -> result (list R) :=
  population_balance_of_self coagulation_kernel breakage_kernel.

(** What [scipy.integrate.solve_ivp] hands back.  [y] is kept by columns:
    its [k]-th element is [sol.y[:, k]], the state at [t[k]]. *)
Record OdeResult : Type := mkOdeResult {
  ode_t : list R;
  ode_y : list (list R);
  ode_status : Z;
  ode_success : bool
}.

(** One entry of the list [process] returns. *)
Record ChamberResult : Type := mkChamberResult {
  chamber : Z;
  time : list R;
  distribution : list (list R);
  mean_size : list npfloat
}.

(** [np.linspace(0, stop, 100)]. *)
Definition linspace100 (stop : R) : list R :=
  map (fun k => INR k * (stop / 99)) (seq 0 100).

(** [sol.y[:, -1]]. *)
Definition last_column (y : list (list R)) : result (list R) :=
  match y with
  | [] => Raise IndexError
  | c :: cs => Ok (last cs c)
  end.

Section Process.

(** [solve_ivp(fun, t_span, y0, t_eval=..., method='RK45', rtol=1e-6)]: the
    integrator is scipy's, outside the repository. *)
Variable solve_ivp :
  (R -> list R -> result (list R)) -> R * R -> list R -> list R -> result OdeResult.

(** One pass of the loop body; [current_particles] is the very object the
    caller passed in, rebound attribute and all. *)
Definition process_chamber (self : t) (water_props : WaterProperties.t)
    (current_particles : ParticleDistribution.t) (chamber : Z)
  : result (ParticleDistribution.t * ChamberResult) :=
  let t_span := (0, chamber_time self) in
  let t_eval := linspace100 (chamber_time self) in
  let sizes := ParticleDistribution.sizes current_particles in
  sol <- solve_ivp
           (fun t n => population_balance t n sizes (G_avg self) water_props)
           t_span (ParticleDistribution.concentrations current_particles) t_eval ;;
  final <- last_column (ode_y sol) ;;
  let current_particles' := ParticleDistribution.mk sizes final in
  Ok (current_particles',
      mkChamberResult (chamber + 1) t_eval (ode_y sol)
        (map (fun dist => np_div (trapz (mul_arrays sizes dist) sizes)
                                 (trapz dist sizes))
             (ode_y sol))).

(** [for chamber in range(self.chambers)], [k] chambers still to run. *)
Fixpoint process_loop (self : t) (water_props : WaterProperties.t) (k : nat)
    (chamber : Z) (current_particles : ParticleDistribution.t)
    (results : list ChamberResult)
  : result (ParticleDistribution.t * list ChamberResult) :=
  match k with
  | O => Ok (current_particles, results)
  | S k' =>
      '(current_particles', r) <-
        process_chamber self water_props current_particles chamber ;;
      process_loop self water_props k' (chamber + 1) current_particles'
        (results ++ [r])
  end.

Definition process (self : t) (water_props : WaterProperties.t)
    (particles : ParticleDistribution.t)
  : result (ParticleDistribution.t * list ChamberResult) :=
  process_loop self water_props (Z.to_nat (chambers self)) 0 particles [].

End Process.

End Flocculation.

(** ** class Sedimentation *)

Module Sedimentation.

Record t : Type := mk {
  area : R;
  height : R;
  overflow_rate : R;
  residence_time : R
}.

Definition init (area height overflow_rate : R) : result t :=
  q <- py_div overflow_rate 3600 ;;
  residence_time <- py_div height q ;;
  Ok (mk area height overflow_rate residence_time).

(** [settling_velocity(diameter, density_particle, water_props)], [diameter]
    an element of the numpy array of sizes. *)
Definition settling_velocity (self : t) (diameter density_particle : R)
    (water_props : WaterProperties.t) : result R :=
  let d := diameter * 1e-6 in
  let rho_p := density_particle in
  let rho_w := WaterProperties.density water_props in
  let mu := WaterProperties.viscosity water_props in
  let g := 9.81 in
  vs_stokes <- np_divide (g * d ^ 2 * (rho_p - rho_w)) (18 * mu) ;;
  Re <- np_divide (rho_w * vs_stokes * d) mu ;;
  if Rlt_dec 0.1 Re then
    a <- np_divide 24 Re ;;
    sq <- np_sqrt Re ;;
    b <- np_divide 3 sq ;;
    let Cd := a + b + 0.34 in
    radicand <- np_divide (4 * g * d * (rho_p - rho_w)) (3 * Cd * rho_w) ;;
    np_sqrt radicand
  else Ok vs_stokes.

(** [hindered_settling(vs0, concentration, density_particle, n)]; the base
    of the power lies between 0.4 and 1. *)
Definition hindered_settling (self : t) (vs0 concentration density_particle n : R)
  : result R :=
  let conc_kg_m3 := concentration / 1e6 in
  phi <- np_divide conc_kg_m3 density_particle ;;
  let phi := Rmin 0.6 (Rmax 0.0 phi) in
  Ok (vs0 * Rpower (1 - phi) n).

(** The dictionary [process] returns. *)
Record Report : Type := mkReport {
  effluent_concentration : R;
  removal_efficiency : npfloat;
  size_distribution : list R;
  settling_velocities : list R
}.

(** [process(water_props, particles, floc_density)]. *)
Definition process (self : t) (water_props : WaterProperties.t)
    (particles : ParticleDistribution.t) (floc_density : R) : result Report :=
  let sizes := ParticleDistribution.sizes particles in
  let concentrations := ParticleDistribution.concentrations particles in
  velocities <- mapM (fun d => settling_velocity self d floc_density water_props)
                     sizes ;;
  let total_conc := trapz concentrations sizes in
  vs_hindered <- mapM (fun vs => hindered_settling self vs total_conc floc_density 4.65)
                      velocities ;;
  removal <- mapM (fun v => x <- np_divide (v * residence_time self) (height self) ;;
                            Ok (Rmin 1.0 x))
                  vs_hindered ;;
  let effluent_conc := mul_arrays concentrations (map (fun r => 1 - r) removal) in
  let initial_total := trapz concentrations sizes in
  let final_total := trapz effluent_conc sizes in
  let overall_efficiency :=
    np_mul (np_div (initial_total - final_total) initial_total) 100 in
  Ok (mkReport final_total overall_efficiency effluent_conc vs_hindered).

End Sedimentation.

(** ** class WaterTreatmentSimulation *)

Module WaterTreatmentSimulation.

(** The object after [setup_system]. *)
Record t : Type := mk {
  water_props : WaterProperties.t;
  particles : ParticleDistribution.t;
  rapid_mix : RapidMixing.t;
  flocculation : Flocculation.t;
  sedimentation : Sedimentation.t
}.

Record Stage : Type := mkStage {
  stage_pH : R;
  stage_alkalinity : R;
  stage_mean_particle_size : npfloat
}.

Record Results : Type := mkResults {
  initial : Stage;
  initial_turbidity : R;
  after_coagulation : Stage;
  flocculation_results : list Flocculation.ChamberResult;
  sedimentation_results : Sedimentation.Report;
  final_efficiency : npfloat
}.

(** [run_simulation(coagulant_dose)].  [self.water_props] is the object
    [add_coagulant] updated, and [particles_after_mix] the object the
    flocculation loop rebinds, so the report reads both after the update. *)
Definition run_simulation (HAS_PYEQL : bool)
    (solve_ivp : (R -> list R -> result (list R)) -> R * R -> list R -> list R
                 -> result Flocculation.OdeResult)
    (self : t) (coagulant_dose : R) : result Results :=
  '(water_after_mix, particles_after_mix) <-
    RapidMixing.process HAS_PYEQL (rapid_mix self) (water_props self) (particles self)
      coagulant_dose ;;
  '(particles_after_floc, floc_results) <-
    Flocculation.process solve_ivp (flocculation self) water_after_mix
      particles_after_mix ;;
  sed_results <-
    Sedimentation.process (sedimentation self) water_after_mix particles_after_floc
      1200 ;;
  Ok (mkResults
        (mkStage (WaterProperties.pH water_after_mix)
                 (WaterProperties.alkalinity water_after_mix)
                 (ParticleDistribution.mean_size (particles self)))
        (WaterProperties.turbidity water_after_mix)
        (mkStage (WaterProperties.pH water_after_mix)
                 (WaterProperties.alkalinity water_after_mix)
                 (ParticleDistribution.mean_size particles_after_floc))
        floc_results
        sed_results
        (Sedimentation.removal_efficiency sed_results)).

(** The keyword arguments of [setup_system]: a key may be missing. *)
Record Kwargs : Type := mkKwargs {
  kw_temperature : option R;
  kw_pH : option R;
  kw_alkalinity : option R;
  kw_turbidity : option R;
  kw_initial_solids : option R;
  kw_rapid_mix_volume : option R;
  kw_flow_rate : option R;
  kw_rapid_mix_G : option R;
  kw_rapid_mix_time : option R;
  kw_floc_chambers : option Z;
  kw_floc_volume : option R;
  kw_floc_G : option R;
  kw_floc_time : option R;
  kw_sed_area : option R;
  kw_sed_height : option R;
  kw_overflow_rate : option R
}.

(** [kwargs.get(key, default)]. *)
Definition get {A : Type} (value : option A) (default : A) : A :=
  match value with
  | Some v => v
  | None => default
  end.

(** How [setup_system] ends: the object is set up; it is set up around a
    water object whose density is complex, or around a distribution that
    holds [nan] (neither is followed further); the water's constructor
    left the range the model follows; or a constructor raised. *)
Inductive setup_result : Type :=
| SetUp (sim : t)
| SetUpWithComplexDensity
| SetUpNotFinite
| SetUpViscosityOutOfRange
| SetUpRaises (e : exn).

(** [setup_system] with keyword arguments. *)
Definition setup_system (HAS_THERMO : bool) (Chemical_water : R -> R * R)
    (kwargs : Kwargs) : setup_result :=
  match WaterProperties.init HAS_THERMO Chemical_water
          (get (kw_temperature kwargs) 20) (get (kw_pH kwargs) 7.0)
          (get (kw_alkalinity kwargs) 100) (get (kw_turbidity kwargs) 50) with
  | WaterProperties.ViscosityOutOfRange => SetUpViscosityOutOfRange
  | water =>
      match
        (particles0 <- ParticleDistribution.init_default ;;
         particles <- ParticleDistribution.normalize particles0
                        (get (kw_initial_solids kwargs) 50) ;;
         rapid_mix <- RapidMixing.init (get (kw_rapid_mix_volume kwargs) 10)
                        (get (kw_flow_rate kwargs) 100)
                        (get (kw_rapid_mix_G kwargs) 1000)
                        (get (kw_rapid_mix_time kwargs) 30) ;;
         flocculation <- Flocculation.init (get (kw_floc_chambers kwargs) 3%Z)
                           (get (kw_floc_volume kwargs) 200)
                           (get (kw_floc_G kwargs) 50)
                           (get (kw_floc_time kwargs) 1800) ;;
         sedimentation <- Sedimentation.init (get (kw_sed_area kwargs) 100)
                            (get (kw_sed_height kwargs) 3)
                            (get (kw_overflow_rate kwargs) 10) ;;
         Ok (particles, rapid_mix, flocculation, sedimentation))
      with
      | Ok (particles, rapid_mix, flocculation, sedimentation) =>
          match water with
          | WaterProperties.Constructed w =>
              SetUp (mk w particles rapid_mix flocculation sedimentation)
          | _ => SetUpWithComplexDensity
          end
      | Raise e => SetUpRaises e
      | NotFinite => SetUpNotFinite
      end
  end.

(** [self] once [run_simulation(coagulant_dose)] is over, returned or
    raised: [self.water_props] is the object [add_coagulant] updated as the
    first thing; [self.particles] is left as it was. *)
Definition after_run (HAS_PYEQL : bool) (self : t) (coagulant_dose : R) : t :=
  mk (fst (WaterProperties.add_coagulant HAS_PYEQL (water_props self) coagulant_dose
             (RapidMixing.volume (rapid_mix self))))
     (particles self) (rapid_mix self) (flocculation self) (sedimentation self).

End WaterTreatmentSimulation.

(** ** class PilotPlantSimulation *)

(** [np.linspace(start, stop, num)]. *)
Definition linspace (start stop : R) (num : nat) : list R :=
  match num with
  | O => []
  | S O => [start]
  | _ => map (fun k => INR k * ((stop - start) / INR (num - 1)) + start) (seq 0 num)
  end.

(** [x + c] for a numpy scalar [x] and a finite Python number [c]. *)
Definition np_plus (x : npfloat) (c : R) : npfloat :=
  match x with
  | Finite r => Finite (r + c)
  | other => other
  end.

(** [pilot_plant_config.py]: the entries of [PILOT_PLANT_SPECS] and
    [PILOT_OPERATION] that the simulation reads, and the hydraulic
    figures computed from them. *)
Module pilot_plant_config.

Definition flow_rate : R := 0.45.
Definition flow_rate_m3h : R := 1.62.
Definition total_retention : R := 83.3.
Definition rapid_mix_time : R := 34.2.
Definition floc_time : R := 34.2.
Definition rapid_mix_volume : R := 0.0154.
Definition flocculation_volume : R := 0.0154.
Definition flocculation_n_baffles : R := 7.
Definition flocculation_opening_free : R := 0.044.
Definition flocculation_water_height : R := 0.155.
Definition sedimentation_volume : R := 0.0067.
Definition sedimentation_area : R := 0.0435.
Definition sedimentation_water_height : R := 0.155.
Definition false_floor_total_holes : R := 55.
Definition false_floor_hole_diameter : R := 0.002.

(** The dictionary [calculate_hydraulic_parameters] returns, flattened. *)
Record HydraulicParameters : Type := mkHydraulicParameters {
  jet_velocity : R;
  rapid_mix_G_calculated : R;
  rapid_mix_power_dissipated : R;
  baffle_velocity : R;
  head_loss : R;
  flocculation_G_calculated : R;
  flocculation_power_dissipated : R;
  upflow_velocity : R;
  hole_velocity : R;
  surface_loading : R
}.

(** [calculate_hydraulic_parameters()]: every divisor and every radicand
    is a positive constant. *)
Definition calculate_hydraulic_parameters : HydraulicParameters :=
  let Q := flow_rate / 1000 in
  let A_orifice := PI * (0.021 / 2) ^ 2 in
  let v_jet := Q / A_orifice in
  let mu := 1e-3 in
  let rho := 1000 in
  let P_dissipated := 0.5 * rho * v_jet ^ 2 * Q in
  let V_mix := rapid_mix_volume in
  let G_rapid := sqrt (P_dissipated / (mu * V_mix)) in
  let n_turns := flocculation_n_baffles - 1 in
  let v_baffle := Q / (flocculation_opening_free * flocculation_water_height) in
  let K_loss := 2.5 in
  let h_loss_total := n_turns * K_loss * v_baffle ^ 2 / (2 * 9.81) in
  let P_floc := rho * 9.81 * Q * h_loss_total in
  let V_floc := flocculation_volume in
  let G_floc := sqrt (P_floc / (mu * V_floc)) in
  let A_sed := sedimentation_area in
  let v_upflow := Q / A_sed in
  let A_holes := false_floor_total_holes * PI * (false_floor_hole_diameter / 2) ^ 2 in
  let v_holes := Q / A_holes in
  mkHydraulicParameters v_jet G_rapid P_dissipated v_baffle h_loss_total G_floc P_floc
    v_upflow v_holes (Q * 3600 / A_sed).

End pilot_plant_config.

Module PilotPlantSimulation.

(** The object after [setup_pilot_system]: the simulation it inherits and
    the dose it was set up with. *)
Record t : Type := mk {
  sim : WaterTreatmentSimulation.t;
  coagulant_dose : R
}.

(** How [setup_pilot_system] ends: with the object set up, or the way
    [setup_system] ended without one. *)
Inductive pilot_setup : Type :=
| PilotSetUp (self : t)
| PilotSetUpFails (outcome : WaterTreatmentSimulation.setup_result).

(** [setup_pilot_system(water_temp, water_pH, water_alkalinity,
    initial_turbidity, coagulant_dose)]. *)
Definition setup_pilot_system (HAS_THERMO : bool) (Chemical_water : R -> R * R)
    (water_temp water_pH water_alkalinity initial_turbidity coagulant_dose : R)
  : pilot_setup :=
  let hydraulic_params := pilot_plant_config.calculate_hydraulic_parameters in
  let params :=
    WaterTreatmentSimulation.mkKwargs
      (Some water_temp) (Some water_pH) (Some water_alkalinity)
      (Some initial_turbidity) (Some initial_turbidity)
      (Some pilot_plant_config.rapid_mix_volume)
      (Some pilot_plant_config.flow_rate_m3h)
      (Some (pilot_plant_config.rapid_mix_G_calculated hydraulic_params))
      (Some pilot_plant_config.rapid_mix_time)
      (Some 1%Z)
      (Some pilot_plant_config.flocculation_volume)
      (Some (pilot_plant_config.flocculation_G_calculated hydraulic_params))
      (Some pilot_plant_config.floc_time)
      (Some pilot_plant_config.sedimentation_area)
      (Some pilot_plant_config.sedimentation_water_height)
      (Some (pilot_plant_config.surface_loading hydraulic_params)) in
  match WaterTreatmentSimulation.setup_system HAS_THERMO Chemical_water params with
  | WaterTreatmentSimulation.SetUp sim => PilotSetUp (mk sim coagulant_dose)
  | outcome => PilotSetUpFails outcome
  end.

(** The dictionary [_calculate_pilot_performance] returns, flattened. *)
Record Performance : Type := mkPerformance {
  efficiency_rapid_mix : R;
  efficiency_flocculation : R;
  efficiency_sedimentation : npfloat;
  efficiency_total : npfloat;
  coagulant_g_per_day : R;
  coagulant_g_per_m3 : R;
  sludge_g_per_day : R;
  theoretical_retention_s : R;
  actual_retention_s : R;
  hydraulic_efficiency : R
}.

(** [_calculate_pilot_performance(results)]. *)
Definition _calculate_pilot_performance (self : t)
    (results : WaterTreatmentSimulation.Results) : Performance :=
  let rapid_mix_efficiency := 0 in
  let floc_efficiency := 5 in
  let sed_efficiency :=
    np_plus (WaterTreatmentSimulation.final_efficiency results) (- floc_efficiency) in
  let coagulant_consumption :=
    coagulant_dose self * pilot_plant_config.flow_rate_m3h * 24 in
  let initial_solids := WaterTreatmentSimulation.initial_turbidity results in
  let final_solids :=
    Sedimentation.effluent_concentration
      (WaterTreatmentSimulation.sedimentation_results results) in
  let removed_solids := initial_solids - final_solids in
  let sludge_production :=
    removed_solids * pilot_plant_config.flow_rate_m3h * 24 / 1000 in
  let theoretical_retention :=
    (pilot_plant_config.rapid_mix_volume + pilot_plant_config.flocculation_volume
     + pilot_plant_config.sedimentation_volume)
    / (pilot_plant_config.flow_rate / 1000 / 3600) in
  mkPerformance rapid_mix_efficiency floc_efficiency sed_efficiency
    (WaterTreatmentSimulation.final_efficiency results)
    coagulant_consumption (coagulant_dose self) sludge_production
    theoretical_retention pilot_plant_config.total_retention
    (pilot_plant_config.total_retention / theoretical_retention).

(** [run_pilot_experiment(coagulant_dose)]: the report of [run_simulation]
    and the performance added to it under ['pilot_performance'] (the three
    constant dictionaries copied under ['pilot_info'] are left out). *)
Definition run_pilot_experiment (HAS_PYEQL : bool)
    (solve_ivp : (R -> list R -> result (list R)) -> R * R -> list R -> list R
                 -> result Flocculation.OdeResult)
    (self : t) (dose : option R)
  : result (WaterTreatmentSimulation.Results * Performance) :=
  let coagulant_dose :=
    match dose with
    | None => coagulant_dose self
    | Some d => d
    end in
  results <- WaterTreatmentSimulation.run_simulation HAS_PYEQL solve_ivp (sim self)
               coagulant_dose ;;
  Ok (results, _calculate_pilot_performance self results).

(** One row of the table [dose_response_curve] builds. *)
Record Row : Type := mkRow {
  dose_g_L : R;
  efficiency_pct : npfloat;
  final_turbidity_NTU : R;
  final_pH : R;
  final_alkalinity : R;
  coagulant_consumption_g_day : R
}.

(** The loop of [dose_response_curve]: every trial runs on the object the
    trial before it left behind. *)
Fixpoint dose_trials (HAS_PYEQL : bool)
    (solve_ivp : (R -> list R -> result (list R)) -> R * R -> list R -> list R
                 -> result Flocculation.OdeResult)
    (self : t) (doses : list R) (results : list Row) : result (list Row) :=
  match doses with
  | [] => Ok results
  | dose :: doses' =>
      '(result, performance) <- run_pilot_experiment HAS_PYEQL solve_ivp self (Some dose) ;;
      let row :=
        mkRow dose
          (WaterTreatmentSimulation.final_efficiency result)
          (Sedimentation.effluent_concentration
             (WaterTreatmentSimulation.sedimentation_results result))
          (WaterTreatmentSimulation.stage_pH
             (WaterTreatmentSimulation.after_coagulation result))
          (WaterTreatmentSimulation.stage_alkalinity
             (WaterTreatmentSimulation.after_coagulation result))
          (coagulant_g_per_day performance) in
      dose_trials HAS_PYEQL solve_ivp
        (mk (WaterTreatmentSimulation.after_run HAS_PYEQL (sim self) dose)
            (coagulant_dose self))
        doses' (results ++ [row])
  end.

(** [dose_response_curve(dose_range, n_points)], [dose_range] a pair. *)
Definition dose_response_curve (HAS_PYEQL : bool)
    (solve_ivp : (R -> list R -> result (list R)) -> R * R -> list R -> list R
                 -> result Flocculation.OdeResult)
    (self : t) (dose_range : option (R * R)) (n_points : nat) : result (list Row) :=
  let dose_range :=
    match dose_range with
    | None => (0.005, 0.060)
    | Some range => range
    end in
  let doses := linspace (fst dose_range) (snd dose_range) n_points in
  dose_trials HAS_PYEQL solve_ivp self doses [].

End PilotPlantSimulation.

(** ** Reference objects and stand-ins *)

(** Sum of a list of reals. *)
Definition Rsum (l : list R) : R := fold_right Rplus 0 l.

(** A distribution as the class keeps it: two arrays of one length. *)
Definition well_formed (p : ParticleDistribution.t) : Prop :=
  length (ParticleDistribution.concentrations p) = length (ParticleDistribution.sizes p).

(** Bin centres in increasing order, as [np.logspace] lays them out. *)
Fixpoint increasing (x : list R) : Prop :=
  match x with
  | x0 :: ((x1 :: _) as x') => x0 <= x1 /\ increasing x'
  | _ => True
  end.

(** Water at 20 degrees Celsius, pH 7.5, 120 mg/L alkalinity; 1.002 mPa s is
    the viscosity the source quotes for that temperature. *)
Definition baseline_water : WaterProperties.t :=
  WaterProperties.mk 20 7.5 120 50 998.2 0.001002.

(** The same water at pH 10 and at pH 3. *)
Definition alkaline_water : WaterProperties.t :=
  WaterProperties.mk 20 10 120 50 998.2 0.001002.

Definition acid_water : WaterProperties.t :=
  WaterProperties.mk 20 3 120 50 998.2 0.001002.

(** The stages with the constructors' default arguments. *)
Definition default_rapid_mix : RapidMixing.t := RapidMixing.mk 10 100 1000 30 360.

Definition default_flocculation : Flocculation.t :=
  Flocculation.mk 3 200 50 1800 (200 / 3) 600.

Definition default_sedimentation : Sedimentation.t := Sedimentation.mk 100 3 10 1080.

(** Two bins, 1 and 10 micrometres. *)
Definition two_bins (c0 c1 : R) : ParticleDistribution.t :=
  ParticleDistribution.mk [1; 10] [c0; c1].

(** A plant after [setup_system], holding 30 and 20 mg/L per micrometre in
    its two bins. *)
Definition two_bin_plant : WaterTreatmentSimulation.t :=
  WaterTreatmentSimulation.mk baseline_water (two_bins 30 20) default_rapid_mix
    default_flocculation default_sedimentation.

(** [breakage_kernel] overridden to return 0: breakage forced to zero. *)
Definition no_breakage (d G density_floc viscosity density_water : R) : result R :=
  Ok 0.

(** The value [coagulation_kernel] returns where it returns one. *)
Definition kernel_value (di dj G temperature viscosity : R) : R :=
  (2 * 1.38e-23 * (temperature + 273.15)) / (3 * viscosity) * (di + dj) ^ 2 / (di * dj)
  + 0.2 * sqrt (G ^ 2 * viscosity / 1000 / (viscosity / 1000)) * (di + dj) ^ 3.

(** The rate at which bins [j] and [k] collide: kernel times the two
    concentrations. *)
Definition pair_rate (n sizes : list R) (G : R) (w : WaterProperties.t) (j k : nat) : R :=
  kernel_value (nth j sizes 0 * 1e-6) (nth k sizes 0 * 1e-6) G
    (WaterProperties.temperature w) (WaterProperties.viscosity w)
  * nth j n 0 * nth k n 0.

(** Birth and death by aggregation in bin [i] as the specification writes
    them: [0.5 * sum_{j<i} K(size_j, size_{i-j-1}) n_j n_{i-j-1}] and
    [n_i * sum_j K(size_i, size_j) n_j], sizes taken in metres. *)
Definition birth_agg (n sizes : list R) (G : R) (w : WaterProperties.t) (i : nat) : R :=
  0.5 * Rsum (map (fun j =>
                     kernel_value (nth j sizes 0 * 1e-6) (nth (i - j - 1) sizes 0 * 1e-6) G
                       (WaterProperties.temperature w) (WaterProperties.viscosity w)
                     * nth j n 0 * nth (i - j - 1) n 0)
                  (seq 0 i)).

Definition death_agg (n sizes : list R) (G : R) (w : WaterProperties.t) (i : nat) : R :=
  nth i n 0
  * Rsum (map (fun j =>
                 kernel_value (nth i sizes 0 * 1e-6) (nth j sizes 0 * 1e-6) G
                   (WaterProperties.temperature w) (WaterProperties.viscosity w)
                 * nth j n 0)
              (seq 0 (length sizes))).

(** The rate as the specification words it, over the Boltzmann constant
    [kB]: a Brownian and a turbulent term, water density 1000 kg/m3. *)
Definition coagulationRate (kB di dj G temperature viscosity : R) : R :=
  let T := temperature + 273.15 in
  let epsilon := G ^ 2 * viscosity / 1000 in
  let nu := viscosity / 1000 in
  (2 * kB * T) / (3 * viscosity) * ((di + dj) ^ 2 / (di * dj))
  + 0.2 * sqrt (epsilon / nu) * (di + dj) ^ 3.

(** An integrator that gives up after its first step: the only column it
    hands back is the state it was started from, and it says so in
    [status] and [success]. *)
Definition stalled_solver (rhs : R -> list R -> result (list R)) (t_span : R * R)
    (y0 t_eval : list R) : result Flocculation.OdeResult :=
  Ok (Flocculation.mkOdeResult [0] [y0] (-1) false).

(** The state a recorded chamber ended in: the last column of its
    [distribution]. *)
Definition final_state (r : Flocculation.ChamberResult) : list R :=
  last (Flocculation.distribution r) [].

(** The same integrator with its verdict overwritten by "converged". *)
Definition reporting_success
    (solver : (R -> list R -> result (list R)) -> R * R -> list R -> list R
              -> result Flocculation.OdeResult)
    (rhs : R -> list R -> result (list R)) (t_span : R * R) (y0 t_eval : list R)
  : result Flocculation.OdeResult :=
  sol <- solver rhs t_span y0 t_eval ;;
  Ok (Flocculation.mkOdeResult (Flocculation.ode_t sol) (Flocculation.ode_y sol) 0 true).

(** The state the simplified pH model stores for a dose that consumes
    alkalinity. *)
Definition dosed (w : WaterProperties.t) (dose : R) : WaterProperties.t :=
  WaterProperties.mk (WaterProperties.temperature w)
    (Rmax 4.0 (Rmin 9.0 (WaterProperties.pH w
                         + - (dose / 342.15 * 6 * 100.09 * 1000 / 100.0) * 0.15)))
    (Rmax 0 (WaterProperties.alkalinity w - dose / 342.15 * 6 * 100.09 * 1000))
    (WaterProperties.turbidity w) (WaterProperties.density w)
    (WaterProperties.viscosity w).

(** Bin centres in strictly increasing order. *)
Fixpoint strictly_increasing (x : list R) : Prop :=
  match x with
  | x0 :: ((x1 :: _) as x') => x0 < x1 /\ strictly_increasing x'
  | _ => True
  end.

(** The exponent of the log-normal density at the size [xi]. *)
Definition lognormal_exponent (xi mu sigma : R) : R :=
  - (ln xi - mu) ^ 2 / (2 * sigma ^ 2).

(** [setup_system()] called with no keyword argument at all. *)
Definition no_kwargs : WaterTreatmentSimulation.Kwargs :=
  WaterTreatmentSimulation.mkKwargs None None None None None None None None None None
    None None None None None None.

(** The rate [breakage_kernel] returns where it returns one. *)
Definition breakage_value (d G viscosity density_water : R) : R :=
  1e-5 * sqrt (G ^ 2 * viscosity / density_water / (viscosity / density_water))
  * Rpower d (2 / 3).

(** Death and birth by breakage in bin [i], as the loops of
    [population_balance] add them up: [S_i * n_i] and the sum over the
    bins [j > i] of [2 / (j - i + 1) * S_j * n_j]. *)
Definition death_break (n sizes : list R) (G : R) (w : WaterProperties.t) (i : nat) : R :=
  breakage_value (nth i sizes 0 * 1e-6) G (WaterProperties.viscosity w)
    (WaterProperties.density w)
  * nth i n 0.

Definition birth_break (n sizes : list R) (G : R) (w : WaterProperties.t) (i : nat) : R :=
  Rsum (map (fun j =>
               2.0 / (INR j - INR i + 1)
               * breakage_value (nth j sizes 0 * 1e-6) G (WaterProperties.viscosity w)
                   (WaterProperties.density w)
               * nth j n 0)
            (seq (i + 1) (length sizes - (i + 1)))).

(** What the properties of the train ask of the integrator: it returns at
    least one column, every column as long as the state it was started
    from, and without a negative entry when that state had none. *)
Definition well_behaved
    (solver : (R -> list R -> result (list R)) -> R * R -> list R -> list R
              -> result Flocculation.OdeResult) : Prop :=
  forall rhs t_span y0 t_eval,
    exists sol,
      solver rhs t_span y0 t_eval = Ok sol /\
      Flocculation.ode_y sol <> [] /\
      Forall (fun column =>
                length column = length y0 /\
                (Forall (fun c => 0 <= c) y0 -> Forall (fun c => 0 <= c) column))
             (Flocculation.ode_y sol).

(** A plant [run_simulation] was written for: water of positive viscosity
    that is lighter than the flocs (1200 kg/m3), a distribution with mass
    and no negative concentration over positive bin centres in increasing
    order, a tank of positive height. *)
Definition operable (sim : WaterTreatmentSimulation.t) : Prop :=
  0 < WaterProperties.viscosity (WaterTreatmentSimulation.water_props sim) /\
  0 < WaterProperties.density (WaterTreatmentSimulation.water_props sim) < 1200 /\
  well_formed (WaterTreatmentSimulation.particles sim) /\
  Forall (fun s => 0 < s)
         (ParticleDistribution.sizes (WaterTreatmentSimulation.particles sim)) /\
  increasing (ParticleDistribution.sizes (WaterTreatmentSimulation.particles sim)) /\
  Forall (fun c => 0 <= c)
         (ParticleDistribution.concentrations (WaterTreatmentSimulation.particles sim)) /\
  trapz (ParticleDistribution.concentrations (WaterTreatmentSimulation.particles sim))
        (ParticleDistribution.sizes (WaterTreatmentSimulation.particles sim)) <> 0 /\
  0 < Sedimentation.height (WaterTreatmentSimulation.sedimentation sim) /\
  0 <= Sedimentation.residence_time (WaterTreatmentSimulation.sedimentation sim).

(** The doses added up along a series of trials. *)
Fixpoint running_totals (acc : R) (doses : list R) : list R :=
  match doses with
  | [] => []
  | dose :: doses' => (acc + dose) :: running_totals (acc + dose) doses'
  end.

(** The two-bin plant as a pilot plant set up with the default dose. *)
Definition two_bin_pilot : PilotPlantSimulation.t :=
  PilotPlantSimulation.mk two_bin_plant 0.025.

(** * Properties *)

(** ** Chemistry: [add_coagulant] *)

Section AddCoagulant.

Import WaterProperties.

Lemma Rmax_Rmin_clamp (lo hi x : R) : lo <= hi -> lo <= Rmax lo (Rmin hi x) <= hi.
Proof.
  intros H. split.
  - apply Rmax_l.
  - apply Rmax_lub; [assumption | apply Rmin_l].
Qed.

Lemma add_coagulant_positive (w : t) (dose volume : R) :
  0 < dose ->
  add_coagulant false w dose volume =
    (dosed w dose, (pH (dosed w dose), alkalinity (dosed w dose))).
Proof.
  intros Hd. unfold add_coagulant. cbv zeta.
  destruct (Rlt_dec 0 (dose / 342.15 * 6 * 100.09 * 1000)) as [_ | Hn].
  - reflexivity.
  - exfalso. apply Hn. lra.
Qed.

(** What any configuration stores for a dose that consumes none. *)
Lemma add_coagulant_nonpositive (has_pyeql : bool) (w : t) (dose volume : R) :
  dose <= 0 ->
  add_coagulant has_pyeql w dose volume =
    (set_alkalinity w (Rmax 0 (alkalinity w - dose / 342.15 * 6 * 100.09 * 1000)),
     (pH w, Rmax 0 (alkalinity w - dose / 342.15 * 6 * 100.09 * 1000))).
Proof.
  intros Hd. unfold add_coagulant. cbv zeta.
  destruct has_pyeql; [reflexivity|].
  destruct (Rlt_dec 0 (dose / 342.15 * 6 * 100.09 * 1000)) as [Hp | _].
  - exfalso. lra.
  - reflexivity.
Qed.

(** With pyEQL installed the pH branch is [pass]: no dose moves the pH. *)
Lemma add_coagulant_with_pyeql_keeps_pH (w : t) (dose volume : R) :
  pH (fst (add_coagulant true w dose volume)) = pH w.
Proof. reflexivity. Qed.

End AddCoagulant.

(** C7 (as amended).  With the simplified pH model, a dose that consumes
    alkalinity ([dose > 0]) leaves alkalinity at
    [max(0, alkalinity - consumed)] and pH at
    [clamp(pH - consumed / 100 * 0.15, 4, 9)]; a zero dose leaves pH as it
    was, unclamped; nothing else of the state changes and the returned
    pair is the stored pH and alkalinity. *)
Theorem add_coagulant_postcondition (w : WaterProperties.t) (dose volume : R) :
  0 <= dose ->
  let consumed := dose / 342.15 * 6 * 100.09 * 1000 in
  let w' := fst (WaterProperties.add_coagulant false w dose volume) in
  WaterProperties.alkalinity w' = Rmax 0 (WaterProperties.alkalinity w - consumed) /\
  (0 < dose ->
   WaterProperties.pH w' = Rmax 4 (Rmin 9 (WaterProperties.pH w - consumed / 100 * 0.15))) /\
  (dose = 0 -> WaterProperties.pH w' = WaterProperties.pH w) /\
  snd (WaterProperties.add_coagulant false w dose volume) =
    (WaterProperties.pH w', WaterProperties.alkalinity w') /\
  WaterProperties.temperature w' = WaterProperties.temperature w /\
  WaterProperties.turbidity w' = WaterProperties.turbidity w /\
  WaterProperties.density w' = WaterProperties.density w /\
  WaterProperties.viscosity w' = WaterProperties.viscosity w.
Proof.
  intros Hd consumed w'.
  destruct (Rle_lt_or_eq_dec 0 dose Hd) as [Hpos | Hzero].
  - subst w'. rewrite (add_coagulant_positive w dose volume Hpos).
    unfold dosed; simpl.
    repeat split; try reflexivity.
    + intros _. subst consumed.
      replace 4.0 with 4 by lra. replace 9.0 with 9 by lra.
      do 2 f_equal. lra.
    + intros E. exfalso. lra.
  - assert (Hle : dose <= 0) by lra.
    subst w'. rewrite (add_coagulant_nonpositive false w dose volume Hle). simpl.
    repeat split; try reflexivity.
    intros Hp. exfalso. lra.
Qed.

Lemma add_coagulant_postcondition_witness :
  0 <= 0.02 /\
  WaterProperties.alkalinity
    (fst (WaterProperties.add_coagulant false baseline_water 0.02 10)) =
    Rmax 0 (120 - 0.02 / 342.15 * 6 * 100.09 * 1000) /\
  WaterProperties.pH
    (fst (WaterProperties.add_coagulant false baseline_water 0.02 10)) =
    Rmax 4 (Rmin 9 (7.5 - 0.02 / 342.15 * 6 * 100.09 * 1000 / 100 * 0.15)).
Proof.
  assert (Hd : 0 <= 0.02) by lra.
  assert (Hpos : 0 < 0.02) by lra.
  split; [exact Hd |].
  pose proof (add_coagulant_postcondition baseline_water 0.02 10 Hd)
    as [Halk [HpH _]].
  split; [exact Halk | exact (HpH Hpos)].
Defined.

(** C7 as stated fails: at dose 0 the water of pH 10 keeps pH 10, while the
    stated formula clamps it to 9. *)
Lemma add_coagulant_zero_dose_not_clamped :
  WaterProperties.pH (fst (WaterProperties.add_coagulant false alkaline_water 0 10)) <>
  Rmax 4 (Rmin 9 (WaterProperties.pH alkaline_water
                  - (0 / 342.15 * 6 * 100.09 * 1000) / 100 * 0.15)).
Proof.
  rewrite (add_coagulant_nonpositive false alkaline_water 0 10) by lra.
  simpl.
  replace (10 - 0 / 342.15 * 6 * 100.09 * 1000 / 100 * 0.15) with 10 by lra.
  rewrite Rmin_left by lra. rewrite Rmax_right by lra. lra.
Qed.

(** C8 (as amended).  With the simplified pH model, for every dose above
    zero, however large, and for every dose at all when the pH before
    dosing already lies in [4, 9], the pH after dosing lies in [4, 9] and
    the alkalinity is not negative. *)
Theorem add_coagulant_clamped (w : WaterProperties.t) (dose volume : R) :
  0 < dose \/ 4 <= WaterProperties.pH w <= 9 ->
  let w' := fst (WaterProperties.add_coagulant false w dose volume) in
  4 <= WaterProperties.pH w' <= 9 /\ 0 <= WaterProperties.alkalinity w'.
Proof.
  intros H w'. subst w'.
  destruct (Rlt_le_dec 0 dose) as [Hpos | Hle].
  - rewrite (add_coagulant_positive w dose volume Hpos). unfold dosed; simpl. split.
    + replace 4.0 with 4 by lra. replace 9.0 with 9 by lra.
      apply Rmax_Rmin_clamp. lra.
    + apply Rmax_l.
  - rewrite (add_coagulant_nonpositive false w dose volume Hle). simpl. split.
    + destruct H as [Hpos | Hrange]; [exfalso; lra | exact Hrange].
    + apply Rmax_l.
Qed.

Lemma add_coagulant_clamped_witness :
  (0 < 1000000 \/ 4 <= WaterProperties.pH baseline_water <= 9) /\
  4 <= WaterProperties.pH
         (fst (WaterProperties.add_coagulant false baseline_water 1000000 10)) <= 9 /\
  0 <= WaterProperties.alkalinity
         (fst (WaterProperties.add_coagulant false baseline_water 1000000 10)).
Proof.
  assert (H : 0 < 1000000 \/ 4 <= WaterProperties.pH baseline_water <= 9)
    by (left; lra).
  split; [exact H |].
  exact (add_coagulant_clamped baseline_water 1000000 10 H).
Defined.

(** C8 as stated fails: at dose 0 the water of pH 3 keeps pH 3. *)
Lemma add_coagulant_zero_dose_below_four :
  ~ (4 <= WaterProperties.pH
            (fst (WaterProperties.add_coagulant false acid_water 0 10))
     /\ 0 <= WaterProperties.alkalinity
               (fst (WaterProperties.add_coagulant false acid_water 0 10))).
Proof.
  rewrite (add_coagulant_nonpositive false acid_water 0 10) by lra.
  simpl. intros [H _]. lra.
Qed.

(** ** Outcomes and sequences *)

Section Outcomes.

Lemma py_div_ok (a b : R) : b <> 0 -> py_div a b = Ok (a / b).
Proof. intros H. unfold py_div. destruct (Req_dec_T b 0); [contradiction | reflexivity]. Qed.

Lemma py_div_zero (a : R) : py_div a 0 = Raise ZeroDivisionError.
Proof. unfold py_div. destruct (Req_dec_T 0 0) as [_ | H]; [reflexivity | contradiction H; reflexivity]. Qed.

Lemma np_divide_ok (a b : R) : b <> 0 -> np_divide a b = Ok (a / b).
Proof. intros H. unfold np_divide. destruct (Req_dec_T b 0); [contradiction | reflexivity]. Qed.

Lemma np_divide_zero (a : R) : np_divide a 0 = NotFinite.
Proof. unfold np_divide. destruct (Req_dec_T 0 0) as [_ | H]; [reflexivity | contradiction H; reflexivity]. Qed.

Lemma np_sqrt_ok (x : R) : 0 <= x -> np_sqrt x = Ok (sqrt x).
Proof. intros H. unfold np_sqrt. destruct (Rlt_dec x 0); [exfalso; lra | reflexivity]. Qed.

Lemma np_pow_pos (x y : R) : 0 < x -> np_pow x y = Ok (Rpower x y).
Proof.
  intros H. unfold np_pow.
  destruct (Rlt_dec x 0); [exfalso; lra |].
  destruct (Req_dec_T x 0); [exfalso; lra | reflexivity].
Qed.

Lemma np_div_nan : np_div 0 0 = NaN.
Proof.
  unfold np_div. destruct (Req_dec_T 0 0) as [_ | H]; [reflexivity | contradiction H; reflexivity].
Qed.

Lemma np_div_finite (a b : R) : b <> 0 -> np_div a b = Finite (a / b).
Proof. intros H. unfold np_div. destruct (Req_dec_T b 0); [contradiction | reflexivity]. Qed.

Lemma getitem_ok (l : list R) (i : nat) :
  (i < length l)%nat -> getitem l i = Ok (nth i l 0).
Proof.
  intros H. unfold getitem.
  destruct (nth_error l i) as [x |] eqn:E.
  - f_equal. symmetry. apply nth_error_nth. exact E.
  - apply nth_error_None in E. lia.
Qed.

Lemma mapM_ok {A B : Type} (f : A -> result B) (g : A -> B) (l : list A) :
  (forall x, In x l -> f x = Ok (g x)) -> mapM f l = Ok (map g l).
Proof.
  induction l as [| x l IH]; intros H; simpl.
  - reflexivity.
  - rewrite (H x (or_introl eq_refl)). simpl.
    rewrite IH by (intros y Hy; apply H; right; exact Hy).
    reflexivity.
Qed.

Lemma mapM_length {A B : Type} (f : A -> result B) (l : list A) (r : list B) :
  mapM f l = Ok r -> length r = length l.
Proof.
  revert r. induction l as [| x l IH]; intros r H; simpl in H.
  - inversion H. reflexivity.
  - destruct (f x) as [y | e |]; simpl in H; try discriminate.
    destruct (mapM f l) as [ys | e |]; simpl in H; try discriminate.
    inversion H. simpl. f_equal. apply IH. reflexivity.
Qed.

Lemma for_sum_ok (js : list nat) (acc : R) (body : nat -> result R) (f : nat -> R) :
  (forall j, In j js -> body j = Ok (f j)) ->
  for_sum js acc body = Ok (acc + Rsum (map f js)).
Proof.
  revert acc. induction js as [| j js IH]; intros acc H; simpl.
  - f_equal. lra.
  - rewrite (H j (or_introl eq_refl)). simpl.
    rewrite IH by (intros k Hk; apply H; right; exact Hk).
    f_equal. lra.
Qed.

End Outcomes.

(** ** The trapezoidal rule *)

Section Trapz.

Lemma trapz_cons2 (y0 y1 x0 x1 : R) (y x : list R) :
  trapz (y0 :: y1 :: y) (x0 :: x1 :: x) =
  (x1 - x0) * (y1 + y0) / 2 + trapz (y1 :: y) (x1 :: x).
Proof. reflexivity. Qed.

(** Induction along the two arrays together. *)
Lemma trapz_ind (P : list R -> list R -> Prop) :
  (forall x, P [] x) ->
  (forall y, P y []) ->
  (forall y0 x0, P [y0] [x0]) ->
  (forall y0 x0 x1 x, P [y0] (x0 :: x1 :: x)) ->
  (forall y0 y1 y x0, P (y0 :: y1 :: y) [x0]) ->
  (forall y0 y1 y x0 x1 x,
      P (y1 :: y) (x1 :: x) -> P (y0 :: y1 :: y) (x0 :: x1 :: x)) ->
  forall y x, P y x.
Proof.
  intros Hnil1 Hnil2 H11 H1m Hm1 Hstep.
  induction y as [| y0 y IH]; intros x.
  - apply Hnil1.
  - destruct x as [| x0 x]; [apply Hnil2 |].
    destruct y as [| y1 y]; destruct x as [| x1 x].
    + apply H11.
    + apply H1m.
    + apply Hm1.
    + apply Hstep. apply IH.
Qed.

Lemma trapz_scale_x (k : R) (y x : list R) :
  trapz y (map (fun s => s * k) x) = k * trapz y x.
Proof.
  revert y x. apply trapz_ind.
  - intros x. destruct x; reflexivity || (simpl; lra).
  - intros y. destruct y as [| y0 [| y1 y]]; simpl; lra.
  - intros y0 x0. simpl. lra.
  - intros y0 x0 x1 x. simpl. lra.
  - intros y0 y1 y x0. simpl. lra.
  - intros y0 y1 y x0 x1 x IH.
    change (map (fun s => s * k) (x0 :: x1 :: x))
      with (x0 * k :: map (fun s => s * k) (x1 :: x)).
    change (map (fun s => s * k) (x1 :: x))
      with (x1 * k :: map (fun s => s * k) x) in *.
    rewrite !trapz_cons2. rewrite IH. lra.
Qed.

Lemma trapz_scale_y (f : R -> R) (k : R) (y x : list R) :
  (forall c, f c = c * k) ->
  trapz (map f y) x = k * trapz y x.
Proof.
  intros Hf. revert y x. apply trapz_ind.
  - intros x. simpl. lra.
  - intros y. destruct y as [| y0 [| y1 y]]; simpl; lra.
  - intros y0 x0. simpl. lra.
  - intros y0 x0 x1 x. simpl. lra.
  - intros y0 y1 y x0. simpl. lra.
  - intros y0 y1 y x0 x1 x IH.
    change (map f (y0 :: y1 :: y)) with (f y0 :: map f (y1 :: y)).
    change (map f (y1 :: y)) with (f y1 :: map f y) in *.
    rewrite !trapz_cons2. rewrite IH. rewrite !Hf. lra.
Qed.

Lemma trapz_zeros (n : nat) (x : list R) : trapz (repeat 0 n) x = 0.
Proof.
  revert x. induction n as [| n IH]; intros x; simpl.
  - reflexivity.
  - destruct n as [| n]; simpl.
    + destruct x; reflexivity.
    + destruct x as [| x0 [| x1 x]]; try reflexivity.
      specialize (IH (x1 :: x)). simpl in IH. rewrite IH. lra.
Qed.

(** On increasing bin centres the rule is monotone in the integrand. *)
Lemma trapz_monotone (y z x : list R) :
  increasing x ->
  Forall2 Rle y z ->
  trapz y x <= trapz z x.
Proof.
  intros Hx Hyz. revert x Hx.
  induction Hyz as [| y0 z0 y z H0 Hrest IH]; intros x Hx.
  - simpl. lra.
  - destruct x as [| x0 x].
    + destruct y, z; simpl; lra.
    + destruct Hrest as [| y1 z1 y z H1 Hrest].
      * simpl. lra.
      * destruct x as [| x1 x].
        { simpl. lra. }
        rewrite !trapz_cons2.
        destruct Hx as [Hx01 Hx].
        specialize (IH (x1 :: x) Hx).
        assert (Hstep : (x1 - x0) * (y1 + y0) / 2 <= (x1 - x0) * (z1 + z0) / 2) by nra.
        lra.
Qed.

End Trapz.

(** ** Rapid mixing *)

Section RapidMix.

Lemma normalize_ok (p : ParticleDistribution.t) (total : R) :
  trapz (ParticleDistribution.concentrations p) (ParticleDistribution.sizes p) <> 0 ->
  ParticleDistribution.normalize p total =
    Ok (ParticleDistribution.mk (ParticleDistribution.sizes p)
          (map (fun c => c * total
                         / trapz (ParticleDistribution.concentrations p)
                                 (ParticleDistribution.sizes p))
               (ParticleDistribution.concentrations p))).
Proof.
  intros H. unfold ParticleDistribution.normalize. cbv zeta.
  rewrite (mapM_ok _ (fun c => c * total
                               / trapz (ParticleDistribution.concentrations p)
                                       (ParticleDistribution.sizes p))).
  - reflexivity.
  - intros c _. apply np_divide_ok. exact H.
Qed.

Lemma normalize_zero_mass (p : ParticleDistribution.t) (total : R) :
  ParticleDistribution.concentrations p <> [] ->
  trapz (ParticleDistribution.concentrations p) (ParticleDistribution.sizes p) = 0 ->
  ParticleDistribution.normalize p total = NotFinite.
Proof.
  intros Hne H0. unfold ParticleDistribution.normalize. cbv zeta.
  destruct (ParticleDistribution.concentrations p) as [| c cs] eqn:E.
  - contradiction Hne. reflexivity.
  - rewrite H0. simpl. rewrite np_divide_zero. reflexivity.
Qed.

(** The factor applied to the bin centres. *)
Lemma scale_factor_bounds (dose : R) :
  0 <= dose -> 1 <= 1 + 0.1 * Rmin 1.0 (dose / 0.05) <= 1.1.
Proof.
  intros H.
  assert (H1 : Rmin 1.0 (dose / 0.05) <= 1) by (apply Rle_trans with 1.0; [apply Rmin_l | lra]).
  assert (H0 : 0 <= Rmin 1.0 (dose / 0.05)) by (apply Rmin_glb; lra).
  lra.
Qed.

Lemma process_ok (has_pyeql : bool) (rm : RapidMixing.t) (w : WaterProperties.t)
    (p : ParticleDistribution.t) (dose : R) :
  let scale := 1 + 0.1 * Rmin 1.0 (dose / 0.05) in
  let mass := trapz (ParticleDistribution.concentrations p) (ParticleDistribution.sizes p) in
  scale <> 0 -> mass <> 0 ->
  RapidMixing.process has_pyeql rm w p dose =
    Ok (fst (WaterProperties.add_coagulant has_pyeql w dose (RapidMixing.volume rm)),
        ParticleDistribution.mk
          (map (fun s => s * scale) (ParticleDistribution.sizes p))
          (map (fun c => c * mass / (scale * mass))
               (ParticleDistribution.concentrations p))).
Proof.
  intros scale mass Hs Hm. unfold RapidMixing.process.
  destruct (WaterProperties.add_coagulant has_pyeql w dose (RapidMixing.volume rm))
    as [w' [new_pH new_alk]].
  cbv zeta. fold scale. fold mass.
  rewrite normalize_ok; simpl.
  - rewrite trapz_scale_x. reflexivity.
  - rewrite trapz_scale_x. fold mass. nra.
Qed.

Lemma process_zero_mass (has_pyeql : bool) (rm : RapidMixing.t) (w : WaterProperties.t)
    (p : ParticleDistribution.t) (dose : R) :
  ParticleDistribution.concentrations p <> [] ->
  trapz (ParticleDistribution.concentrations p) (ParticleDistribution.sizes p) = 0 ->
  RapidMixing.process has_pyeql rm w p dose = NotFinite.
Proof.
  intros Hne H0. unfold RapidMixing.process.
  destruct (WaterProperties.add_coagulant has_pyeql w dose (RapidMixing.volume rm))
    as [w' [new_pH new_alk]].
  cbv zeta.
  rewrite normalize_zero_mass; simpl.
  - reflexivity.
  - exact Hne.
  - rewrite trapz_scale_x. rewrite H0. lra.
Qed.

End RapidMix.

(** C9 (as amended).  At dose 0 the chemistry is left as it was (for a
    state whose alkalinity is not negative), the charge-neutralisation
    factor is 0 and the scale factor 1; and for every dose >= 0 and every
    input distribution whose total mass is not zero, rapid mixing returns a
    distribution with the bin centres scaled by [1 + 0.1 * factor] (the
    same centres at dose 0) and the same total mass. *)
Theorem rapid_mix_zero_dose_and_mass (has_pyeql : bool) (rm : RapidMixing.t)
    (w : WaterProperties.t) (p : ParticleDistribution.t) (dose : R) :
  well_formed p ->
  0 <= dose ->
  let factor := Rmin 1.0 (dose / 0.05) in
  let w' := fst (WaterProperties.add_coagulant has_pyeql w dose (RapidMixing.volume rm)) in
  (dose = 0 -> 0 <= WaterProperties.alkalinity w ->
   w' = w /\ factor = 0 /\ 1 + 0.1 * factor = 1) /\
  (trapz (ParticleDistribution.concentrations p) (ParticleDistribution.sizes p) <> 0 ->
   exists p',
     RapidMixing.process has_pyeql rm w p dose = Ok (w', p') /\
     well_formed p' /\
     ParticleDistribution.sizes p' =
       map (fun s => s * (1 + 0.1 * factor)) (ParticleDistribution.sizes p) /\
     (dose = 0 -> ParticleDistribution.sizes p' = ParticleDistribution.sizes p) /\
     trapz (ParticleDistribution.concentrations p') (ParticleDistribution.sizes p') =
       trapz (ParticleDistribution.concentrations p) (ParticleDistribution.sizes p)).
Proof.
  intros Hwf Hd factor w'.
  assert (Hfactor0 : dose = 0 -> factor = 0).
  { intros E. subst factor. rewrite E.
    replace (0 / 0.05) with 0 by lra. apply Rmin_right. lra. }
  split.
  - intros E Halk. split; [| split].
    + subst w'. rewrite add_coagulant_nonpositive by lra. simpl.
      rewrite E. replace (WaterProperties.alkalinity w - 0 / 342.15 * 6 * 100.09 * 1000)
        with (WaterProperties.alkalinity w) by lra.
      rewrite Rmax_right by exact Halk.
      destruct w; reflexivity.
    + apply Hfactor0. exact E.
    + rewrite (Hfactor0 E). lra.
  - intros Hm.
    pose proof (scale_factor_bounds dose Hd) as Hb. fold factor in Hb.
    assert (Hs : 1 + 0.1 * factor <> 0) by lra.
    eexists. split; [| split; [| split; [| split]]].
    + subst w' factor. apply process_ok; assumption.
    + unfold well_formed in *. simpl. rewrite !length_map. exact Hwf.
    + reflexivity.
    + intros E. simpl. unfold factor in Hfactor0. rewrite (Hfactor0 E).
      rewrite <- (map_id (ParticleDistribution.sizes p)) at 2.
      apply map_ext. intros s. lra.
    + simpl. unfold factor in Hs. rewrite trapz_scale_x.
      rewrite (trapz_scale_y _
                 (trapz (ParticleDistribution.concentrations p)
                        (ParticleDistribution.sizes p)
                  / ((1 + 0.1 * Rmin 1.0 (dose / 0.05))
                     * trapz (ParticleDistribution.concentrations p)
                             (ParticleDistribution.sizes p)))).
      * field. split; assumption.
      * intros c. field. split; assumption.
Qed.

Lemma rapid_mix_zero_dose_and_mass_witness :
  (well_formed (two_bins 1 1) /\ 0 <= 0.02) /\
  exists p',
    RapidMixing.process false default_rapid_mix baseline_water (two_bins 1 1) 0.02 =
      Ok (fst (WaterProperties.add_coagulant false baseline_water 0.02
                 (RapidMixing.volume default_rapid_mix)), p') /\
    trapz (ParticleDistribution.concentrations p') (ParticleDistribution.sizes p') =
      trapz [1; 1] [1; 10].
Proof.
  assert (Hwf : well_formed (two_bins 1 1)) by reflexivity.
  assert (Hd : 0 <= 0.02) by lra.
  assert (Hm : trapz (ParticleDistribution.concentrations (two_bins 1 1))
                     (ParticleDistribution.sizes (two_bins 1 1)) <> 0)
    by (simpl; lra).
  split; [exact (conj Hwf Hd) |].
  destruct (proj2 (rapid_mix_zero_dose_and_mass false default_rapid_mix
                     baseline_water (two_bins 1 1) 0.02 Hwf Hd) Hm)
    as [p' [Hrun [_ [_ [_ Hmass]]]]].
  exists p'. split; [exact Hrun | exact Hmass].
Defined.

(** C9 as stated fails: on the all-zero distribution the renormalisation
    divides zero by zero, so the concentrations handed on are not numbers
    and no total mass is kept. *)
Lemma rapid_mix_zero_mass_not_finite :
  RapidMixing.process false default_rapid_mix baseline_water (two_bins 0 0) 0.02
  = NotFinite.
Proof.
  apply process_zero_mass.
  - discriminate.
  - simpl. lra.
Qed.

(** ** Stage entry *)

Section StageEntry.

Lemma flocculation_init_ok (chambers : Z) (total_volume G_avg total_time : R) :
  chambers <> 0%Z ->
  Flocculation.init chambers total_volume G_avg total_time =
    Ok (Flocculation.mk chambers total_volume G_avg total_time
          (total_volume / IZR chambers) (total_time / IZR chambers)).
Proof.
  intros H. unfold Flocculation.init.
  assert (Hz : IZR chambers <> 0) by (apply not_0_IZR; exact H).
  rewrite !py_div_ok by exact Hz. reflexivity.
Qed.

Lemma flocculation_init_zero (total_volume G_avg total_time : R) :
  Flocculation.init 0 total_volume G_avg total_time = Raise ZeroDivisionError.
Proof. unfold Flocculation.init. rewrite py_div_zero. reflexivity. Qed.

End StageEntry.

(** C5 (as amended).  No stage validates its arguments.  [add_coagulant]
    has no failure mode at all: a negative dose is processed like any
    other, leaving pH as it was and alkalinity at
    [max(0, alkalinity - consumed)] with [consumed < 0].  The flocculation
    constructor accepts every chamber count but 0, negative ones included,
    with any volume and time; at 0 the division raises
    [ZeroDivisionError]. *)
Theorem no_validation_at_stage_entry (has_pyeql : bool) (w : WaterProperties.t)
    (dose volume : R) (chambers : Z) (total_volume G_avg total_time : R) :
  dose < 0 -> chambers <> 0%Z ->
  let consumed := dose / 342.15 * 6 * 100.09 * 1000 in
  consumed < 0 /\
  WaterProperties.add_coagulant has_pyeql w dose volume =
    (WaterProperties.set_alkalinity w (Rmax 0 (WaterProperties.alkalinity w - consumed)),
     (WaterProperties.pH w, Rmax 0 (WaterProperties.alkalinity w - consumed))) /\
  Flocculation.init chambers total_volume G_avg total_time =
    Ok (Flocculation.mk chambers total_volume G_avg total_time
          (total_volume / IZR chambers) (total_time / IZR chambers)) /\
  Flocculation.init 0 total_volume G_avg total_time = Raise ZeroDivisionError.
Proof.
  intros Hd Hc consumed. subst consumed. split; [lra |]. split; [| split].
  - apply add_coagulant_nonpositive. lra.
  - apply flocculation_init_ok. exact Hc.
  - apply flocculation_init_zero.
Qed.

Lemma no_validation_at_stage_entry_witness :
  (-0.01 < 0 /\ (-3)%Z <> 0%Z) /\
  WaterProperties.add_coagulant false baseline_water (-0.01) 10 =
    (WaterProperties.set_alkalinity baseline_water
       (Rmax 0 (120 - -0.01 / 342.15 * 6 * 100.09 * 1000)),
     (7.5, Rmax 0 (120 - -0.01 / 342.15 * 6 * 100.09 * 1000))) /\
  Flocculation.init (-3) 200 50 1800 =
    Ok (Flocculation.mk (-3) 200 50 1800 (200 / IZR (-3)) (1800 / IZR (-3))).
Proof.
  assert (Hd : -0.01 < 0) by lra.
  assert (Hc : (-3)%Z <> 0%Z) by discriminate.
  split; [split; [exact Hd | exact Hc] |].
  pose proof (no_validation_at_stage_entry false baseline_water (-0.01) 10 (-3)
                200 50 1800 Hd Hc) as [_ [Hdose [Hinit _]]].
  split; [exact Hdose | exact Hinit].
Defined.

(** C5 as stated fails: rapid mixing with the negative dose -0.01 g/L is
    not rejected; it returns, with the alkalinity raised above the 120 mg/L
    it started from, and a flocculation stage of -3 chambers is built
    without complaint. *)
Lemma negative_dose_and_chamber_count_accepted :
  (exists w' p',
      RapidMixing.process false default_rapid_mix baseline_water (two_bins 1 1) (-0.01)
      = Ok (w', p')
      /\ 120 < WaterProperties.alkalinity w') /\
  (exists floc, Flocculation.init (-3) 200 50 1800 = Ok floc).
Proof.
  split.
  - eexists. eexists. split.
    + apply process_ok.
      * rewrite Rmin_right by lra. lra.
      * simpl. lra.
    + rewrite add_coagulant_nonpositive by lra. simpl.
      apply Rlt_le_trans with (120 - -0.01 / 342.15 * 6 * 100.09 * 1000); [lra |].
      apply Rmax_r.
  - eexists. apply flocculation_init_ok. discriminate.
Qed.

(** ** The kernels *)

Section Kernels.

(** The shear rate [sqrt(epsilon / nu)] is [|G|], whatever the viscosity
    and density. *)
Lemma shear_ratio (G viscosity density : R) :
  viscosity <> 0 -> density <> 0 ->
  G ^ 2 * viscosity / density / (viscosity / density) = G ^ 2.
Proof. intros Hm Hr. field. split; assumption. Qed.

Lemma shear_rate_abs (G viscosity density : R) :
  viscosity <> 0 -> density <> 0 ->
  sqrt (G ^ 2 * viscosity / density / (viscosity / density)) = Rabs G.
Proof.
  intros Hm Hr. rewrite shear_ratio by assumption.
  replace (G ^ 2) with (Rsqr G) by (unfold Rsqr; ring).
  apply sqrt_Rsqr_abs.
Qed.

Lemma coagulation_kernel_ok (di dj G temperature viscosity : R) :
  viscosity <> 0 -> di * dj <> 0 ->
  Flocculation.coagulation_kernel di dj G temperature viscosity =
    Ok (kernel_value di dj G temperature viscosity).
Proof.
  intros Hm Hd. unfold Flocculation.coagulation_kernel, kernel_value. cbv zeta.
  rewrite py_div_ok by lra. cbn [bind].
  rewrite np_divide_ok by exact Hd. cbn [bind].
  rewrite py_div_ok by lra. cbn [bind].
  rewrite py_div_ok by lra. cbn [bind].
  rewrite py_div_ok by lra. cbn [bind].
  rewrite np_sqrt_ok.
  - reflexivity.
  - rewrite shear_ratio by lra. apply pow2_ge_0.
Qed.

Lemma breakage_kernel_ok (d G density_floc viscosity density_water : R) :
  viscosity <> 0 -> density_water <> 0 -> 0 < d ->
  Flocculation.breakage_kernel d G density_floc viscosity density_water =
    Ok (1e-5 * sqrt (G ^ 2 * viscosity / density_water / (viscosity / density_water))
        * Rpower d (2 / 3)).
Proof.
  intros Hm Hr Hd. unfold Flocculation.breakage_kernel. cbv zeta.
  rewrite py_div_ok by exact Hr. cbn [bind].
  rewrite py_div_ok by exact Hr. cbn [bind].
  rewrite py_div_ok.
  2:{ intros E. apply Hm.
      replace viscosity with (viscosity / density_water * density_water)
        by (field; exact Hr).
      rewrite E. ring. }
  cbn [bind]. rewrite np_sqrt_ok.
  - cbn [bind]. rewrite np_pow_pos by exact Hd. reflexivity.
  - rewrite shear_ratio by assumption. apply pow2_ge_0.
Qed.

Lemma kernel_value_nonneg (di dj G temperature viscosity : R) :
  0 < viscosity -> 0 <= temperature + 273.15 -> 0 < di -> 0 < dj ->
  0 <= kernel_value di dj G temperature viscosity.
Proof.
  intros Hm HT Hi Hj. unfold kernel_value.
  apply Rplus_le_le_0_compat.
  - apply Rmult_le_pos.
    + apply Rmult_le_pos.
      * apply Rmult_le_pos; [lra |].
        apply Rlt_le. apply Rinv_0_lt_compat. lra.
      * apply pow2_ge_0.
    + apply Rlt_le. apply Rinv_0_lt_compat. apply Rmult_lt_0_compat; assumption.
  - apply Rmult_le_pos.
    + apply Rmult_le_pos; [lra | apply sqrt_pos].
    + apply pow_le. lra.
Qed.

End Kernels.

(** C6 (as amended).  For sizes above zero and a viscosity other than zero
    the kernel returns the sum of the Brownian term
    [(2 kB T) / (3 mu) * (di + dj)^2 / (di dj)] and the turbulent term
    [0.2 * sqrt(epsilon / nu) * (di + dj)^3], with [T] in kelvin,
    [epsilon = G^2 mu / 1000], [nu = mu / 1000] and the Boltzmann constant
    rounded to [kB = 1.38e-23] J/K. *)
Theorem coagulation_kernel_formula (di dj G temperature viscosity : R) :
  0 < di -> 0 < dj -> viscosity <> 0 ->
  Flocculation.coagulation_kernel di dj G temperature viscosity =
    Ok (coagulationRate 1.38e-23 di dj G temperature viscosity).
Proof.
  intros Hi Hj Hm.
  rewrite coagulation_kernel_ok; [| exact Hm | nra].
  f_equal. unfold kernel_value, coagulationRate. cbv zeta.
  field. split; [| split]; lra.
Qed.

Lemma coagulation_kernel_formula_witness :
  (0 < 1e-6 /\ 0 < 2e-6 /\ 0.001002 <> 0) /\
  Flocculation.coagulation_kernel 1e-6 2e-6 50 20 0.001002 =
    Ok (coagulationRate 1.38e-23 1e-6 2e-6 50 20 0.001002).
Proof.
  assert (Hi : 0 < 1e-6) by lra.
  assert (Hj : 0 < 2e-6) by lra.
  assert (Hm : 0.001002 <> 0) by lra.
  split; [split; [exact Hi | split; [exact Hj | exact Hm]] |].
  exact (coagulation_kernel_formula 1e-6 2e-6 50 20 0.001002 Hi Hj Hm).
Defined.

(** C6 as stated fails: with the constant 1.380649e-23 of the claim the
    formula gives another value than the code, here for two particles of
    1 micrometre at 20 degrees Celsius, G = 50 1/s; and at viscosity 0 the
    code returns no rate at all. *)
Lemma coagulation_kernel_not_codata_constant :
  Flocculation.coagulation_kernel 1e-6 1e-6 50 20 0.001002 <>
    Ok (coagulationRate 1.380649e-23 1e-6 1e-6 50 20 0.001002) /\
  Flocculation.coagulation_kernel 1e-6 1e-6 50 20 0 = Raise ZeroDivisionError.
Proof.
  split.
  - rewrite coagulation_kernel_ok by lra.
    intros E. injection E as E. revert E.
    unfold kernel_value, coagulationRate. cbv zeta.
    set (X := sqrt (50 ^ 2 * 0.001002 / 1000 / (0.001002 / 1000))).
    intros E. lra.
  - unfold Flocculation.coagulation_kernel. cbv zeta.
    replace (3 * 0) with 0 by lra. rewrite py_div_zero. reflexivity.
Qed.

(** C10 (as amended).  For every velocity gradient [G] and every positive
    viscosity and density the shear rate [sqrt(epsilon / nu)] is [|G|], so
    the turbulent coagulation term is [0.2 * |G| * (di + dj)^3] and the
    breakage rate [1e-5 * |G| * d^(2/3)]: neither depends on the viscosity
    or density passed in.  For [G >= 0] the shear rate is [G] itself and the
    two terms are [0.2 * G * (di + dj)^3] and [1e-5 * G * d^(2/3)]. *)
Theorem shear_rate_cancels (di dj d G temperature density_floc viscosity density : R) :
  0 < viscosity -> 0 < density -> 0 < di -> 0 < dj -> 0 < d ->
  sqrt (G ^ 2 * viscosity / density / (viscosity / density)) = Rabs G /\
  Flocculation.coagulation_kernel di dj G temperature viscosity =
    Ok ((2 * 1.38e-23 * (temperature + 273.15)) / (3 * viscosity)
        * (di + dj) ^ 2 / (di * dj)
        + 0.2 * Rabs G * (di + dj) ^ 3) /\
  Flocculation.breakage_kernel d G density_floc viscosity density =
    Ok (1e-5 * Rabs G * Rpower d (2 / 3)) /\
  (forall density_floc' viscosity' density',
      0 < viscosity' -> 0 < density' ->
      Flocculation.breakage_kernel d G density_floc' viscosity' density' =
      Flocculation.breakage_kernel d G density_floc viscosity density) /\
  (0 <= G ->
   sqrt (G ^ 2 * viscosity / density / (viscosity / density)) = G /\
   Flocculation.coagulation_kernel di dj G temperature viscosity =
     Ok ((2 * 1.38e-23 * (temperature + 273.15)) / (3 * viscosity)
         * (di + dj) ^ 2 / (di * dj)
         + 0.2 * G * (di + dj) ^ 3) /\
   Flocculation.breakage_kernel d G density_floc viscosity density =
     Ok (1e-5 * G * Rpower d (2 / 3))).
Proof.
  intros Hm Hr Hi Hj Hd.
  assert (Hshear : forall mu rho, 0 < mu -> 0 < rho ->
            sqrt (G ^ 2 * mu / rho / (mu / rho)) = Rabs G).
  { intros mu rho Hmu Hrho. apply shear_rate_abs; lra. }
  assert (Hcoag :
    Flocculation.coagulation_kernel di dj G temperature viscosity =
    Ok ((2 * 1.38e-23 * (temperature + 273.15)) / (3 * viscosity)
        * (di + dj) ^ 2 / (di * dj)
        + 0.2 * Rabs G * (di + dj) ^ 3)).
  { rewrite coagulation_kernel_ok; [| lra | nra].
    unfold kernel_value. rewrite (Hshear viscosity 1000) by lra. reflexivity. }
  assert (Hbreak :
    Flocculation.breakage_kernel d G density_floc viscosity density =
    Ok (1e-5 * Rabs G * Rpower d (2 / 3))).
  { rewrite breakage_kernel_ok by lra. rewrite Hshear by assumption. reflexivity. }
  split; [apply Hshear; assumption |]. split; [exact Hcoag |].
  split; [exact Hbreak |]. split.
  - intros fd' mu' rho' Hmu' Hrho'.
    rewrite !breakage_kernel_ok by lra. rewrite !Hshear by assumption. reflexivity.
  - intros HG.
    assert (E : Rabs G = G) by (apply Rabs_right; lra).
    rewrite Hshear by assumption. rewrite Hcoag, Hbreak. rewrite E.
    split; [reflexivity |]. split; reflexivity.
Qed.

Lemma shear_rate_cancels_witness :
  (0 < 0.001002 /\ 0 < 998.2 /\ 0 < 1e-6 /\ 0 < 2e-6 /\ 0 < 5e-6) /\
  sqrt (50 ^ 2 * 0.001002 / 998.2 / (0.001002 / 998.2)) = 50 /\
  Flocculation.breakage_kernel 5e-6 50 1200 0.001002 998.2 =
    Ok (1e-5 * 50 * Rpower 5e-6 (2 / 3)).
Proof.
  assert (HG : 0 <= 50) by lra.
  assert (Hm : 0 < 0.001002) by lra.
  assert (Hr : 0 < 998.2) by lra.
  assert (Hi : 0 < 1e-6) by lra.
  assert (Hj : 0 < 2e-6) by lra.
  assert (Hd : 0 < 5e-6) by lra.
  split; [repeat split; assumption |].
  pose proof (shear_rate_cancels 1e-6 2e-6 5e-6 50 20 1200 0.001002 998.2
                Hm Hr Hi Hj Hd) as [_ [_ [_ [_ Hpos]]]].
  destruct (Hpos HG) as [Hs [_ Hb]].
  split; [exact Hs | exact Hb].
Defined.

(** C10 as stated fails for a negative velocity gradient, which the
    constructor stores as it comes: at [G = -50] the shear rate is 50, not
    [G], and the breakage rate is [1e-5 * 50 * d^(2/3)], not
    [1e-5 * G * d^(2/3)]. *)
Lemma shear_rate_of_negative_gradient :
  sqrt ((-50) ^ 2 * 0.001002 / 998.2 / (0.001002 / 998.2)) = 50 /\
  sqrt ((-50) ^ 2 * 0.001002 / 998.2 / (0.001002 / 998.2)) <> -50 /\
  Flocculation.breakage_kernel 5e-6 (-50) 1200 0.001002 998.2
    = Ok (1e-5 * 50 * Rpower 5e-6 (2 / 3)) /\
  Flocculation.breakage_kernel 5e-6 (-50) 1200 0.001002 998.2
    <> Ok (1e-5 * (-50) * Rpower 5e-6 (2 / 3)).
Proof.
  assert (Hs : sqrt ((-50) ^ 2 * 0.001002 / 998.2 / (0.001002 / 998.2)) = 50).
  { rewrite shear_rate_abs by lra. rewrite Rabs_left by lra. lra. }
  assert (Hb : Flocculation.breakage_kernel 5e-6 (-50) 1200 0.001002 998.2
               = Ok (1e-5 * 50 * Rpower 5e-6 (2 / 3))).
  { rewrite breakage_kernel_ok by lra. rewrite Hs. reflexivity. }
  split; [exact Hs |]. split; [rewrite Hs; lra |]. split; [exact Hb |].
  rewrite Hb. intros E. injection E as E.
  assert (Hp : 0 < Rpower 5e-6 (2 / 3)) by apply exp_pos.
  nra.
Qed.

(** ** Finite sums *)

Section Sums.

Lemma Rsum_app (l1 l2 : list R) : Rsum (l1 ++ l2) = Rsum l1 + Rsum l2.
Proof.
  induction l1 as [| a l1 IH]; simpl.
  - lra.
  - rewrite IH. lra.
Qed.

Lemma Rsum_seq_S (f : nat -> R) (k : nat) :
  Rsum (map f (seq 0 (S k))) = Rsum (map f (seq 0 k)) + f k.
Proof.
  rewrite seq_S, map_app, Rsum_app. simpl. lra.
Qed.

Lemma Rsum_seq_ext (f g : nat -> R) (k : nat) :
  (forall j, (j < k)%nat -> f j = g j) ->
  Rsum (map f (seq 0 k)) = Rsum (map g (seq 0 k)).
Proof.
  intros H. f_equal. apply map_ext_in. intros j Hj.
  apply in_seq in Hj. apply H. lia.
Qed.

Lemma Rsum_seq_le (f g : nat -> R) (k : nat) :
  (forall j, (j < k)%nat -> f j <= g j) ->
  Rsum (map f (seq 0 k)) <= Rsum (map g (seq 0 k)).
Proof.
  induction k as [| k IH]; intros H.
  - simpl. lra.
  - rewrite !Rsum_seq_S.
    assert (Hk : f k <= g k) by (apply H; lia).
    assert (Hrest : Rsum (map f (seq 0 k)) <= Rsum (map g (seq 0 k)))
      by (apply IH; intros j Hj; apply H; lia).
    lra.
Qed.

Lemma Rsum_seq_nonneg (f : nat -> R) (k : nat) :
  (forall j, (j < k)%nat -> 0 <= f j) -> 0 <= Rsum (map f (seq 0 k)).
Proof.
  induction k as [| k IH]; intros H.
  - simpl. lra.
  - rewrite Rsum_seq_S.
    assert (Hk : 0 <= f k) by (apply H; lia).
    assert (Hrest : 0 <= Rsum (map f (seq 0 k)))
      by (apply IH; intros j Hj; apply H; lia).
    lra.
Qed.

Lemma Rsum_seq_minus (f g : nat -> R) (k : nat) :
  Rsum (map (fun j => f j - g j) (seq 0 k)) =
  Rsum (map f (seq 0 k)) - Rsum (map g (seq 0 k)).
Proof.
  induction k as [| k IH].
  - simpl. lra.
  - rewrite !Rsum_seq_S, IH. lra.
Qed.

Lemma Rsum_seq_plus (f g : nat -> R) (k : nat) :
  Rsum (map (fun j => f j + g j) (seq 0 k)) =
  Rsum (map f (seq 0 k)) + Rsum (map g (seq 0 k)).
Proof.
  induction k as [| k IH].
  - simpl. lra.
  - rewrite !Rsum_seq_S, IH. lra.
Qed.

Lemma Rsum_seq_scal (c : R) (f : nat -> R) (k : nat) :
  Rsum (map (fun j => c * f j) (seq 0 k)) = c * Rsum (map f (seq 0 k)).
Proof.
  induction k as [| k IH].
  - simpl. lra.
  - rewrite !Rsum_seq_S, IH. lra.
Qed.

(** A sum of terms that are not negative grows with its range. *)
Lemma Rsum_seq_prefix (f : nat -> R) (k m : nat) :
  (k <= m)%nat -> (forall j, (j < m)%nat -> 0 <= f j) ->
  Rsum (map f (seq 0 k)) <= Rsum (map f (seq 0 m)).
Proof.
  intros Hkm Hf. induction m as [| m IH].
  - assert (k = 0)%nat by lia. subst k. lra.
  - destruct (Nat.eq_dec k (S m)) as [E | E].
    + subst k. lra.
    + rewrite Rsum_seq_S.
      assert (H1 : Rsum (map f (seq 0 k)) <= Rsum (map f (seq 0 m)))
        by (apply IH; [lia | intros j Hj; apply Hf; lia]).
      assert (H2 : 0 <= f m) by (apply Hf; lia).
      lra.
Qed.

(** The births, summed over the bins they land in, are the pairs [(j, k)]
    with [j + k + 1 < N], each counted once. *)
Lemma Rsum_triangle (f : nat -> nat -> R) (N : nat) :
  Rsum (map (fun i => Rsum (map (fun j => f j (i - j - 1)%nat) (seq 0 i))) (seq 0 N)) =
  Rsum (map (fun j => Rsum (map (fun k => f j k) (seq 0 (N - 1 - j)))) (seq 0 N)).
Proof.
  induction N as [| N IH].
  - reflexivity.
  - rewrite !Rsum_seq_S. rewrite IH.
    replace (S N - 1 - N)%nat with 0%nat by lia. simpl (Rsum (map _ (seq 0 0))).
    rewrite (Rsum_seq_ext
               (fun j => Rsum (map (fun k => f j k) (seq 0 (S N - 1 - j))))
               (fun j => Rsum (map (fun k => f j k) (seq 0 (N - 1 - j)))
                         + f j (N - j - 1)%nat) N).
    + rewrite (Rsum_seq_plus
                 (fun j => Rsum (map (fun k => f j k) (seq 0 (N - 1 - j))))
                 (fun j => f j (N - j - 1)%nat) N).
      lra.
    + intros j Hj.
      replace (S N - 1 - j)%nat with (S (N - 1 - j)) by lia.
      rewrite Rsum_seq_S.
      replace (N - 1 - j)%nat with (N - j - 1)%nat by lia. reflexivity.
Qed.

End Sums.

(** ** The population balance with aggregation alone *)

Section PureAggregation.

Variable breakage : R -> R -> R -> R -> R -> result R.
Variables (n sizes : list R) (G : R) (w : WaterProperties.t).
Hypothesis Hlen : length n = length sizes.
Hypothesis Hpos : Forall (fun s => 0 < s) sizes.
Hypothesis Hmu : WaterProperties.viscosity w <> 0.

(** The breakage rate is forced to zero. *)
Hypothesis Hbreak :
  forall d, 0 < d ->
    breakage d G 1200 (WaterProperties.viscosity w) (WaterProperties.density w) = Ok 0.

Lemma size_positive (i : nat) : (i < length sizes)%nat -> 0 < nth i sizes 0.
Proof.
  intros Hi. apply (proj1 (Forall_nth (fun s => 0 < s) sizes) Hpos i 0 Hi).
Qed.

Lemma kernel_on_bins (i j : nat) :
  (i < length sizes)%nat -> (j < length sizes)%nat ->
  Flocculation.coagulation_kernel (nth i sizes 0 * 1e-6) (nth j sizes 0 * 1e-6) G
    (WaterProperties.temperature w) (WaterProperties.viscosity w) =
  Ok (kernel_value (nth i sizes 0 * 1e-6) (nth j sizes 0 * 1e-6) G
        (WaterProperties.temperature w) (WaterProperties.viscosity w)).
Proof.
  intros Hi Hj. apply coagulation_kernel_ok; [exact Hmu |].
  pose proof (size_positive i Hi). pose proof (size_positive j Hj). nra.
Qed.

Lemma birth_term_ok (i j : nat) :
  (j < i)%nat -> (i < length sizes)%nat ->
  Flocculation.birth_term Flocculation.coagulation_kernel n sizes G w (length sizes) i j =
    Ok (0.5 * pair_rate n sizes G w j (i - j - 1)).
Proof.
  intros Hj Hi. unfold Flocculation.birth_term.
  assert (Hj' : (j <? length sizes)%nat = true) by (apply Nat.ltb_lt; lia).
  assert (Hk' : (i - j - 1 <? length sizes)%nat = true) by (apply Nat.ltb_lt; lia).
  rewrite Hj', Hk'. cbn [andb].
  repeat (rewrite getitem_ok by lia; cbn [bind]).
  rewrite kernel_on_bins by lia. cbn [bind].
  repeat (rewrite getitem_ok by lia; cbn [bind]).
  f_equal. unfold pair_rate. ring.
Qed.

Lemma death_agg_term_ok (i j : nat) :
  (i < length sizes)%nat -> (j < length sizes)%nat ->
  Flocculation.death_agg_term Flocculation.coagulation_kernel n sizes G w i j =
    Ok (pair_rate n sizes G w i j).
Proof.
  intros Hi Hj. unfold Flocculation.death_agg_term.
  repeat (rewrite getitem_ok by lia; cbn [bind]).
  rewrite kernel_on_bins by lia. cbn [bind].
  repeat (rewrite getitem_ok by lia; cbn [bind]).
  reflexivity.
Qed.

Lemma birth_agg_sum (i : nat) :
  birth_agg n sizes G w i =
  Rsum (map (fun j => 0.5 * pair_rate n sizes G w j (i - j - 1)) (seq 0 i)).
Proof.
  unfold birth_agg. rewrite Rsum_seq_scal. reflexivity.
Qed.

Lemma death_agg_sum (i : nat) :
  death_agg n sizes G w i =
  Rsum (map (fun j => pair_rate n sizes G w i j) (seq 0 (length sizes))).
Proof.
  unfold death_agg. rewrite <- Rsum_seq_scal.
  apply Rsum_seq_ext. intros j _. unfold pair_rate. ring.
Qed.

Lemma birth_break_term_none (i j : nat) :
  (j < length sizes)%nat ->
  Flocculation.birth_break_term breakage n sizes G w i j = Ok 0.
Proof.
  intros Hj. unfold Flocculation.birth_break_term.
  rewrite getitem_ok by lia. cbn [bind].
  rewrite Hbreak by (pose proof (size_positive j Hj); lra). cbn [bind].
  rewrite getitem_ok by lia. cbn [bind].
  f_equal. ring.
Qed.

Lemma Rsum_zeros {A : Type} (l : list A) : Rsum (map (fun _ => 0) l) = 0.
Proof. induction l as [| a l IH]; simpl; lra. Qed.

Lemma dndt_at_pure (i : nat) :
  (i < length sizes)%nat ->
  Flocculation.dndt_at Flocculation.coagulation_kernel breakage n sizes G w
    (length sizes) i =
  Ok (birth_agg n sizes G w i - death_agg n sizes G w i).
Proof.
  intros Hi. unfold Flocculation.dndt_at.
  rewrite (for_sum_ok _ _ _ (fun j => 0.5 * pair_rate n sizes G w j (i - j - 1)))
    by (intros j Hj; apply in_seq in Hj; apply birth_term_ok; lia).
  cbn [bind].
  rewrite (for_sum_ok _ _ _ (fun j => pair_rate n sizes G w i j))
    by (intros j Hj; apply in_seq in Hj; apply death_agg_term_ok; lia).
  cbn [bind].
  rewrite getitem_ok by lia. cbn [bind].
  rewrite Hbreak by (pose proof (size_positive i Hi); lra). cbn [bind].
  rewrite getitem_ok by lia. cbn [bind].
  rewrite (for_sum_ok _ _ _ (fun _ => 0))
    by (intros j Hj; apply in_seq in Hj; apply birth_break_term_none; lia).
  cbn [bind]. rewrite Rsum_zeros.
  f_equal. rewrite birth_agg_sum, death_agg_sum. ring.
Qed.

Lemma pure_aggregation_value (t : R) :
  Flocculation.population_balance_of_self Flocculation.coagulation_kernel breakage
    t n sizes G w =
    Ok (map (fun i => birth_agg n sizes G w i - death_agg n sizes G w i)
            (seq 0 (length sizes))).
Proof.
  unfold Flocculation.population_balance_of_self.
  apply mapM_ok. intros i Hi. apply in_seq in Hi. apply dndt_at_pure. lia.
Qed.

Hypothesis Hn : Forall (fun c => 0 <= c) n.
Hypothesis Hvisc : 0 < WaterProperties.viscosity w.
Hypothesis Htemp : 0 <= WaterProperties.temperature w + 273.15.

Lemma pair_rate_nonneg (j k : nat) :
  (j < length sizes)%nat -> (k < length sizes)%nat -> 0 <= pair_rate n sizes G w j k.
Proof.
  intros Hj Hk. unfold pair_rate.
  assert (Hnj : 0 <= nth j n 0)
    by (apply (proj1 (Forall_nth (fun c => 0 <= c) n) Hn j 0); lia).
  assert (Hnk : 0 <= nth k n 0)
    by (apply (proj1 (Forall_nth (fun c => 0 <= c) n) Hn k 0); lia).
  pose proof (size_positive j Hj) as Hsj. pose proof (size_positive k Hk) as Hsk.
  assert (HK : 0 <= kernel_value (nth j sizes 0 * 1e-6) (nth k sizes 0 * 1e-6) G
                      (WaterProperties.temperature w) (WaterProperties.viscosity w))
    by (apply kernel_value_nonneg; [exact Hvisc | exact Htemp | lra | lra]).
  apply Rmult_le_pos; [apply Rmult_le_pos |]; assumption.
Qed.

(** Births add up to at most half of the deaths. *)
Lemma births_at_most_half_deaths :
  Rsum (map (birth_agg n sizes G w) (seq 0 (length sizes))) <=
  0.5 * Rsum (map (death_agg n sizes G w) (seq 0 (length sizes))).
Proof.
  rewrite (Rsum_seq_ext _ _ _ (fun i _ => birth_agg_sum i)).
  rewrite (Rsum_triangle (fun j k => 0.5 * pair_rate n sizes G w j k) (length sizes)).
  rewrite <- Rsum_seq_scal.
  apply Rsum_seq_le. intros j Hj.
  rewrite death_agg_sum. rewrite <- Rsum_seq_scal.
  apply Rsum_seq_prefix; [lia |].
  intros k Hk. pose proof (pair_rate_nonneg j k Hj Hk). lra.
Qed.

Lemma deaths_nonneg :
  0 <= Rsum (map (death_agg n sizes G w) (seq 0 (length sizes))).
Proof.
  apply Rsum_seq_nonneg. intros i Hi. rewrite death_agg_sum.
  apply Rsum_seq_nonneg. intros j Hj. apply pair_rate_nonneg; assumption.
Qed.

Lemma net_aggregation_nonpositive :
  Rsum (map (fun i => birth_agg n sizes G w i - death_agg n sizes G w i)
            (seq 0 (length sizes))) <= 0.
Proof.
  rewrite Rsum_seq_minus.
  pose proof births_at_most_half_deaths. pose proof deaths_nonneg. lra.
Qed.

End PureAggregation.

(** At rest ([G = 0]) the breakage kernel of the class returns 0. *)
Lemma breakage_kernel_at_rest (d density_floc viscosity density_water : R) :
  viscosity <> 0 -> density_water <> 0 -> 0 < d ->
  Flocculation.breakage_kernel d 0 density_floc viscosity density_water = Ok 0.
Proof.
  intros Hm Hr Hd. rewrite breakage_kernel_ok by assumption.
  rewrite shear_rate_abs by assumption. rewrite Rabs_R0. f_equal. ring.
Qed.

(** C1 (as amended).  With the breakage rate forced to zero the
    right-hand side in bin [i] is [birth_agg(i) - death_agg(i)], and for
    concentrations that are not negative (sizes and viscosity above zero,
    temperature not below absolute zero) the births add up to at most half
    of the deaths, so the rates summed over the bins are never positive:
    aggregation alone never adds concentration.  Nothing is claimed of the
    trapezoidal mass, which is not conserved. *)
Theorem aggregation_never_gains
    (breakage : R -> R -> R -> R -> R -> result R)
    (t : R) (n sizes : list R) (G : R) (w : WaterProperties.t) :
  (forall d, 0 < d ->
     breakage d G 1200 (WaterProperties.viscosity w) (WaterProperties.density w)
     = Ok 0) ->
  length n = length sizes ->
  Forall (fun s => 0 < s) sizes ->
  Forall (fun c => 0 <= c) n ->
  0 < WaterProperties.viscosity w ->
  0 <= WaterProperties.temperature w + 273.15 ->
  Flocculation.population_balance_of_self Flocculation.coagulation_kernel breakage
    t n sizes G w =
    Ok (map (fun i => birth_agg n sizes G w i - death_agg n sizes G w i)
            (seq 0 (length sizes))) /\
  Rsum (map (birth_agg n sizes G w) (seq 0 (length sizes))) <=
    0.5 * Rsum (map (death_agg n sizes G w) (seq 0 (length sizes))) /\
  Rsum (map (fun i => birth_agg n sizes G w i - death_agg n sizes G w i)
            (seq 0 (length sizes))) <= 0.
Proof.
  intros Hbreak Hlen Hpos Hn Hvisc Htemp.
  assert (Hmu : WaterProperties.viscosity w <> 0) by lra.
  split; [| split].
  - apply pure_aggregation_value; assumption.
  - apply births_at_most_half_deaths; assumption.
  - apply net_aggregation_nonpositive; assumption.
Qed.

Lemma aggregation_never_gains_witness :
  ((forall d, 0 < d ->
      no_breakage d 50 1200 (WaterProperties.viscosity baseline_water)
        (WaterProperties.density baseline_water) = Ok 0) /\
   length [3; 1] = length [1; 2] /\
   Forall (fun s => 0 < s) [1; 2] /\
   Forall (fun c => 0 <= c) [3; 1] /\
   0 < WaterProperties.viscosity baseline_water /\
   0 <= WaterProperties.temperature baseline_water + 273.15) /\
  Rsum (map (fun i => birth_agg [3; 1] [1; 2] 50 baseline_water i
                      - death_agg [3; 1] [1; 2] 50 baseline_water i)
            (seq 0 (length [1; 2]))) <= 0.
Proof.
  assert (Hbreak : forall d, 0 < d ->
            no_breakage d 50 1200 (WaterProperties.viscosity baseline_water)
              (WaterProperties.density baseline_water) = Ok 0)
    by (intros d _; reflexivity).
  assert (Hlen : length [3; 1] = length [1; 2]) by reflexivity.
  assert (Hpos : Forall (fun s => 0 < s) [1; 2])
    by (repeat constructor; lra).
  assert (Hn : Forall (fun c => 0 <= c) [3; 1])
    by (apply Forall_cons; [lra | apply Forall_cons; [lra | apply Forall_nil]]).
  assert (Hvisc : 0 < WaterProperties.viscosity baseline_water) by (simpl; lra).
  assert (Htemp : 0 <= WaterProperties.temperature baseline_water + 273.15)
    by (simpl; lra).
  split; [exact (conj Hbreak (conj Hlen (conj Hpos (conj Hn (conj Hvisc Htemp))))) |].
  exact (proj2 (proj2 (aggregation_never_gains no_breakage 0 [3; 1] [1; 2] 50
                         baseline_water Hbreak Hlen Hpos Hn Hvisc Htemp))).
Defined.

(** C1 as stated fails.  At rest ([G = 0]) the class's own breakage rate
    is zero and only Brownian aggregation is left; with all the mass in
    the first of two bins the trapezoid-weighted sum of the aggregation
    terms does not cancel, and at this concentration the mass falls at a
    relative rate above one per second. *)
Lemma aggregation_changes_mass :
  exists dndt,
    Flocculation.population_balance 0 [1e18; 0] [1; 2] 0 baseline_water = Ok dndt /\
    0 < trapz [1e18; 0] [1; 2] /\
    trapz dndt [1; 2] <= - trapz [1e18; 0] [1; 2].
Proof.
  eexists. split; [| split].
  - unfold Flocculation.population_balance. apply pure_aggregation_value.
    + reflexivity.
    + repeat constructor; lra.
    + simpl. lra.
    + intros d Hd. apply breakage_kernel_at_rest; [simpl; lra | simpl; lra | exact Hd].
  - simpl. lra.
  - unfold birth_agg, death_agg.
    cbn [length seq map Rsum fold_right nth Nat.sub trapz
         WaterProperties.temperature WaterProperties.viscosity baseline_water].
    set (K00 := kernel_value (1 * 1e-6) (1 * 1e-6) 0 20 0.001002).
    set (K01 := kernel_value (1 * 1e-6) (2 * 1e-6) 0 20 0.001002).
    set (K10 := kernel_value (2 * 1e-6) (1 * 1e-6) 0 20 0.001002).
    set (K11 := kernel_value (2 * 1e-6) (2 * 1e-6) 0 20 0.001002).
    assert (HK : 1e-17 <= K00).
    { subst K00. unfold kernel_value.
      rewrite shear_rate_abs by lra. rewrite Rabs_R0. lra. }
    nra.
Qed.

(** The trapezoidal mass has no sign of its own either: with a wide third
    bin next to the one the births land in, it rises. *)
Lemma aggregation_can_raise_mass :
  exists dndt,
    Flocculation.population_balance 0 [1; 0; 0] [1; 2; 100] 0 baseline_water = Ok dndt /\
    0 < trapz dndt [1; 2; 100].
Proof.
  eexists. split.
  - unfold Flocculation.population_balance. apply pure_aggregation_value.
    + reflexivity.
    + repeat constructor; lra.
    + simpl. lra.
    + intros d Hd. apply breakage_kernel_at_rest; [simpl; lra | simpl; lra | exact Hd].
  - unfold birth_agg, death_agg.
    cbn [length seq map Rsum fold_right nth Nat.sub trapz
         WaterProperties.temperature WaterProperties.viscosity baseline_water].
    set (K00 := kernel_value (1 * 1e-6) (1 * 1e-6) 0 20 0.001002).
    set (K01 := kernel_value (1 * 1e-6) (2 * 1e-6) 0 20 0.001002).
    set (K02 := kernel_value (1 * 1e-6) (100 * 1e-6) 0 20 0.001002).
    set (K10 := kernel_value (2 * 1e-6) (1 * 1e-6) 0 20 0.001002).
    set (K11 := kernel_value (2 * 1e-6) (2 * 1e-6) 0 20 0.001002).
    set (K12 := kernel_value (2 * 1e-6) (100 * 1e-6) 0 20 0.001002).
    set (K20 := kernel_value (100 * 1e-6) (1 * 1e-6) 0 20 0.001002).
    set (K21 := kernel_value (100 * 1e-6) (2 * 1e-6) 0 20 0.001002).
    set (K22 := kernel_value (100 * 1e-6) (100 * 1e-6) 0 20 0.001002).
    assert (HK : 1e-17 <= K00).
    { subst K00. unfold kernel_value.
      rewrite shear_rate_abs by lra. rewrite Rabs_R0. lra. }
    nra.
Qed.

(** ** Sedimentation *)

Section Settling.

Lemma mapM_exists {A B : Type} (f : A -> result B) (P : B -> Prop) (l : list A) :
  (forall x, In x l -> exists y, f x = Ok y /\ P y) ->
  exists ys, mapM f l = Ok ys /\ Forall P ys /\ length ys = length l.
Proof.
  induction l as [| x l IH]; intros H.
  - exists []. repeat split. constructor.
  - destruct (H x (or_introl eq_refl)) as [y [Hy HP]].
    destruct IH as [ys [Hys [HF Hl]]].
    { intros z Hz. apply H. right. exact Hz. }
    exists (y :: ys). simpl. rewrite Hy. simpl. rewrite Hys. simpl.
    repeat split.
    + constructor; assumption.
    + f_equal. exact Hl.
Qed.

Lemma sedimentation_init_ok (area height overflow_rate : R) :
  overflow_rate <> 0 ->
  Sedimentation.init area height overflow_rate =
    Ok (Sedimentation.mk area height overflow_rate (height / (overflow_rate / 3600))).
Proof.
  intros H. unfold Sedimentation.init.
  rewrite py_div_ok by lra. cbn [bind].
  rewrite py_div_ok by lra. reflexivity.
Qed.

Variables (sed : Sedimentation.t) (w : WaterProperties.t) (floc_density : R).
Hypothesis Hvisc : 0 < WaterProperties.viscosity w.
Hypothesis Hdens : 0 < WaterProperties.density w.
Hypothesis Hfloc : WaterProperties.density w < floc_density.
Hypothesis Hheight : 0 < Sedimentation.height sed.
Hypothesis Hres : 0 <= Sedimentation.residence_time sed.

Lemma settling_velocity_ok (diameter : R) :
  0 < diameter ->
  exists v, Sedimentation.settling_velocity sed diameter floc_density w = Ok v /\ 0 <= v.
Proof.
  intros Hd. unfold Sedimentation.settling_velocity. cbv zeta.
  set (d := diameter * 1e-6).
  assert (Hd' : 0 < d) by (subst d; lra).
  set (mu := WaterProperties.viscosity w) in *.
  set (rho_w := WaterProperties.density w) in *.
  rewrite np_divide_ok by lra. cbn [bind].
  set (vs := 9.81 * d ^ 2 * (floc_density - rho_w) / (18 * mu)).
  assert (Hvs : 0 <= vs).
  { subst vs. apply Rmult_le_pos.
    - apply Rmult_le_pos; [| lra].
      apply Rmult_le_pos; [lra | apply pow2_ge_0].
    - apply Rlt_le. apply Rinv_0_lt_compat. lra. }
  rewrite np_divide_ok by lra. cbn [bind].
  set (Re := rho_w * vs * d / mu).
  destruct (Rlt_dec 0.1 Re) as [Hre | Hre].
  - assert (Hre0 : 0 < Re) by lra.
    rewrite np_divide_ok by lra. cbn [bind].
    rewrite np_sqrt_ok by lra. cbn [bind].
    assert (Hsq : 0 < sqrt Re) by (apply sqrt_lt_R0; exact Hre0).
    rewrite np_divide_ok by lra. cbn [bind].
    set (Cd := 24 / Re + 3 / sqrt Re + 0.34).
    assert (HCd : 0 < Cd).
    { subst Cd.
      assert (0 < 24 / Re) by (apply Rdiv_lt_0_compat; lra).
      assert (0 < 3 / sqrt Re) by (apply Rdiv_lt_0_compat; lra).
      lra. }
    assert (Hden : 0 < 3 * Cd * rho_w) by (apply Rmult_lt_0_compat; lra).
    rewrite np_divide_ok by lra. cbn [bind].
    assert (Hrad : 0 <= 4 * 9.81 * d * (floc_density - rho_w) / (3 * Cd * rho_w)).
    { apply Rmult_le_pos.
      - apply Rmult_le_pos; [| lra]. apply Rmult_le_pos; lra.
      - apply Rlt_le. apply Rinv_0_lt_compat. exact Hden. }
    rewrite np_sqrt_ok by exact Hrad.
    eexists. split; [reflexivity | apply sqrt_pos].
  - exists vs. split; [reflexivity | exact Hvs].
Qed.

Lemma hindered_settling_ok (vs0 concentration : R) :
  0 <= vs0 ->
  exists v,
    Sedimentation.hindered_settling sed vs0 concentration floc_density 4.65 = Ok v
    /\ 0 <= v.
Proof.
  intros Hv. unfold Sedimentation.hindered_settling. cbv zeta.
  rewrite np_divide_ok by lra. cbn [bind].
  eexists. split; [reflexivity |].
  apply Rmult_le_pos; [exact Hv |].
  apply Rlt_le. unfold Rpower. apply exp_pos.
Qed.

Lemma removal_fraction_ok (v : R) :
  0 <= v ->
  exists r,
    (x <- np_divide (v * Sedimentation.residence_time sed) (Sedimentation.height sed) ;;
     Ok (Rmin 1.0 x)) = Ok r
    /\ 0 <= r <= 1.
Proof.
  intros Hv. rewrite np_divide_ok by lra. cbn [bind].
  eexists. split; [reflexivity |].
  assert (Hx : 0 <= v * Sedimentation.residence_time sed / Sedimentation.height sed).
  { apply Rmult_le_pos.
    - apply Rmult_le_pos; assumption.
    - apply Rlt_le. apply Rinv_0_lt_compat. exact Hheight. }
  split.
  - apply Rmin_glb; lra.
  - apply Rle_trans with 1.0; [apply Rmin_l | lra].
Qed.

(** The three comprehensions of [process] all return, on positive sizes. *)
Lemma removal_fractions (sizes : list R) (total_conc : R) :
  Forall (fun s => 0 < s) sizes ->
  exists velocities vs_hindered removal,
    mapM (fun d => Sedimentation.settling_velocity sed d floc_density w) sizes
      = Ok velocities /\
    mapM (fun vs => Sedimentation.hindered_settling sed vs total_conc floc_density 4.65)
         velocities = Ok vs_hindered /\
    mapM (fun v => x <- np_divide (v * Sedimentation.residence_time sed)
                                  (Sedimentation.height sed) ;;
                   Ok (Rmin 1.0 x))
         vs_hindered = Ok removal /\
    Forall (fun r => 0 <= r <= 1) removal /\
    length removal = length sizes.
Proof.
  intros Hpos.
  destruct (mapM_exists
              (fun d => Sedimentation.settling_velocity sed d floc_density w)
              (fun v => 0 <= v) sizes) as [velocities [Hv [HvP Hvl]]].
  { intros d Hd. apply settling_velocity_ok.
    exact (proj1 (Forall_forall _ sizes) Hpos d Hd). }
  destruct (mapM_exists
              (fun vs => Sedimentation.hindered_settling sed vs total_conc floc_density 4.65)
              (fun v => 0 <= v) velocities) as [hindered [Hh [HhP Hhl]]].
  { intros v Hin. apply hindered_settling_ok.
    exact (proj1 (Forall_forall _ velocities) HvP v Hin). }
  destruct (mapM_exists
              (fun v => x <- np_divide (v * Sedimentation.residence_time sed)
                                       (Sedimentation.height sed) ;;
                        Ok (Rmin 1.0 x))
              (fun r => 0 <= r <= 1) hindered) as [removal [Hr [HrP Hrl]]].
  { intros v Hin. apply removal_fraction_ok.
    exact (proj1 (Forall_forall _ hindered) HhP v Hin). }
  exists velocities, hindered, removal.
  split; [exact Hv |]. split; [exact Hh |]. split; [exact Hr |].
  split; [exact HrP | congruence].
Qed.

End Settling.

Section SedimentationProcess.

Lemma effluent_between (conc removal : list R) :
  length removal = length conc ->
  Forall (fun c => 0 <= c) conc ->
  Forall (fun r => 0 <= r <= 1) removal ->
  Forall2 (fun e c => 0 <= e <= c)
          (mul_arrays conc (map (fun r => 1 - r) removal)) conc.
Proof.
  revert removal. induction conc as [| c conc IH]; intros removal Hl Hc Hr.
  - constructor.
  - destruct removal as [| r removal]; [discriminate |].
    inversion Hc as [| ? ? Hc0 Hc']; subst.
    inversion Hr as [| ? ? Hr0 Hr']; subst.
    simpl. constructor.
    + split; nra.
    + apply IH; [simpl in Hl; lia | assumption | assumption].
Qed.

Lemma trapz_between (e c x : list R) :
  increasing x ->
  Forall2 (fun a b => 0 <= a <= b) e c ->
  0 <= trapz e x <= trapz c x.
Proof.
  intros Hx H. split.
  - rewrite <- (trapz_zeros (length e) x).
    apply trapz_monotone; [exact Hx |].
    induction H as [| a b e c [Ha _] _ IH]; simpl; constructor; assumption.
  - apply trapz_monotone; [exact Hx |].
    induction H as [| a b e c [_ Hab] _ IH]; constructor; assumption.
Qed.

Variables (sed : Sedimentation.t) (w : WaterProperties.t) (floc_density : R).
Variable p : ParticleDistribution.t.
Hypothesis Hvisc : 0 < WaterProperties.viscosity w.
Hypothesis Hdens : 0 < WaterProperties.density w.
Hypothesis Hfloc : WaterProperties.density w < floc_density.
Hypothesis Hheight : 0 < Sedimentation.height sed.
Hypothesis Hres : 0 <= Sedimentation.residence_time sed.
Hypothesis Hwf : well_formed p.
Hypothesis Hsizes : Forall (fun s => 0 < s) (ParticleDistribution.sizes p).
Hypothesis Hinc : increasing (ParticleDistribution.sizes p).
Hypothesis Hconc : Forall (fun c => 0 <= c) (ParticleDistribution.concentrations p).

(** On valid input [process] returns, and the effluent holds no more than
    the influent. *)
Lemma process_returns :
  exists report,
    Sedimentation.process sed w p floc_density = Ok report /\
    0 <= Sedimentation.effluent_concentration report
      <= trapz (ParticleDistribution.concentrations p) (ParticleDistribution.sizes p) /\
    Sedimentation.removal_efficiency report =
      np_mul (np_div (trapz (ParticleDistribution.concentrations p)
                            (ParticleDistribution.sizes p)
                      - Sedimentation.effluent_concentration report)
                     (trapz (ParticleDistribution.concentrations p)
                            (ParticleDistribution.sizes p)))
             100.
Proof.
  destruct (removal_fractions sed w floc_density Hvisc Hdens Hfloc Hheight Hres
              (ParticleDistribution.sizes p)
              (trapz (ParticleDistribution.concentrations p)
                     (ParticleDistribution.sizes p)) Hsizes)
    as [velocities [hindered [removal [Hv [Hh [Hr [HrP Hrl]]]]]]].
  unfold Sedimentation.process. cbv zeta.
  rewrite Hv. cbn [bind]. rewrite Hh. cbn [bind]. rewrite Hr. cbn [bind].
  eexists. split; [reflexivity |]. cbn [Sedimentation.effluent_concentration
                                        Sedimentation.removal_efficiency].
  split; [| reflexivity].
  apply trapz_between; [exact Hinc |].
  apply effluent_between; [| exact Hconc | exact HrP].
  unfold well_formed in Hwf. congruence.
Qed.

(** With mass in the influent the efficiency is a percentage. *)
Lemma removal_efficiency_bounds :
  trapz (ParticleDistribution.concentrations p) (ParticleDistribution.sizes p) <> 0 ->
  exists report e,
    Sedimentation.process sed w p floc_density = Ok report /\
    Sedimentation.removal_efficiency report = Finite e /\
    0 <= e <= 100.
Proof.
  intros Hmass.
  destruct process_returns as [report [Hrun [[H0 H1] Heff]]].
  exists report. eexists. split; [exact Hrun |].
  rewrite Heff. rewrite np_div_finite by exact Hmass. cbn [np_mul].
  split; [reflexivity |].
  set (I := trapz (ParticleDistribution.concentrations p)
                  (ParticleDistribution.sizes p)) in *.
  set (F := Sedimentation.effluent_concentration report) in *.
  assert (HI : 0 < I) by lra.
  assert (Hq : 0 <= (I - F) / I <= 1).
  { split.
    - apply Rmult_le_pos; [lra |]. apply Rlt_le. apply Rinv_0_lt_compat. exact HI.
    - apply Rmult_le_reg_r with I; [exact HI |].
      replace ((I - F) / I * I) with (I - F) by (field; lra). lra. }
  lra.
Qed.

(** Without mass it is not a number: nothing guards the division. *)
Lemma zero_mass_gives_nan :
  trapz (ParticleDistribution.concentrations p) (ParticleDistribution.sizes p) = 0 ->
  exists report,
    Sedimentation.process sed w p floc_density = Ok report /\
    Sedimentation.effluent_concentration report = 0 /\
    Sedimentation.removal_efficiency report = NaN.
Proof.
  intros Hmass.
  destruct process_returns as [report [Hrun [[H0 H1] Heff]]].
  exists report. split; [exact Hrun |].
  assert (HF : Sedimentation.effluent_concentration report = 0) by lra.
  split; [exact HF |].
  rewrite Heff, Hmass, HF.
  replace (0 - 0) with 0 by lra. rewrite np_div_nan. reflexivity.
Qed.

End SedimentationProcess.

(** C2, at the failing input.  An all-zero concentration vector over
    increasing positive bin centres, with valid tank and water, is
    processed without an error, the effluent concentration is 0, and the
    removal efficiency handed back is [nan]: the division by the initial
    total mass is not guarded and no 0 % is reported. *)
Theorem zero_distribution_efficiency_is_nan (sed : Sedimentation.t)
    (w : WaterProperties.t) (floc_density : R) (sizes : list R) :
  0 < WaterProperties.viscosity w ->
  0 < WaterProperties.density w ->
  WaterProperties.density w < floc_density ->
  0 < Sedimentation.height sed ->
  0 <= Sedimentation.residence_time sed ->
  Forall (fun s => 0 < s) sizes ->
  increasing sizes ->
  exists report,
    Sedimentation.process sed w
      (ParticleDistribution.mk sizes (repeat 0 (length sizes))) floc_density
    = Ok report /\
    Sedimentation.effluent_concentration report = 0 /\
    Sedimentation.removal_efficiency report = NaN /\
    Sedimentation.removal_efficiency report <> Finite 0.
Proof.
  intros Hvisc Hdens Hfloc Hheight Hres Hsizes Hinc.
  destruct (zero_mass_gives_nan sed w floc_density
              (ParticleDistribution.mk sizes (repeat 0 (length sizes)))
              Hvisc Hdens Hfloc Hheight Hres) as [report [Hrun [HF Hnan]]].
  - unfold well_formed. simpl. apply repeat_length.
  - exact Hsizes.
  - exact Hinc.
  - simpl. clear. induction (length sizes); simpl; constructor; [lra | assumption].
  - simpl. apply trapz_zeros.
  - exists report. repeat split; try assumption.
    rewrite Hnan. discriminate.
Qed.

Lemma zero_distribution_efficiency_is_nan_witness :
  (0 < WaterProperties.viscosity baseline_water /\
   0 < WaterProperties.density baseline_water /\
   WaterProperties.density baseline_water < 1200 /\
   0 < Sedimentation.height default_sedimentation /\
   0 <= Sedimentation.residence_time default_sedimentation /\
   Forall (fun s => 0 < s) [1; 10] /\
   increasing [1; 10]) /\
  exists report,
    Sedimentation.process default_sedimentation baseline_water (two_bins 0 0) 1200
    = Ok report /\
    Sedimentation.removal_efficiency report = NaN.
Proof.
  assert (Hvisc : 0 < WaterProperties.viscosity baseline_water) by (simpl; lra).
  assert (Hdens : 0 < WaterProperties.density baseline_water) by (simpl; lra).
  assert (Hfloc : WaterProperties.density baseline_water < 1200) by (simpl; lra).
  assert (Hheight : 0 < Sedimentation.height default_sedimentation) by (simpl; lra).
  assert (Hres : 0 <= Sedimentation.residence_time default_sedimentation)
    by (simpl; lra).
  assert (Hsizes : Forall (fun s => 0 < s) [1; 10]) by (repeat constructor; lra).
  assert (Hinc : increasing [1; 10]) by (simpl; split; [lra | exact I]).
  split;
    [exact (conj Hvisc (conj Hdens (conj Hfloc (conj Hheight
              (conj Hres (conj Hsizes Hinc)))))) |].
  destruct (zero_distribution_efficiency_is_nan default_sedimentation baseline_water
              1200 [1; 10] Hvisc Hdens Hfloc Hheight Hres Hsizes Hinc)
    as [report [Hrun [_ [Hnan _]]]].
  exists report. split; [exact Hrun | exact Hnan].
Defined.

(** C3, at the failing input.  For the tank and water of the baseline
    scenario and two bins of zero concentration the efficiency handed back
    is no number between 0 and 100. *)
Theorem efficiency_bound_fails_without_mass :
  exists report,
    Sedimentation.process default_sedimentation baseline_water (two_bins 0 0) 1200
    = Ok report /\
    ~ (exists e, Sedimentation.removal_efficiency report = Finite e /\ 0 <= e <= 100).
Proof.
  assert (Hvisc : 0 < WaterProperties.viscosity baseline_water) by (simpl; lra).
  assert (Hdens : 0 < WaterProperties.density baseline_water) by (simpl; lra).
  assert (Hfloc : WaterProperties.density baseline_water < 1200) by (simpl; lra).
  assert (Hheight : 0 < Sedimentation.height default_sedimentation) by (simpl; lra).
  assert (Hres : 0 <= Sedimentation.residence_time default_sedimentation)
    by (simpl; lra).
  assert (Hwf : well_formed (two_bins 0 0)) by reflexivity.
  assert (Hsizes : Forall (fun s => 0 < s) (ParticleDistribution.sizes (two_bins 0 0)))
    by (repeat constructor; lra).
  assert (Hinc : increasing (ParticleDistribution.sizes (two_bins 0 0)))
    by (simpl; split; [lra | exact I]).
  assert (Hconc : Forall (fun c => 0 <= c)
                    (ParticleDistribution.concentrations (two_bins 0 0)))
    by (repeat constructor; lra).
  assert (Hmass : trapz (ParticleDistribution.concentrations (two_bins 0 0))
                        (ParticleDistribution.sizes (two_bins 0 0)) = 0)
    by (simpl; lra).
  destruct (zero_mass_gives_nan default_sedimentation baseline_water 1200
              (two_bins 0 0) Hvisc Hdens Hfloc Hheight Hres Hwf Hsizes Hinc Hconc
              Hmass) as [report [Hrun [_ Hnan]]].
  exists report. split; [exact Hrun |].
  intros [e [He _]]. rewrite Hnan in He. discriminate.
Qed.

(** ** The flocculation loop *)

Section FlocculationLoop.

Variable solver :
  (R -> list R -> result (list R)) -> R * R -> list R -> list R
  -> result Flocculation.OdeResult.

Lemma process_chamber_ignores_verdict (self : Flocculation.t)
    (w : WaterProperties.t) (p : ParticleDistribution.t) (chamber : Z) :
  Flocculation.process_chamber (reporting_success solver) self w p chamber =
  Flocculation.process_chamber solver self w p chamber.
Proof.
  unfold Flocculation.process_chamber, reporting_success. cbv zeta.
  destruct (solver _ _ _ _) as [sol | e |]; reflexivity.
Qed.

Lemma process_loop_ignores_verdict (self : Flocculation.t) (w : WaterProperties.t)
    (k : nat) (chamber : Z) (p : ParticleDistribution.t)
    (results : list Flocculation.ChamberResult) :
  Flocculation.process_loop (reporting_success solver) self w k chamber p results =
  Flocculation.process_loop solver self w k chamber p results.
Proof.
  revert chamber p results. induction k as [| k IH]; intros chamber p results.
  - reflexivity.
  - simpl. rewrite process_chamber_ignores_verdict.
    destruct (Flocculation.process_chamber solver self w p chamber)
      as [[p' r] | e |]; simpl; [apply IH | reflexivity | reflexivity].
Qed.

Hypothesis solver_returns :
  forall rhs t_span y0 t_eval,
    exists sol,
      solver rhs t_span y0 t_eval = Ok sol /\
      Flocculation.ode_y sol <> [] /\
      Forall (fun column => length column = length y0) (Flocculation.ode_y sol).

Lemma last_in (A : Type) (l : list A) (d : A) : In (last l d) (d :: l).
Proof.
  induction l as [| a l IH].
  - left. reflexivity.
  - destruct l as [| b l]; [right; left; reflexivity |].
    change (last (a :: b :: l) d) with (last (b :: l) d).
    destruct IH as [E | Hin]; [left; exact E | right; right; exact Hin].
Qed.

Lemma process_chamber_returns (self : Flocculation.t) (w : WaterProperties.t)
    (p : ParticleDistribution.t) (chamber : Z) :
  well_formed p ->
  exists p' r,
    Flocculation.process_chamber solver self w p chamber = Ok (p', r) /\
    well_formed p' /\
    ParticleDistribution.sizes p' = ParticleDistribution.sizes p.
Proof.
  intros Hwf. unfold Flocculation.process_chamber. cbv zeta.
  destruct (solver_returns
              (fun t n => Flocculation.population_balance t n
                            (ParticleDistribution.sizes p)
                            (Flocculation.G_avg self) w)
              (0, Flocculation.chamber_time self)
              (ParticleDistribution.concentrations p)
              (Flocculation.linspace100 (Flocculation.chamber_time self)))
    as [sol [Hsol [Hy Hcols]]].
  rewrite Hsol. cbn [bind].
  destruct (Flocculation.ode_y sol) as [| c cs] eqn:E; [contradiction Hy; reflexivity |].
  cbn [Flocculation.last_column bind].
  eexists. eexists. split; [reflexivity |]. split; [| reflexivity].
  unfold well_formed in *. simpl.
  rewrite <- Hwf.
  exact (proj1 (Forall_forall _ (c :: cs)) Hcols (last cs c) (last_in (list R) cs c)).
Qed.

Lemma process_loop_returns (self : Flocculation.t) (w : WaterProperties.t)
    (k : nat) (chamber : Z) (p : ParticleDistribution.t)
    (results : list Flocculation.ChamberResult) :
  well_formed p ->
  exists p' results',
    Flocculation.process_loop solver self w k chamber p results = Ok (p', results') /\
    length results' = (length results + k)%nat /\
    well_formed p' /\
    ParticleDistribution.sizes p' = ParticleDistribution.sizes p.
Proof.
  revert chamber p results. induction k as [| k IH]; intros chamber p results Hwf.
  - exists p, results. simpl. split; [reflexivity |]. split; [lia |].
    split; [exact Hwf | reflexivity].
  - destruct (process_chamber_returns self w p chamber Hwf) as [p1 [r [Hc [Hwf1 Hs]]]].
    destruct (IH (chamber + 1)%Z p1 (results ++ [r]) Hwf1)
      as [p' [results' [Hl [Hn [Hwf' Hs']]]]].
    exists p', results'. simpl. rewrite Hc. cbn [bind]. split; [exact Hl |].
    split; [| split].
    + rewrite Hn. rewrite length_app. simpl. lia.
    + exact Hwf'.
    + congruence.
Qed.

End FlocculationLoop.

(** ** What each chamber hands to the next *)

Section FeedForward.

Variable solver :
  (R -> list R -> result (list R)) -> R * R -> list R -> list R
  -> result Flocculation.OdeResult.

Hypothesis solver_returns :
  forall rhs t_span y0 t_eval,
    exists sol,
      solver rhs t_span y0 t_eval = Ok sol /\
      Flocculation.ode_y sol <> [] /\
      Forall (fun column => length column = length y0) (Flocculation.ode_y sol).

Lemma last_of_cons {A : Type} (l : list A) (c d : A) : last l c = last (c :: l) d.
Proof.
  revert c d. induction l as [| a l IH]; intros c d; [reflexivity |].
  change (last (c :: a :: l) d) with (last (a :: l) d).
  rewrite <- (IH a c). rewrite <- (IH a d). reflexivity.
Qed.

(** One chamber: the integrator is started from the concentrations that
    came in, what it returns is recorded, and its last column goes out. *)
Lemma chamber_takes_last_column (self : Flocculation.t) (w : WaterProperties.t)
    (p : ParticleDistribution.t) (chamber : Z) :
  well_formed p ->
  exists sol p' r,
    solver (fun t n => Flocculation.population_balance t n
                         (ParticleDistribution.sizes p) (Flocculation.G_avg self) w)
           (0, Flocculation.chamber_time self)
           (ParticleDistribution.concentrations p)
           (Flocculation.linspace100 (Flocculation.chamber_time self)) = Ok sol /\
    Flocculation.process_chamber solver self w p chamber = Ok (p', r) /\
    well_formed p' /\
    ParticleDistribution.sizes p' = ParticleDistribution.sizes p /\
    Flocculation.distribution r = Flocculation.ode_y sol /\
    Flocculation.ode_y sol <> [] /\
    ParticleDistribution.concentrations p' = final_state r.
Proof.
  intros Hwf. unfold Flocculation.process_chamber. cbv zeta.
  destruct (solver_returns
              (fun t n => Flocculation.population_balance t n
                            (ParticleDistribution.sizes p)
                            (Flocculation.G_avg self) w)
              (0, Flocculation.chamber_time self)
              (ParticleDistribution.concentrations p)
              (Flocculation.linspace100 (Flocculation.chamber_time self)))
    as [sol [Hsol [Hy Hcols]]].
  exists sol. rewrite Hsol. cbn [bind].
  destruct (Flocculation.ode_y sol) as [| c cs] eqn:E; [contradiction Hy; reflexivity |].
  cbn [Flocculation.last_column bind].
  eexists. eexists. split; [reflexivity |]. split; [reflexivity |].
  unfold final_state.
  cbn [ParticleDistribution.sizes ParticleDistribution.concentrations
       Flocculation.distribution].
  split.
  - unfold well_formed in *. simpl. rewrite <- Hwf.
    exact (proj1 (Forall_forall _ (c :: cs)) Hcols (last cs c) (last_in (list R) cs c)).
  - split; [reflexivity |]. split; [reflexivity |]. split; [discriminate |].
    apply last_of_cons.
Qed.

(** The loop: chamber [j] is integrated from the state chamber [j - 1]
    ended in (the first from the concentrations that came in), and what
    comes out is the state the last chamber ended in. *)
Lemma loop_feeds_forward (self : Flocculation.t) (w : WaterProperties.t)
    (k : nat) (chamber : Z) (p : ParticleDistribution.t)
    (results : list Flocculation.ChamberResult) :
  well_formed p ->
  exists p' new,
    Flocculation.process_loop solver self w k chamber p results
      = Ok (p', results ++ new) /\
    length new = k /\
    well_formed p' /\
    ParticleDistribution.sizes p' = ParticleDistribution.sizes p /\
    ParticleDistribution.concentrations p'
      = last (map final_state new) (ParticleDistribution.concentrations p) /\
    forall j r,
      nth_error new j = Some r ->
      exists sol,
        solver (fun t n => Flocculation.population_balance t n
                             (ParticleDistribution.sizes p) (Flocculation.G_avg self) w)
               (0, Flocculation.chamber_time self)
               (nth j (ParticleDistribution.concentrations p :: map final_state new) [])
               (Flocculation.linspace100 (Flocculation.chamber_time self)) = Ok sol /\
        Flocculation.distribution r = Flocculation.ode_y sol /\
        Flocculation.ode_y sol <> [].
Proof.
  revert chamber p results. induction k as [| k IH]; intros chamber p results Hwf.
  - exists p, []. simpl. rewrite app_nil_r.
    split; [reflexivity |]. split; [reflexivity |]. split; [exact Hwf |].
    split; [reflexivity |]. split; [reflexivity |].
    intros j r H. destruct j; discriminate.
  - destruct (chamber_takes_last_column self w p chamber Hwf)
      as [sol [p1 [r [Hsol [Hc [Hwf1 [Hs1 [Hd [Hne Hout]]]]]]]]].
    destruct (IH (chamber + 1)%Z p1 (results ++ [r]) Hwf1)
      as [p' [new [Hl [Hlen [Hwf' [Hs' [Hfinal Hchain]]]]]]].
    exists p', (r :: new).
    cbn [Flocculation.process_loop]. rewrite Hc. cbn [bind].
    rewrite Hl. rewrite <- app_assoc.
    split; [reflexivity |]. split; [simpl; f_equal; exact Hlen |].
    split; [exact Hwf' |]. split; [congruence |].
    split.
    + rewrite Hfinal, Hout. cbn [map]. apply last_of_cons.
    + intros j r' Hj. destruct j as [| j].
      * injection Hj as <-. exists sol. cbn [nth].
        split; [exact Hsol |]. split; [exact Hd | exact Hne].
      * cbn [nth_error] in Hj. destruct (Hchain j r' Hj) as [sol' [Hsol' Hrest]].
        exists sol'. split; [| exact Hrest].
        cbn [map nth]. rewrite <- Hout, <- Hs1. exact Hsol'.
Qed.

End FeedForward.

(** C4 (as amended).  [process] never reads the integrator's [status] or
    [success]: with the verdict overwritten by "converged" it returns the
    very same thing.  Whenever the integrator returns at all, with at least
    one column, the loop runs all its chambers and the stage returns
    normally: every chamber is integrated from the state the chamber before
    it ended in (the first from the concentrations passed in), what the
    integrator returned is recorded as the chamber's [distribution], and
    its last column is taken as the chamber's output, the last chamber's as
    the output of the stage.  An error reaches the caller only if
    [solve_ivp] itself raises or hands back no column. *)
Theorem process_ignores_solver_verdict
    (solver : (R -> list R -> result (list R)) -> R * R -> list R -> list R
              -> result Flocculation.OdeResult)
    (self : Flocculation.t) (w : WaterProperties.t) (p : ParticleDistribution.t) :
  well_formed p ->
  (forall rhs t_span y0 t_eval,
      exists sol,
        solver rhs t_span y0 t_eval = Ok sol /\
        Flocculation.ode_y sol <> [] /\
        Forall (fun column => length column = length y0) (Flocculation.ode_y sol)) ->
  Flocculation.process (reporting_success solver) self w p =
    Flocculation.process solver self w p /\
  exists p' results,
    Flocculation.process solver self w p = Ok (p', results) /\
    length results = Z.to_nat (Flocculation.chambers self) /\
    well_formed p' /\
    ParticleDistribution.sizes p' = ParticleDistribution.sizes p /\
    ParticleDistribution.concentrations p'
      = last (map final_state results) (ParticleDistribution.concentrations p) /\
    forall j r,
      nth_error results j = Some r ->
      exists sol,
        solver (fun t n => Flocculation.population_balance t n
                             (ParticleDistribution.sizes p) (Flocculation.G_avg self) w)
               (0, Flocculation.chamber_time self)
               (nth j (ParticleDistribution.concentrations p :: map final_state results)
                    [])
               (Flocculation.linspace100 (Flocculation.chamber_time self)) = Ok sol /\
        Flocculation.distribution r = Flocculation.ode_y sol /\
        Flocculation.ode_y sol <> [].
Proof.
  intros Hwf Hsolver. split.
  - apply process_loop_ignores_verdict.
  - destruct (loop_feeds_forward solver Hsolver self w
                (Z.to_nat (Flocculation.chambers self)) 0 p [] Hwf)
      as [p' [results [Hrun [Hlen [Hwf' [Hs [Hfinal Hchain]]]]]]].
    exists p', results. split; [exact Hrun |]. split; [exact Hlen |].
    split; [exact Hwf' |]. split; [exact Hs |]. split; [exact Hfinal | exact Hchain].
Qed.

Lemma stalled_solver_returns :
  forall rhs t_span y0 t_eval,
    exists sol,
      stalled_solver rhs t_span y0 t_eval = Ok sol /\
      Flocculation.ode_y sol <> [] /\
      Forall (fun column => length column = length y0) (Flocculation.ode_y sol).
Proof.
  intros rhs t_span y0 t_eval. eexists.
  split; [reflexivity |]. split; [discriminate |].
  simpl. apply Forall_cons; [reflexivity | apply Forall_nil].
Qed.

Lemma process_ignores_solver_verdict_witness :
  (well_formed (two_bins 30 20) /\
   forall rhs t_span y0 t_eval,
     exists sol,
       stalled_solver rhs t_span y0 t_eval = Ok sol /\
       Flocculation.ode_y sol <> [] /\
       Forall (fun column => length column = length y0) (Flocculation.ode_y sol)) /\
  Flocculation.process (reporting_success stalled_solver) default_flocculation
    baseline_water (two_bins 30 20) =
  Flocculation.process stalled_solver default_flocculation baseline_water
    (two_bins 30 20).
Proof.
  assert (Hwf : well_formed (two_bins 30 20)) by reflexivity.
  split; [exact (conj Hwf stalled_solver_returns) |].
  exact (proj1 (process_ignores_solver_verdict stalled_solver default_flocculation
                  baseline_water (two_bins 30 20) Hwf stalled_solver_returns)).
Defined.

(** Behind an integrator that gave up the loop hands the distribution on
    as it came. *)
Lemma stalled_loop_returns_input (self : Flocculation.t) (w : WaterProperties.t)
    (k : nat) (chamber : Z) (p : ParticleDistribution.t)
    (results : list Flocculation.ChamberResult) :
  exists results',
    Flocculation.process_loop stalled_solver self w k chamber p results
    = Ok (p, results').
Proof.
  revert chamber results. induction k as [| k IH]; intros chamber results.
  - exists results. reflexivity.
  - destruct p as [sizes conc]. simpl.
    unfold Flocculation.process_chamber, stalled_solver. cbn.
    apply IH.
Qed.

(** The whole train runs on behind it. *)
Lemma pipeline_runs_on :
  exists report,
    WaterTreatmentSimulation.run_simulation false stalled_solver two_bin_plant 0.02
    = Ok report.
Proof.
  unfold WaterTreatmentSimulation.run_simulation, two_bin_plant.
  cbn [WaterTreatmentSimulation.rapid_mix WaterTreatmentSimulation.water_props
       WaterTreatmentSimulation.particles WaterTreatmentSimulation.flocculation
       WaterTreatmentSimulation.sedimentation].
  assert (Hscale : 1 + 0.1 * Rmin 1.0 (0.02 / 0.05) = 1.04)
    by (rewrite Rmin_right by lra; lra).
  rewrite process_ok; [| lra | simpl; lra].
  cbn [bind]. rewrite Hscale.
  rewrite add_coagulant_positive by lra. cbn [fst].
  match goal with
  | |- context [Flocculation.process _ _ _ ?q] => set (p1 := q)
  end.
  destruct (stalled_loop_returns_input default_flocculation (dosed baseline_water 0.02)
              (Z.to_nat (Flocculation.chambers default_flocculation)) 0 p1 [])
    as [results Hfloc].
  unfold Flocculation.process. rewrite Hfloc. cbn [bind].
  destruct (process_returns default_sedimentation (dosed baseline_water 0.02) 1200 p1)
    as [report [Hrun _]].
  - simpl. lra.
  - simpl. lra.
  - simpl. lra.
  - simpl. lra.
  - simpl. lra.
  - reflexivity.
  - subst p1. simpl. repeat constructor; lra.
  - subst p1. simpl. split; [lra | exact I].
  - subst p1. simpl.
    apply Forall_cons; [| apply Forall_cons; [| apply Forall_nil]];
      (apply Rmult_le_pos; [lra | apply Rlt_le; apply Rinv_0_lt_compat; lra]).
  - rewrite Hrun. cbn [bind]. eexists. reflexivity.
Qed.

(** C4 as stated fails: with an integrator that gives up in every chamber
    and says so, the stage raises nothing; it runs its three chambers and
    hands back the distribution it was given, not integrated at all, and
    the train goes on through sedimentation to its report. *)
Lemma failed_integration_not_surfaced :
  (exists results,
      Flocculation.process stalled_solver default_flocculation baseline_water
        (two_bins 30 20)
      = Ok (two_bins 30 20, results) /\
      map Flocculation.chamber results = [1%Z; 2%Z; 3%Z] /\
      map Flocculation.distribution results = [[[30; 20]]; [[30; 20]]; [[30; 20]]]) /\
  (exists report,
      WaterTreatmentSimulation.run_simulation false stalled_solver two_bin_plant 0.02
      = Ok report).
Proof.
  split.
  - eexists. split; [reflexivity |]. split; reflexivity.
  - exact pipeline_runs_on.
Qed.

(** ** The reference objects are what the constructors build *)

Example default_rapid_mix_built :
  RapidMixing.init 10 100 1000 30 = Ok default_rapid_mix.
Proof.
  unfold RapidMixing.init. rewrite py_div_ok by lra. cbn [bind].
  rewrite py_div_ok by lra. cbn [bind]. unfold default_rapid_mix.
  replace (10 / (100 / 3600)) with 360 by (field; lra). reflexivity.
Qed.

Example default_flocculation_built :
  Flocculation.init 3 200 50 1800 = Ok default_flocculation.
Proof.
  rewrite flocculation_init_ok by discriminate. unfold default_flocculation.
  replace (1800 / 3) with 600 by lra. reflexivity.
Qed.

Example default_sedimentation_built :
  Sedimentation.init 100 3 10 = Ok default_sedimentation.
Proof.
  rewrite sedimentation_init_ok by lra. unfold default_sedimentation.
  replace (3 / (10 / 3600)) with 1080 by (field; lra). reflexivity.
Qed.

(** * Further properties of the code *)

(** ** Dosing *)

Section Dosing.

Import WaterProperties.

Lemma Rmax_floor_twice (a c1 c2 : R) :
  0 <= c1 -> 0 <= c2 -> Rmax 0 (Rmax 0 (a - c1) - c2) = Rmax 0 (a - (c1 + c2)).
Proof.
  intros H1 H2. unfold Rmax.
  repeat (destruct (Rle_dec _ _)); lra.
Qed.

Lemma clamp_twice (p k1 k2 : R) :
  p <= 9 -> 0 <= k1 -> 0 <= k2 ->
  Rmax 4 (Rmin 9 (Rmax 4 (Rmin 9 (p - k1)) - k2)) = Rmax 4 (Rmin 9 (p - (k1 + k2))).
Proof.
  intros Hp H1 H2. unfold Rmax, Rmin.
  repeat (destruct (Rle_dec _ _)); lra.
Qed.

Lemma clamp_below (p k : R) : 4 <= p -> 0 <= k -> Rmax 4 (Rmin 9 (p - k)) <= p.
Proof.
  intros Hp Hk. unfold Rmax, Rmin.
  repeat (destruct (Rle_dec _ _)); lra.
Qed.

(** Two doses in a row on water of pH at most 9 leave what their sum leaves. *)
Lemma doses_add_up (has_pyeql : bool) (w : WaterProperties.t)
    (d1 d2 v1 v2 v : R) :
  0 <= d1 -> 0 <= d2 -> WaterProperties.pH w <= 9 ->
  fst (WaterProperties.add_coagulant has_pyeql
         (fst (WaterProperties.add_coagulant has_pyeql w d1 v1)) d2 v2) =
  fst (WaterProperties.add_coagulant has_pyeql w (d1 + d2) v).
Proof.
  intros H1 H2 Hp.
  assert (Hsum : (d1 + d2) / 342.15 * 6 * 100.09 * 1000 =
                 d1 / 342.15 * 6 * 100.09 * 1000 + d2 / 342.15 * 6 * 100.09 * 1000)
    by lra.
  assert (Hc1 : 0 <= d1 / 342.15 * 6 * 100.09 * 1000) by lra.
  assert (Hc2 : 0 <= d2 / 342.15 * 6 * 100.09 * 1000) by lra.
  destruct w as [T p a tb rho mu]. simpl in Hp.
  unfold WaterProperties.add_coagulant. cbv zeta.
  destruct has_pyeql.
  - cbn. unfold WaterProperties.set_alkalinity. cbn. f_equal.
    rewrite Hsum. apply Rmax_floor_twice; assumption.
  - set (c1 := d1 / 342.15 * 6 * 100.09 * 1000) in *.
    set (c2 := d2 / 342.15 * 6 * 100.09 * 1000) in *.
    rewrite Hsum.
    destruct (Rlt_dec 0 c1) as [P1 | N1]; destruct (Rlt_dec 0 c2) as [P2 | N2];
      destruct (Rlt_dec 0 (c1 + c2)) as [P | N]; try (exfalso; lra);
      cbn; unfold WaterProperties.set_pH, WaterProperties.set_alkalinity; cbn;
      f_equal; try (apply Rmax_floor_twice; assumption).
    + replace 4.0 with 4 by lra. replace 9.0 with 9 by lra.
      replace (Rmax 4 (Rmin 9 (p + - (c1 / 100.0) * 0.15)) + - (c2 / 100.0) * 0.15)
        with (Rmax 4 (Rmin 9 (p - c1 / 100 * 0.15)) - c2 / 100 * 0.15)
        by (replace (p + - (c1 / 100.0) * 0.15) with (p - c1 / 100 * 0.15) by lra; lra).
      replace (p + - ((c1 + c2) / 100.0) * 0.15)
        with (p - (c1 / 100 * 0.15 + c2 / 100 * 0.15)) by lra.
      apply clamp_twice; lra.
    + assert (E : c2 = 0) by lra. rewrite E.
      do 2 f_equal. lra.
    + assert (E : c1 = 0) by lra. rewrite E.
      do 2 f_equal. lra.
Qed.

(** Whatever the dose and the pH model, the alkalinity stored is
    [max(0, alkalinity - consumed)], and density and viscosity stay. *)
Lemma alkalinity_after_dose (has_pyeql : bool) (w : t) (dose volume : R) :
  alkalinity (fst (add_coagulant has_pyeql w dose volume))
  = Rmax 0 (alkalinity w - dose / 342.15 * 6 * 100.09 * 1000).
Proof.
  unfold add_coagulant. cbv zeta.
  destruct has_pyeql; [reflexivity |].
  destruct (Rlt_dec 0 (dose / 342.15 * 6 * 100.09 * 1000)); reflexivity.
Qed.

Lemma physics_after_dose (has_pyeql : bool) (w : t) (dose volume : R) :
  viscosity (fst (add_coagulant has_pyeql w dose volume)) = viscosity w /\
  density (fst (add_coagulant has_pyeql w dose volume)) = density w /\
  turbidity (fst (add_coagulant has_pyeql w dose volume)) = turbidity w /\
  temperature (fst (add_coagulant has_pyeql w dose volume)) = temperature w.
Proof.
  unfold add_coagulant. cbv zeta.
  destruct has_pyeql; [repeat split |].
  destruct (Rlt_dec 0 (dose / 342.15 * 6 * 100.09 * 1000)); repeat split.
Qed.

End Dosing.

(** X1.  Dosing is additive: with any pH model, a dose [d1 >= 0] followed
    by a dose [d2 >= 0] on water of pH at most 9 leaves the very state that
    the single dose [d1 + d2] leaves, whatever volumes are passed. *)
Theorem add_coagulant_additive (has_pyeql : bool) (w : WaterProperties.t)
    (d1 d2 v1 v2 v : R) :
  0 <= d1 -> 0 <= d2 -> WaterProperties.pH w <= 9 ->
  fst (WaterProperties.add_coagulant has_pyeql
         (fst (WaterProperties.add_coagulant has_pyeql w d1 v1)) d2 v2) =
  fst (WaterProperties.add_coagulant has_pyeql w (d1 + d2) v).
Proof. apply doses_add_up. Qed.

Lemma add_coagulant_additive_witness :
  (0 <= 0.02 /\ 0 <= 0.03 /\ WaterProperties.pH baseline_water <= 9) /\
  fst (WaterProperties.add_coagulant false
         (fst (WaterProperties.add_coagulant false baseline_water 0.02 10)) 0.03 10) =
  fst (WaterProperties.add_coagulant false baseline_water (0.02 + 0.03) 10).
Proof.
  assert (H1 : 0 <= 0.02) by lra.
  assert (H2 : 0 <= 0.03) by lra.
  assert (Hp : WaterProperties.pH baseline_water <= 9) by (simpl; lra).
  split; [exact (conj H1 (conj H2 Hp)) |].
  exact (add_coagulant_additive false baseline_water 0.02 0.03 10 10 10 H1 H2 Hp).
Defined.

(** X2.  With the simplified pH model a dose [>= 0] never raises the
    alkalinity of water whose alkalinity is not negative, and never raises
    the pH of water of pH at least 4; the alkalinity is used up (exactly 0)
    exactly when the dose consumes at least what was there.  Water below
    pH 4 is the exception: any dose above zero lifts it to pH 4. *)
Theorem add_coagulant_monotone (w : WaterProperties.t) (dose volume : R) :
  0 <= dose -> 0 <= WaterProperties.alkalinity w ->
  let consumed := dose / 342.15 * 6 * 100.09 * 1000 in
  let w' := fst (WaterProperties.add_coagulant false w dose volume) in
  WaterProperties.alkalinity w' <= WaterProperties.alkalinity w /\
  (WaterProperties.alkalinity w' = 0 <-> WaterProperties.alkalinity w <= consumed) /\
  (4 <= WaterProperties.pH w -> WaterProperties.pH w' <= WaterProperties.pH w) /\
  (WaterProperties.pH w < 4 -> 0 < dose ->
   WaterProperties.pH w' = 4 /\ WaterProperties.pH w < WaterProperties.pH w').
Proof.
  intros Hd Ha consumed w'.
  assert (Hc : 0 <= consumed) by (unfold consumed; lra).
  assert (Halk : WaterProperties.alkalinity w' =
                 Rmax 0 (WaterProperties.alkalinity w - consumed)).
  { subst w'. destruct (Rlt_le_dec 0 dose) as [Hpos | Hle].
    - rewrite (add_coagulant_positive w dose volume Hpos). reflexivity.
    - rewrite (add_coagulant_nonpositive false w dose volume Hle). reflexivity. }
  split; [| split; [| split]].
  - rewrite Halk. apply Rmax_lub; lra.
  - rewrite Halk. unfold Rmax.
    destruct (Rle_dec 0 (WaterProperties.alkalinity w - consumed)); split; intros; lra.
  - intros Hp. subst w'. destruct (Rlt_le_dec 0 dose) as [Hpos | Hle].
    + rewrite (add_coagulant_positive w dose volume Hpos). unfold dosed. simpl.
      replace 4.0 with 4 by lra. replace 9.0 with 9 by lra.
      replace (WaterProperties.pH w + - (dose / 342.15 * 6 * 100.09 * 1000 / 100.0) * 0.15)
        with (WaterProperties.pH w - consumed / 100 * 0.15)
        by (unfold consumed; lra).
      apply clamp_below; lra.
    + rewrite (add_coagulant_nonpositive false w dose volume Hle). simpl. lra.
  - intros Hp Hpos. subst w'.
    rewrite (add_coagulant_positive w dose volume Hpos). unfold dosed. simpl.
    assert (E : Rmax 4.0 (Rmin 9.0 (WaterProperties.pH w
                 + - (dose / 342.15 * 6 * 100.09 * 1000 / 100.0) * 0.15)) = 4).
    { unfold Rmax, Rmin. repeat (destruct (Rle_dec _ _)); lra. }
    rewrite E. split; [reflexivity | lra].
Qed.

Lemma add_coagulant_monotone_witness :
  (0 <= 0.02 /\ 0 <= WaterProperties.alkalinity baseline_water) /\
  WaterProperties.alkalinity
    (fst (WaterProperties.add_coagulant false baseline_water 0.02 10))
  <= WaterProperties.alkalinity baseline_water.
Proof.
  assert (H1 : 0 <= 0.02) by lra.
  assert (H2 : 0 <= WaterProperties.alkalinity baseline_water) by (simpl; lra).
  split; [exact (conj H1 H2) |].
  exact (proj1 (add_coagulant_monotone baseline_water 0.02 10 H1 H2)).
Defined.

(** ** The constructor of [WaterProperties] *)

Section Correlations.

Lemma py_pow_frac_above (x y : R) :
  0 <= x -> exists p, py_pow_frac x y = PyFloat p /\ 0 <= p /\ (0 < x -> p = Rpower x y).
Proof.
  intros Hx. unfold py_pow_frac.
  destruct (Rlt_dec x 0) as [Hn | _]; [exfalso; lra |].
  destruct (Req_dec_T x 0) as [E | Hne].
  - exists 0. split; [reflexivity |]. split; [lra | intros H; exfalso; lra].
  - exists (Rpower x y). split; [reflexivity |].
    split; [apply Rlt_le; apply exp_pos | reflexivity].
Qed.

Lemma py_pow_frac_increasing (x1 x2 y p1 p2 : R) :
  0 < y -> 0 <= x1 < x2 ->
  py_pow_frac x1 y = PyFloat p1 -> py_pow_frac x2 y = PyFloat p2 -> p1 < p2.
Proof.
  intros Hy [H1 H12] E1 E2. unfold py_pow_frac in *.
  destruct (Rlt_dec x2 0) as [Hn | _]; [exfalso; lra |].
  destruct (Req_dec_T x2 0) as [E | _]; [exfalso; lra |].
  destruct (Rlt_dec x1 0) as [Hn | _]; [exfalso; lra |].
  injection E2 as <-.
  destruct (Req_dec_T x1 0) as [E | Hne]; injection E1 as <-.
  - apply exp_pos.
  - apply Rlt_Rpower_l; lra.
Qed.

Lemma Rpower_below_square (x : R) : 0 < x -> Rpower x 1.9 <= Rmax 1 (x ^ 2).
Proof.
  intros Hx. destruct (Rle_lt_dec 1 x) as [Hge | Hlt].
  - apply Rle_trans with (Rpower x 2).
    + apply Rle_Rpower; lra.
    + replace 2 with (INR 2) by (simpl; lra).
      rewrite Rpower_pow by assumption. apply Rmax_r.
  - apply Rle_trans with 1; [| apply Rmax_l].
    apply Rle_trans with (Rpower 1 1.9).
    + apply Rle_Rpower_l; lra.
    + unfold Rpower. rewrite ln_1. rewrite Rmult_0_r. rewrite exp_0. lra.
Qed.

(** Away from -133.15 degrees Celsius the viscosity correlation stays
    within the range of the floats. *)
Lemma viscosity_in_range (temperature : R) :
  -132 <= temperature \/ temperature <= -134 ->
  ~ Rabs (temperature + 273.15 - 140) < 0.826.
Proof.
  intros [H | H] Habs.
  - rewrite Rabs_right in Habs by lra. lra.
  - rewrite Rabs_left in Habs by lra. lra.
Qed.

End Correlations.

(** X3.  Without the [thermo] package the constructor builds an object
    exactly for temperatures of at least 4 degrees Celsius, and then stores
    its four arguments as they are.  Below 4 degrees the density
    correlation takes a fractional power of a negative number, so what is
    left is an object whose density is a complex number; this is stated
    for temperatures from -132 degrees up and from -134 degrees down,
    clear of -133.15 degrees, where the power of ten in the viscosity
    correlation leaves the range of the floats. *)
Theorem water_properties_constructed (Chemical_water : R -> R * R)
    (temperature pH alkalinity turbidity : R) :
  (4 <= temperature <->
   exists w, WaterProperties.init false Chemical_water temperature pH alkalinity
               turbidity = WaterProperties.Constructed w) /\
  (forall w,
      WaterProperties.init false Chemical_water temperature pH alkalinity turbidity
      = WaterProperties.Constructed w ->
      WaterProperties.temperature w = temperature /\ WaterProperties.pH w = pH /\
      WaterProperties.alkalinity w = alkalinity /\
      WaterProperties.turbidity w = turbidity) /\
  (temperature < 4 -> -132 <= temperature \/ temperature <= -134 ->
   WaterProperties.init false Chemical_water temperature pH alkalinity turbidity
   = WaterProperties.ComplexDensity).
Proof.
  assert (Hclear : -132 <= temperature \/ temperature <= -134 ->
                   ~ Rabs (temperature + 273.15 - 140) < 0.826)
    by (intros H; apply viscosity_in_range; lra).
  unfold WaterProperties.init, WaterProperties.update_properties. cbv zeta.
  cbn [WaterProperties.temperature WaterProperties.pH WaterProperties.alkalinity
       WaterProperties.turbidity].
  unfold py_pow_frac.
  destruct (Rlt_dec (Rabs (temperature + 273.15 - 140)) 0.826) as [Hout | Hin].
  - assert (Hlow : temperature < 4)
      by (destruct (Rlt_le_dec temperature 4) as [H | H];
          [exact H | exfalso; apply Hclear; [left; lra | exact Hout]]).
    split; [split |]; [intros H; exfalso; lra | intros [w H]; discriminate |].
    split; [intros w H; discriminate |].
    intros _ H. exfalso. exact (Hclear H Hout).
  - destruct (Rlt_dec (temperature - 4) 0) as [Hlt | Hge].
    + split; [split |]; [intros H; exfalso; lra | intros [w H]; discriminate |].
      split; [intros w H; discriminate |].
      intros _ _. reflexivity.
    + destruct (Req_dec_T (temperature - 4) 0) as [E4 | Hn4].
      * split; [split |]; [intros _; eexists; reflexivity | intros _; lra |].
        split; [intros w H; injection H as <-; repeat split |].
        intros H. exfalso. lra.
      * split; [split |]; [intros _; eexists; reflexivity | intros _; lra |].
        split; [intros w H; injection H as <-; repeat split |].
        intros H. exfalso. lra.
Qed.

(** X4.  Without the [thermo] package, water built at a temperature from 4
    to 100 degrees Celsius has a density between 835 and 1000 kg/m3 and a
    viscosity above zero; of two such waters the warmer one is strictly
    less dense and strictly less viscous. *)
Theorem water_properties_correlations (Chemical_water : R -> R * R)
    (T1 T2 pH1 pH2 alkalinity1 alkalinity2 turbidity1 turbidity2 : R) :
  4 <= T1 -> T1 < T2 -> T2 <= 100 ->
  exists w1 w2,
    WaterProperties.init false Chemical_water T1 pH1 alkalinity1 turbidity1
      = WaterProperties.Constructed w1 /\
    WaterProperties.init false Chemical_water T2 pH2 alkalinity2 turbidity2
      = WaterProperties.Constructed w2 /\
    835 <= WaterProperties.density w2 /\
    WaterProperties.density w2 < WaterProperties.density w1 /\
    WaterProperties.density w1 <= 1000 /\
    0 < WaterProperties.viscosity w2 /\
    WaterProperties.viscosity w2 < WaterProperties.viscosity w1.
Proof.
  intros H1 H12 H2.
  unfold WaterProperties.init, WaterProperties.update_properties. cbv zeta.
  cbn [WaterProperties.temperature WaterProperties.pH WaterProperties.alkalinity
       WaterProperties.turbidity].
  destruct (Rlt_dec (Rabs (T1 + 273.15 - 140)) 0.826) as [Hout | _];
    [exfalso; apply (viscosity_in_range T1); [left; lra | exact Hout] |].
  destruct (Rlt_dec (Rabs (T2 + 273.15 - 140)) 0.826) as [Hout | _];
    [exfalso; apply (viscosity_in_range T2); [left; lra | exact Hout] |].
  destruct (py_pow_frac_above (T1 - 4) 1.9) as [p1 [E1 [Hp1 _]]]; [lra |].
  destruct (py_pow_frac_above (T2 - 4) 1.9) as [p2 [E2 [Hp2 Hv2]]]; [lra |].
  assert (Hlt : p1 < p2)
    by (apply (py_pow_frac_increasing (T1 - 4) (T2 - 4) 1.9); [lra | lra | assumption | assumption]).
  rewrite E1, E2. eexists. eexists.
  split; [reflexivity |]. split; [reflexivity |].
  cbn [WaterProperties.density WaterProperties.viscosity].
  assert (Hsq : p2 <= 9216).
  { rewrite Hv2 by lra.
    apply Rle_trans with (Rmax 1 ((T2 - 4) ^ 2)).
    - apply Rpower_below_square. lra.
    - apply Rmax_lub; [lra | nra]. }
  split; [lra |]. split; [lra |]. split; [lra |].
  assert (Hpow : Rpower 10 (247.8 / (T2 + 273.15 - 140))
                 < Rpower 10 (247.8 / (T1 + 273.15 - 140))).
  { apply Rpower_lt; [lra |].
    unfold Rdiv. apply Rmult_lt_compat_l; [lra |].
    apply Rinv_lt_contravar; [nra | lra]. }
  assert (Hpos : 0 < Rpower 10 (247.8 / (T2 + 273.15 - 140))) by apply exp_pos.
  split; lra.
Qed.

Lemma water_properties_correlations_witness :
  (4 <= 20 /\ 20 < 30 /\ 30 <= 100) /\
  exists w1 w2,
    WaterProperties.init false (fun _ => (0, 0)) 20 7.0 100 50
      = WaterProperties.Constructed w1 /\
    WaterProperties.init false (fun _ => (0, 0)) 30 7.0 100 50
      = WaterProperties.Constructed w2 /\
    WaterProperties.density w2 < WaterProperties.density w1 /\
    WaterProperties.viscosity w2 < WaterProperties.viscosity w1.
Proof.
  assert (H1 : 4 <= 20) by lra.
  assert (H12 : 20 < 30) by lra.
  assert (H2 : 30 <= 100) by lra.
  split; [exact (conj H1 (conj H12 H2)) |].
  destruct (water_properties_correlations (fun _ => (0, 0)) 20 30 7.0 7.0 100 100 50 50
              H1 H12 H2)
    as [w1 [w2 [E1 [E2 [_ [Hd [_ [_ Hv]]]]]]]].
  exists w1, w2. exact (conj E1 (conj E2 (conj Hd Hv))).
Defined.

(** ** Distributions: [normalize], [mean_size] and the default constructor *)

Section Distributions.

Lemma mul_arrays_map (k j : R) (s c : list R) :
  mul_arrays (map (fun x => x * k) s) (map (fun x => x * j) c) =
  map (fun x => x * (k * j)) (mul_arrays s c).
Proof.
  revert c. induction s as [| s0 s IH]; intros c; [reflexivity |].
  destruct c as [| c0 c]; [reflexivity |].
  simpl. rewrite IH. f_equal. ring.
Qed.

Lemma mul_arrays_map_r (j : R) (s c : list R) :
  mul_arrays s (map (fun x => x * j) c) = map (fun x => x * j) (mul_arrays s c).
Proof.
  revert c. induction s as [| s0 s IH]; intros c; [reflexivity |].
  destruct c as [| c0 c]; [reflexivity |].
  simpl. rewrite IH. f_equal. ring.
Qed.

Lemma strictly_increasing_increasing (x : list R) : strictly_increasing x -> increasing x.
Proof.
  induction x as [| x0 x IH]; [intros _; exact I |].
  destruct x as [| x1 x]; [intros _; exact I |].
  intros [H01 H]. split; [lra | apply IH; exact H].
Qed.

Lemma trapz_nonneg (y x : list R) :
  increasing x -> Forall (fun c => 0 <= c) y -> 0 <= trapz y x.
Proof.
  intros Hx Hy.
  assert (H : Forall2 Rle (repeat 0 (length y)) y).
  { induction Hy as [| c y Hc Hy IH]; [apply Forall2_nil |].
    simpl. apply Forall2_cons; assumption. }
  pose proof (trapz_monotone _ _ x Hx H) as Hle.
  rewrite trapz_zeros in Hle. exact Hle.
Qed.

(** Positive integrand over strictly increasing points, at least two of them. *)
Lemma trapz_pos (y x : list R) :
  strictly_increasing x -> Forall (fun c => 0 < c) y ->
  length y = length x -> (2 <= length x)%nat -> 0 < trapz y x.
Proof.
  intros Hx Hy Hlen H2.
  destruct y as [| y0 [| y1 y]]; destruct x as [| x0 [| x1 x]];
    simpl in Hlen, H2; try lia.
  rewrite trapz_cons2.
  destruct Hx as [H01 Hx].
  inversion Hy as [| ? ? Hy0 Hy']; subst.
  inversion Hy' as [| ? ? Hy1 Hy'']; subst.
  assert (Hrest : 0 <= trapz (y1 :: y) (x1 :: x)).
  { apply trapz_nonneg.
    - apply strictly_increasing_increasing. exact Hx.
    - apply Forall_impl with (P := fun c => 0 < c); [intros a Ha; lra | exact Hy']. }
  assert (Hstep : 0 < (x1 - x0) * (y1 + y0)) by nra.
  lra.
Qed.

Lemma scaled_to_zero (d : R) (c : list R) :
  map (fun x => x * 0 / d) c = repeat 0 (length c).
Proof.
  induction c as [| c0 c IH]; [reflexivity |].
  simpl. f_equal; [unfold Rdiv; ring | exact IH].
Qed.

Lemma products_with_zeros (s : list R) (n : nat) :
  mul_arrays s (repeat 0 n) = repeat 0 (length (mul_arrays s (repeat 0 n))).
Proof.
  revert s. induction n as [| n IH]; intros s.
  - destruct s; reflexivity.
  - destruct s as [| s0 s]; [reflexivity |].
    simpl. f_equal; [ring | apply IH].
Qed.

Lemma products_below (hi : R) (s c : list R) :
  length c = length s ->
  Forall (fun x => x <= hi) s -> Forall (fun x => 0 <= x) c ->
  Forall2 Rle (mul_arrays s c) (map (fun x => x * hi) c).
Proof.
  revert c. induction s as [| s0 s IH]; intros c Hlen Hs Hc.
  - destruct c; [apply Forall2_nil | discriminate].
  - destruct c as [| c0 c]; [discriminate |].
    inversion Hs; subst. inversion Hc; subst. simpl.
    apply Forall2_cons; [nra |]. apply IH; [simpl in Hlen; lia | assumption | assumption].
Qed.

Lemma products_above (lo : R) (s c : list R) :
  length c = length s ->
  Forall (fun x => lo <= x) s -> Forall (fun x => 0 <= x) c ->
  Forall2 Rle (map (fun x => x * lo) c) (mul_arrays s c).
Proof.
  revert c. induction s as [| s0 s IH]; intros c Hlen Hs Hc.
  - destruct c; [apply Forall2_nil | discriminate].
  - destruct c as [| c0 c]; [discriminate |].
    inversion Hs; subst. inversion Hc; subst. simpl.
    apply Forall2_cons; [nra |]. apply IH; [simpl in Hlen; lia | assumption | assumption].
Qed.

End Distributions.

(** X5.  On a distribution whose trapezoidal mass is not zero,
    [normalize(total)] returns, keeps the bin centres and the number of
    bins, and leaves the mass at exactly [total].  For [total] other than 0
    it also keeps the mean size, and a later [normalize] gives what it
    would have given on the original: only the last target counts. *)
Theorem normalize_sets_mass (p : ParticleDistribution.t) (total : R) :
  well_formed p ->
  trapz (ParticleDistribution.concentrations p) (ParticleDistribution.sizes p) <> 0 ->
  exists p',
    ParticleDistribution.normalize p total = Ok p' /\
    ParticleDistribution.sizes p' = ParticleDistribution.sizes p /\
    well_formed p' /\
    trapz (ParticleDistribution.concentrations p') (ParticleDistribution.sizes p')
      = total /\
    (total <> 0 ->
     ParticleDistribution.mean_size p' = ParticleDistribution.mean_size p /\
     forall total', ParticleDistribution.normalize p' total'
                    = ParticleDistribution.normalize p total').
Proof.
  intros Hwf Hm. destruct p as [s c]. unfold well_formed in *. simpl in *.
  rewrite (normalize_ok (ParticleDistribution.mk s c) total Hm). simpl.
  eexists. split; [reflexivity |]. simpl.
  assert (Hmass : trapz (map (fun x => x * total / trapz c s) c) s = total).
  { rewrite (trapz_scale_y (fun x => x * total / trapz c s) (total / trapz c s))
      by (intros x; unfold Rdiv; ring).
    field. exact Hm. }
  split; [reflexivity |]. split; [rewrite length_map; exact Hwf |].
  split; [exact Hmass |].
  intros Ht. split.
  - unfold ParticleDistribution.mean_size. simpl. rewrite Hmass.
    replace (map (fun x => x * total / trapz c s) c)
      with (map (fun x => x * (total / trapz c s)) c)
      by (apply map_ext; intros x; unfold Rdiv; ring).
    rewrite mul_arrays_map_r.
    rewrite (trapz_scale_y (fun x => x * (total / trapz c s)) (total / trapz c s))
      by (intros x; reflexivity).
    rewrite !np_div_finite by assumption. f_equal. field. split; assumption.
  - intros total'.
    assert (Hm' : trapz (ParticleDistribution.concentrations
                           (ParticleDistribution.mk s
                              (map (fun x => x * total / trapz c s) c)))
                        (ParticleDistribution.sizes
                           (ParticleDistribution.mk s
                              (map (fun x => x * total / trapz c s) c))) <> 0)
      by (simpl; rewrite Hmass; exact Ht).
    rewrite (normalize_ok _ total' Hm').
    rewrite (normalize_ok (ParticleDistribution.mk s c) total' Hm). simpl.
    rewrite Hmass. rewrite map_map. do 2 f_equal.
    apply map_ext. intros x. field. split; assumption.
Qed.

Lemma normalize_sets_mass_witness :
  (well_formed (two_bins 30 20) /\
   trapz (ParticleDistribution.concentrations (two_bins 30 20))
         (ParticleDistribution.sizes (two_bins 30 20)) <> 0) /\
  exists p',
    ParticleDistribution.normalize (two_bins 30 20) 50 = Ok p' /\
    trapz (ParticleDistribution.concentrations p') (ParticleDistribution.sizes p') = 50.
Proof.
  assert (Hwf : well_formed (two_bins 30 20)) by reflexivity.
  assert (Hm : trapz (ParticleDistribution.concentrations (two_bins 30 20))
                     (ParticleDistribution.sizes (two_bins 30 20)) <> 0)
    by (simpl; lra).
  split; [exact (conj Hwf Hm) |].
  destruct (normalize_sets_mass (two_bins 30 20) 50 Hwf Hm) as [p' [E [_ [_ [M _]]]]].
  exists p'. exact (conj E M).
Defined.

(** X6.  Normalising to a total of 0 cannot be undone: on a distribution
    with one concentration per bin centre and with mass it returns the
    all-zero distribution over the same bins, on which every further
    [normalize] fills the array with [nan] and [mean_size] is [nan]. *)
Theorem normalize_to_zero_is_final (p : ParticleDistribution.t) (total : R) :
  well_formed p ->
  trapz (ParticleDistribution.concentrations p) (ParticleDistribution.sizes p) <> 0 ->
  exists p',
    ParticleDistribution.normalize p 0 = Ok p' /\
    well_formed p' /\
    ParticleDistribution.sizes p' = ParticleDistribution.sizes p /\
    ParticleDistribution.concentrations p'
      = repeat 0 (length (ParticleDistribution.concentrations p)) /\
    ParticleDistribution.normalize p' total = NotFinite /\
    ParticleDistribution.mean_size p' = NaN.
Proof.
  intros Hwf Hm. destruct p as [s c]. unfold well_formed in *. simpl in *.
  assert (Hne : c <> []) by (intros E; subst c; apply Hm; reflexivity).
  rewrite (normalize_ok (ParticleDistribution.mk s c) 0 Hm). simpl.
  pose proof (scaled_to_zero (trapz c s) c) as Hz.
  eexists. split; [reflexivity |]. simpl. rewrite Hz.
  split; [rewrite repeat_length; exact Hwf |].
  split; [reflexivity |]. split; [reflexivity |]. split.
  - apply normalize_zero_mass; simpl.
    + destruct c; [contradiction Hne; reflexivity | discriminate].
    + apply trapz_zeros.
  - unfold ParticleDistribution.mean_size. simpl.
    rewrite trapz_zeros.
    rewrite products_with_zeros. rewrite trapz_zeros. apply np_div_nan.
Qed.

Lemma normalize_to_zero_is_final_witness :
  (well_formed (two_bins 30 20) /\
   trapz (ParticleDistribution.concentrations (two_bins 30 20))
         (ParticleDistribution.sizes (two_bins 30 20)) <> 0) /\
  exists p',
    ParticleDistribution.normalize (two_bins 30 20) 0 = Ok p' /\
    ParticleDistribution.normalize p' 50 = NotFinite.
Proof.
  assert (Hwf : well_formed (two_bins 30 20)) by reflexivity.
  assert (Hm : trapz (ParticleDistribution.concentrations (two_bins 30 20))
                     (ParticleDistribution.sizes (two_bins 30 20)) <> 0)
    by (simpl; lra).
  split; [exact (conj Hwf Hm) |].
  destruct (normalize_to_zero_is_final (two_bins 30 20) 50 Hwf Hm)
    as [p' [E [_ [_ [_ [N _]]]]]].
  exists p'. exact (conj E N).
Defined.

(** X7.  The mean size of a distribution with mass, non-negative
    concentrations and bin centres in increasing order is a finite number
    that lies between any two bounds that enclose all its bin centres. *)
Theorem mean_size_within_range (p : ParticleDistribution.t) (lo hi : R) :
  well_formed p ->
  increasing (ParticleDistribution.sizes p) ->
  Forall (fun s => lo <= s <= hi) (ParticleDistribution.sizes p) ->
  Forall (fun c => 0 <= c) (ParticleDistribution.concentrations p) ->
  trapz (ParticleDistribution.concentrations p) (ParticleDistribution.sizes p) <> 0 ->
  exists m, ParticleDistribution.mean_size p = Finite m /\ lo <= m <= hi.
Proof.
  intros Hwf Hinc Hs Hc Hm. destruct p as [s c]. unfold well_formed in *. simpl in *.
  unfold ParticleDistribution.mean_size. simpl.
  rewrite np_div_finite by exact Hm.
  eexists. split; [reflexivity |].
  assert (Hpos : 0 < trapz c s).
  { pose proof (trapz_nonneg c s Hinc Hc). lra. }
  assert (Hhi : trapz (mul_arrays s c) s <= hi * trapz c s).
  { rewrite <- (trapz_scale_y (fun x => x * hi) hi c s) by (intros x; reflexivity).
    apply trapz_monotone; [exact Hinc |].
    apply products_below; [exact Hwf | | exact Hc].
    apply Forall_impl with (P := fun x => lo <= x <= hi); [intros a Ha; lra | exact Hs]. }
  assert (Hlo : lo * trapz c s <= trapz (mul_arrays s c) s).
  { rewrite <- (trapz_scale_y (fun x => x * lo) lo c s) by (intros x; reflexivity).
    apply trapz_monotone; [exact Hinc |].
    apply products_above; [exact Hwf | | exact Hc].
    apply Forall_impl with (P := fun x => lo <= x <= hi); [intros a Ha; lra | exact Hs]. }
  split.
  - apply Rmult_le_reg_r with (trapz c s); [exact Hpos |].
    unfold Rdiv. rewrite Rmult_assoc. rewrite Rinv_l by exact Hm. lra.
  - apply Rmult_le_reg_r with (trapz c s); [exact Hpos |].
    unfold Rdiv. rewrite Rmult_assoc. rewrite Rinv_l by exact Hm. lra.
Qed.

Lemma mean_size_within_range_witness :
  (well_formed (two_bins 30 20) /\
   increasing (ParticleDistribution.sizes (two_bins 30 20)) /\
   Forall (fun s => 1 <= s <= 10) (ParticleDistribution.sizes (two_bins 30 20)) /\
   Forall (fun c => 0 <= c) (ParticleDistribution.concentrations (two_bins 30 20)) /\
   trapz (ParticleDistribution.concentrations (two_bins 30 20))
         (ParticleDistribution.sizes (two_bins 30 20)) <> 0) /\
  exists m, ParticleDistribution.mean_size (two_bins 30 20) = Finite m /\ 1 <= m <= 10.
Proof.
  assert (Hwf : well_formed (two_bins 30 20)) by reflexivity.
  assert (Hinc : increasing (ParticleDistribution.sizes (two_bins 30 20)))
    by (simpl; split; [lra | exact I]).
  assert (Hs : Forall (fun s => 1 <= s <= 10)
                 (ParticleDistribution.sizes (two_bins 30 20)))
    by (simpl; apply Forall_cons; [lra | apply Forall_cons; [lra | apply Forall_nil]]).
  assert (Hc : Forall (fun c => 0 <= c)
                 (ParticleDistribution.concentrations (two_bins 30 20)))
    by (simpl; apply Forall_cons; [lra | apply Forall_cons; [lra | apply Forall_nil]]).
  assert (Hm : trapz (ParticleDistribution.concentrations (two_bins 30 20))
                     (ParticleDistribution.sizes (two_bins 30 20)) <> 0)
    by (simpl; lra).
  split; [exact (conj Hwf (conj Hinc (conj Hs (conj Hc Hm)))) |].
  exact (mean_size_within_range (two_bins 30 20) 1 10 Hwf Hinc Hs Hc Hm).
Defined.

(** X8.  Rapid mixing multiplies the mean size by exactly the factor it
    stretches the bin centres with, [1 + 0.1 * min(1, dose / 0.05)], for
    every dose [>= 0] and every distribution with one concentration per
    bin centre and with mass. *)
Theorem rapid_mix_scales_mean_size (has_pyeql : bool) (rm : RapidMixing.t)
    (w : WaterProperties.t) (p : ParticleDistribution.t) (dose : R) :
  well_formed p ->
  0 <= dose ->
  trapz (ParticleDistribution.concentrations p) (ParticleDistribution.sizes p) <> 0 ->
  exists w' p',
    RapidMixing.process has_pyeql rm w p dose = Ok (w', p') /\
    well_formed p' /\
    ParticleDistribution.mean_size p' =
      np_mul (ParticleDistribution.mean_size p) (1 + 0.1 * Rmin 1.0 (dose / 0.05)).
Proof.
  intros Hwf Hd Hm.
  pose proof (scale_factor_bounds dose Hd) as Hscale.
  rewrite process_ok; [| lra | exact Hm].
  eexists. eexists. split; [reflexivity |].
  split; [unfold well_formed in *; simpl; rewrite !length_map; exact Hwf |].
  clear Hwf.
  destruct p as [s c]. simpl in *.
  set (k := 1 + 0.1 * Rmin 1.0 (dose / 0.05)) in *.
  unfold ParticleDistribution.mean_size. simpl.
  replace (map (fun x => x * trapz c s / (k * trapz c s)) c)
    with (map (fun x => x * / k) c)
    by (apply map_ext; intros x; field; split; [exact Hm | lra]).
  rewrite mul_arrays_map.
  rewrite !trapz_scale_x.
  rewrite (trapz_scale_y (fun x => x * (k * / k)) (k * / k)) by (intros x; reflexivity).
  rewrite (trapz_scale_y (fun x => x * / k) (/ k)) by (intros x; reflexivity).
  assert (Hden : k * (/ k * trapz c s) <> 0).
  { replace (k * (/ k * trapz c s)) with (trapz c s) by (field; lra). exact Hm. }
  rewrite !np_div_finite by assumption. simpl. f_equal. field.
  split; [exact Hm | lra].
Qed.

Lemma rapid_mix_scales_mean_size_witness :
  (well_formed (two_bins 30 20) /\ 0 <= 0.02 /\
   trapz (ParticleDistribution.concentrations (two_bins 30 20))
         (ParticleDistribution.sizes (two_bins 30 20)) <> 0) /\
  exists w' p',
    RapidMixing.process false default_rapid_mix baseline_water (two_bins 30 20) 0.02
      = Ok (w', p') /\
    ParticleDistribution.mean_size p' =
      np_mul (ParticleDistribution.mean_size (two_bins 30 20))
             (1 + 0.1 * Rmin 1.0 (0.02 / 0.05)).
Proof.
  assert (Hwf : well_formed (two_bins 30 20)) by reflexivity.
  assert (Hd : 0 <= 0.02) by lra.
  assert (Hm : trapz (ParticleDistribution.concentrations (two_bins 30 20))
                     (ParticleDistribution.sizes (two_bins 30 20)) <> 0)
    by (simpl; lra).
  split; [exact (conj Hwf (conj Hd Hm)) |].
  destruct (rapid_mix_scales_mean_size false default_rapid_mix baseline_water
              (two_bins 30 20) 0.02 Hwf Hd Hm) as [w' [p' [E [_ Hmean]]]].
  exists w', p'. exact (conj E Hmean).
Defined.

(** ** The default distribution and [setup_system] *)

Section DefaultDistribution.

Lemma seq_map_strictly_increasing (f : nat -> R) (a n : nat) :
  (forall k, f k < f (S k)) -> strictly_increasing (map f (seq a n)).
Proof.
  intros Hf. revert a. induction n as [| n IH]; intros a; [exact I |].
  destruct n as [| n]; [exact I |].
  change (map f (seq a (S (S n)))) with (f a :: map f (seq (S a) (S n))).
  change (map f (seq (S a) (S n))) with (f (S a) :: map f (seq (S (S a)) n)) in *.
  split; [apply Hf |].
  exact (IH (S a)).
Qed.

Lemma ln_2_bounds : / 2 < ln 2 < 1.
Proof.
  split; [exact ln_lt_2 |].
  rewrite <- (ln_exp 1). apply ln_increasing; [lra |].
  pose proof (exp_ineq1 1). lra.
Qed.

Lemma lognormal_exponent_nonpositive (xi mu sigma : R) :
  sigma <> 0 -> lognormal_exponent xi mu sigma <= 0.
Proof.
  intros Hs. unfold lognormal_exponent.
  assert (H2 : 0 < 2 * sigma ^ 2) by nra.
  assert (Hsq : 0 <= (ln xi - mu) ^ 2) by apply pow2_ge_0.
  unfold Rdiv. rewrite Ropp_mult_distr_l_reverse.
  apply Ropp_le_cancel. rewrite Ropp_involutive, Ropp_0.
  apply Rmult_le_pos; [exact Hsq |]. apply Rlt_le. apply Rinv_0_lt_compat. exact H2.
Qed.

Lemma lognormal_value (xi mu sigma : R) :
  0 < xi -> sigma <> 0 ->
  (l <- np_log xi ;;
   e <- np_divide (- (l - mu) ^ 2) (2 * sigma ^ 2) ;;
   density <- np_exp e ;;
   np_divide density (xi * sigma * sqrt (2 * PI)))
  = Ok ((if Rle_dec (lognormal_exponent xi mu sigma) (-1075 * ln 2) then 0
         else exp (lognormal_exponent xi mu sigma))
        / (xi * sigma * sqrt (2 * PI))).
Proof.
  intros Hx Hs. unfold np_log.
  destruct (Rlt_dec 0 xi) as [_ | Hn]; [| contradiction].
  cbn [bind].
  assert (Hsq : 0 < sqrt (2 * PI)).
  { apply sqrt_lt_R0. pose proof PI_RGT_0. lra. }
  rewrite np_divide_ok by nra. cbn [bind].
  fold (lognormal_exponent xi mu sigma).
  pose proof (lognormal_exponent_nonpositive xi mu sigma Hs) as He.
  pose proof ln_2_bounds as [Hln _].
  unfold np_exp.
  destruct (Rlt_dec (1024 * ln 2) (lognormal_exponent xi mu sigma)) as [Hbig | _];
    [exfalso; lra |].
  assert (Hdiv : xi * sigma * sqrt (2 * PI) <> 0).
  { apply Rmult_integral_contrapositive_currified; [| lra].
    apply Rmult_integral_contrapositive_currified; lra. }
  destruct (Rle_dec (lognormal_exponent xi mu sigma) (-1075 * ln 2)); cbn [bind];
    rewrite np_divide_ok by exact Hdiv; reflexivity.
Qed.

(** One entry of the density: never negative, 0.0 where [np.exp]
    underflows, above zero while the exponent is moderate. *)
Lemma lognormal_entry (xi mu sigma : R) :
  0 < xi -> 0 < sigma ->
  exists ci,
    (l <- np_log xi ;;
     e <- np_divide (- (l - mu) ^ 2) (2 * sigma ^ 2) ;;
     density <- np_exp e ;;
     np_divide density (xi * sigma * sqrt (2 * PI))) = Ok ci /\
    0 <= ci /\
    (lognormal_exponent xi mu sigma <= -1075 * ln 2 -> ci = 0) /\
    (-500 <= lognormal_exponent xi mu sigma -> 0 < ci).
Proof.
  intros Hx Hs. rewrite lognormal_value by lra.
  eexists. split; [reflexivity |].
  assert (Hsq : 0 < sqrt (2 * PI)).
  { apply sqrt_lt_R0. pose proof PI_RGT_0. lra. }
  assert (Hdiv : 0 < xi * sigma * sqrt (2 * PI))
    by (apply Rmult_lt_0_compat; [apply Rmult_lt_0_compat |]; assumption).
  pose proof ln_2_bounds as [Hln _].
  destruct (Rle_dec (lognormal_exponent xi mu sigma) (-1075 * ln 2)) as [Hlow | Hhigh].
  - split; [unfold Rdiv; rewrite Rmult_0_l; lra |].
    split; [intros _; unfold Rdiv; apply Rmult_0_l | intros H; exfalso; lra].
  - pose proof (exp_pos (lognormal_exponent xi mu sigma)) as Hexp.
    assert (Hq : 0 < exp (lognormal_exponent xi mu sigma) / (xi * sigma * sqrt (2 * PI)))
      by (apply Rdiv_lt_0_compat; assumption).
    split; [lra |]. split; [intros H; contradiction | intros _; exact Hq].
Qed.

Lemma mapM_related {A B : Type} (f : A -> result B) (P : A -> B -> Prop) (l : list A) :
  (forall x, In x l -> exists y, f x = Ok y /\ P x y) ->
  exists ys, mapM f l = Ok ys /\ Forall2 P l ys.
Proof.
  induction l as [| x l IH]; intros H.
  - exists []. split; [reflexivity | apply Forall2_nil].
  - destruct (H x (or_introl eq_refl)) as [y [Hy HP]].
    destruct IH as [ys [Hys HF]].
    { intros z Hz. apply H. right. exact Hz. }
    exists (y :: ys). simpl. rewrite Hy. simpl. rewrite Hys. simpl.
    split; [reflexivity | apply Forall2_cons; assumption].
Qed.

Lemma lognormal_entries (x : list R) (mu sigma : R) :
  Forall (fun xi => 0 < xi) x -> 0 < sigma ->
  exists c,
    ParticleDistribution._lognormal_distribution x mu sigma = Ok c /\
    Forall2 (fun xi ci =>
               0 <= ci /\
               (lognormal_exponent xi mu sigma <= -1075 * ln 2 -> ci = 0) /\
               (-500 <= lognormal_exponent xi mu sigma -> 0 < ci)) x c.
Proof.
  intros Hx Hs. unfold ParticleDistribution._lognormal_distribution.
  apply mapM_related. intros xi Hin.
  apply lognormal_entry; [| exact Hs].
  exact (proj1 (Forall_forall _ x) Hx xi Hin).
Qed.

(** Where the exponent stays moderate on every size, every entry is above
    zero. *)
Lemma lognormal_ok (x : list R) (mu sigma : R) :
  Forall (fun xi => 0 < xi) x -> 0 < sigma ->
  Forall (fun xi => -500 <= lognormal_exponent xi mu sigma) x ->
  exists c,
    ParticleDistribution._lognormal_distribution x mu sigma = Ok c /\
    Forall (fun ci => 0 < ci) c /\ length c = length x.
Proof.
  intros Hx Hs He.
  destruct (lognormal_entries x mu sigma Hx Hs) as [c [Hc Hrel]].
  exists c. split; [exact Hc |].
  clear Hc Hx. revert He.
  induction Hrel as [| xi ci x c [_ [_ Hpos]] Hrel IH]; intros He.
  - split; [apply Forall_nil | reflexivity].
  - inversion He as [| ? ? He0 He']; subst.
    destruct (IH He') as [HF Hl].
    split; [apply Forall_cons; [exact (Hpos He0) | exact HF] | simpl; f_equal; exact Hl].
Qed.

(** On sizes from 0.1 to 100 the default parameters keep the exponent far
    from the underflow of [np.exp]. *)
Lemma default_exponent_moderate (s : R) :
  0.1 <= s <= 100 -> -500 <= lognormal_exponent s 2.0 0.8.
Proof.
  intros [Hlo Hhi].
  assert (H10 : 11 < exp 10) by (pose proof (exp_ineq1 10); lra).
  assert (H25 : 3.5 < exp 2.5) by (pose proof (exp_ineq1 2.5); lra).
  assert (Hbig : 100 < exp 10).
  { replace 10 with (2.5 + 2.5 + (2.5 + 2.5)) by lra.
    rewrite !exp_plus.
    assert (Hsq : 12.25 < exp 2.5 * exp 2.5) by nra.
    nra. }
  assert (Hsmall : exp (Ropp 10) < 0.1).
  { rewrite exp_Ropp.
    apply Rlt_trans with (/ 11); [| lra].
    apply Rinv_lt_contravar; [nra | exact H10]. }
  assert (Hl0 : Ropp 10 < ln s).
  { rewrite <- (ln_exp (Ropp 10)). apply ln_increasing; [apply exp_pos | lra]. }
  assert (Hl1 : ln s < 10).
  { rewrite <- (ln_exp 10). apply ln_increasing; lra. }
  unfold lognormal_exponent.
  assert (Hsq : (ln s - 2.0) ^ 2 <= 144) by nra.
  replace (2 * 0.8 ^ 2) with 1.28 by lra.
  lra.
Qed.

Lemma logspace50_length : length ParticleDistribution.logspace50 = 50%nat.
Proof. unfold ParticleDistribution.logspace50. rewrite length_map. apply length_seq. Qed.

Lemma logspace50_strictly_increasing :
  strictly_increasing ParticleDistribution.logspace50.
Proof.
  unfold ParticleDistribution.logspace50.
  apply seq_map_strictly_increasing. intros k.
  apply Rpower_lt; [lra |]. rewrite S_INR. lra.
Qed.

Lemma logspace50_range :
  Forall (fun s => 0.1 <= s <= 100) ParticleDistribution.logspace50.
Proof.
  unfold ParticleDistribution.logspace50.
  apply Forall_forall. intros s Hin.
  apply in_map_iff in Hin. destruct Hin as [k [<- Hk]].
  apply in_seq in Hk.
  assert (H0 : 0 <= INR k) by apply pos_INR.
  assert (H49 : INR k <= 49).
  { replace 49 with (INR 49) by (simpl; lra). apply le_INR. lia. }
  assert (Hlo : Rpower 10 (-1) = 0.1).
  { replace (-1) with (- (1)) by lra. rewrite Rpower_Ropp. rewrite Rpower_1 by lra. lra. }
  assert (Hhi : Rpower 10 2 = 100).
  { replace 2 with (INR 2) by (simpl; lra). rewrite Rpower_pow by lra. simpl. lra. }
  split.
  - rewrite <- Hlo. apply Rle_Rpower; lra.
  - rewrite <- Hhi. apply Rle_Rpower; lra.
Qed.

Lemma logspace50_positive : Forall (fun s => 0 < s) ParticleDistribution.logspace50.
Proof.
  apply Forall_impl with (P := fun s => 0.1 <= s <= 100);
    [intros a Ha; lra | exact logspace50_range].
Qed.

Lemma default_distribution_ok :
  exists p,
    ParticleDistribution.init_default = Ok p /\
    ParticleDistribution.sizes p = ParticleDistribution.logspace50 /\
    well_formed p /\
    Forall (fun c => 0 < c) (ParticleDistribution.concentrations p) /\
    0 < trapz (ParticleDistribution.concentrations p) (ParticleDistribution.sizes p).
Proof.
  destruct (lognormal_ok ParticleDistribution.logspace50 2.0 0.8 logspace50_positive)
    as [c [Hc [Hpos Hlen]]]; [lra | |].
  { apply Forall_impl with (2 := logspace50_range).
    intros s Hs. apply default_exponent_moderate. exact Hs. }
  unfold ParticleDistribution.init_default. rewrite Hc. cbn [bind].
  eexists. split; [reflexivity |]. cbn [ParticleDistribution.sizes
                                        ParticleDistribution.concentrations].
  split; [reflexivity |]. split; [exact Hlen |]. split; [exact Hpos |].
  apply trapz_pos.
  - exact logspace50_strictly_increasing.
  - exact Hpos.
  - exact Hlen.
  - rewrite logspace50_length. lia.
Qed.

Lemma default_particles_ok (total : R) :
  exists p,
    (particles0 <- ParticleDistribution.init_default ;;
     ParticleDistribution.normalize particles0 total) = Ok p /\
    ParticleDistribution.sizes p = ParticleDistribution.logspace50 /\
    well_formed p /\
    trapz (ParticleDistribution.concentrations p) (ParticleDistribution.sizes p) = total /\
    (0 <= total -> Forall (fun c => 0 <= c) (ParticleDistribution.concentrations p)).
Proof.
  destruct default_distribution_ok as [p0 [E0 [Hs [Hwf [Hpos Hm]]]]].
  rewrite E0. cbn [bind].
  assert (Hne : trapz (ParticleDistribution.concentrations p0)
                      (ParticleDistribution.sizes p0) <> 0) by lra.
  rewrite (normalize_ok p0 total Hne).
  eexists. split; [reflexivity |].
  cbn [ParticleDistribution.sizes ParticleDistribution.concentrations].
  split; [exact Hs |]. split; [| split].
  - unfold well_formed. cbn [ParticleDistribution.sizes
                              ParticleDistribution.concentrations].
    rewrite length_map. exact Hwf.
  - rewrite (trapz_scale_y _ (total / trapz (ParticleDistribution.concentrations p0)
                                            (ParticleDistribution.sizes p0)))
      by (intros x; unfold Rdiv; ring).
    field. exact Hne.
  - intros Ht. apply Forall_forall. intros y Hin.
    apply in_map_iff in Hin. destruct Hin as [c [<- Hin]].
    assert (0 < c) by exact (proj1 (Forall_forall _ _) Hpos c Hin).
    apply Rmult_le_pos; [nra | apply Rlt_le; apply Rinv_0_lt_compat; exact Hm].
Qed.

Lemma constructed_from_four (Chemical_water : R -> R * R)
    (temperature pH alkalinity turbidity : R) :
  4 <= temperature ->
  exists rho mu,
    WaterProperties.init false Chemical_water temperature pH alkalinity turbidity
    = WaterProperties.Constructed
        (WaterProperties.mk temperature pH alkalinity turbidity rho mu) /\
    0 < mu /\ rho <= 1000.
Proof.
  intros HT. unfold WaterProperties.init, WaterProperties.update_properties.
  cbv zeta. cbn [WaterProperties.temperature WaterProperties.pH
                 WaterProperties.alkalinity WaterProperties.turbidity].
  destruct (Rlt_dec (Rabs (temperature + 273.15 - 140)) 0.826) as [Hout | _];
    [exfalso; apply (viscosity_in_range temperature); [left; lra | exact Hout] |].
  destruct (py_pow_frac_above (temperature - 4) 1.9) as [p [E [Hp _]]]; [lra |].
  rewrite E. eexists. eexists. split; [reflexivity |].
  split; [| lra].
  apply Rmult_lt_0_compat; [lra | apply exp_pos].
Qed.

End DefaultDistribution.

(** X9.  For sizes all above zero and [sigma > 0] the log-normal density
    returns an array of the length of its argument without a negative
    entry: an entry is 0.0 where [np.exp] underflows (exponent
    [-(ln x - mu)^2 / (2 sigma^2)] at most [-1075 ln 2]) and above zero
    where the exponent is at least -500.  A size of zero or below anywhere,
    or [sigma = 0] on a non-empty array, puts [nan] or an infinity into
    it. *)
Theorem lognormal_distribution_entries (x : list R) (mu sigma : R) :
  x <> [] ->
  (Forall (fun xi => 0 < xi) x -> 0 < sigma ->
   exists c,
     ParticleDistribution._lognormal_distribution x mu sigma = Ok c /\
     length c = length x /\
     Forall2 (fun xi ci =>
                0 <= ci /\
                (lognormal_exponent xi mu sigma <= -1075 * ln 2 -> ci = 0) /\
                (-500 <= lognormal_exponent xi mu sigma -> 0 < ci)) x c) /\
  (Forall (fun xi => 0 < xi) x ->
   ParticleDistribution._lognormal_distribution x mu 0 = NotFinite) /\
  (Exists (fun xi => xi <= 0) x ->
   ParticleDistribution._lognormal_distribution x mu sigma = NotFinite).
Proof.
  intros Hne. split; [| split].
  - intros Hx Hs.
    destruct (lognormal_entries x mu sigma Hx Hs) as [c [Hc Hrel]].
    exists c. split; [exact Hc |].
    split; [symmetry; exact (Forall2_length Hrel) | exact Hrel].
  - intros Hx. destruct x as [| x0 x]; [contradiction Hne; reflexivity |].
    inversion Hx as [| ? ? Hx0 Hx']; subst.
    unfold ParticleDistribution._lognormal_distribution. cbn [mapM].
    unfold np_log. destruct (Rlt_dec 0 x0) as [_ | Hn]; [| contradiction].
    cbn [bind]. replace (2 * 0 ^ 2) with 0 by ring.
    rewrite np_divide_zero. reflexivity.
  - intros Hex. clear Hne.
    unfold ParticleDistribution._lognormal_distribution.
    induction Hex as [x0 x H0 | x0 x Hex IH].
    + cbn [mapM]. unfold np_log.
      destruct (Rlt_dec 0 x0) as [Hp | _]; [exfalso; lra | reflexivity].
    + cbn [mapM]. rewrite IH. unfold np_log, np_divide, np_exp.
      destruct (Rlt_dec 0 x0); [| reflexivity]. cbn [bind].
      destruct (Req_dec_T (2 * sigma ^ 2) 0); [reflexivity |]. cbn [bind].
      destruct (Rlt_dec (1024 * ln 2) (- (ln x0 - mu) ^ 2 / (2 * sigma ^ 2)));
        [reflexivity |].
      destruct (Rle_dec (- (ln x0 - mu) ^ 2 / (2 * sigma ^ 2)) (-1075 * ln 2));
        cbn [bind];
        destruct (Req_dec_T (x0 * sigma * sqrt (2 * PI)) 0); reflexivity.
Qed.

Lemma lognormal_distribution_entries_witness :
  [1; 10] <> [] /\
  exists c,
    ParticleDistribution._lognormal_distribution [1; 10] 2.0 0.8 = Ok c /\
    length c = length [1; 10].
Proof.
  assert (Hne : [1; 10] <> []) by discriminate.
  assert (Hx : Forall (fun xi => 0 < xi) [1; 10])
    by (apply Forall_cons; [lra | apply Forall_cons; [lra | apply Forall_nil]]).
  assert (Hs : 0 < 0.8) by lra.
  split; [exact Hne |].
  destruct (proj1 (lognormal_distribution_entries [1; 10] 2.0 0.8 Hne) Hx Hs)
    as [c [E [Hl _]]].
  exists c. exact (conj E Hl).
Defined.

(** A narrow density underflows: with [sigma = 0.01] the entry at size 1 is
    0.0. *)
Example lognormal_underflows :
  ParticleDistribution._lognormal_distribution [1] 2.0 0.01 = Ok [0].
Proof.
  unfold ParticleDistribution._lognormal_distribution. cbn [mapM].
  rewrite lognormal_value by lra. cbn [bind].
  pose proof ln_2_bounds as [_ Hln].
  assert (He : lognormal_exponent 1 2.0 0.01 <= -1075 * ln 2).
  { unfold lognormal_exponent. rewrite ln_1.
    replace (- (0 - 2.0) ^ 2 / (2 * 0.01 ^ 2)) with (-20000) by lra. lra. }
  destruct (Rle_dec (lognormal_exponent 1 2.0 0.01) (-1075 * ln 2)) as [_ | Hn];
    [| contradiction].
  unfold Rdiv. rewrite Rmult_0_l. reflexivity.
Qed.

(** X10.  [ParticleDistribution()] with no argument always returns: 50 bin
    centres from 0.1 to 100 in strictly increasing order, 50 concentrations
    all above zero, a mass above zero.  So the [normalize(total)] that
    [setup_system] runs on it returns for every [total] and leaves exactly
    that mass. *)
Theorem default_distribution_normalizes (total : R) :
  exists p0 p,
    ParticleDistribution.init_default = Ok p0 /\
    length (ParticleDistribution.sizes p0) = 50%nat /\
    length (ParticleDistribution.concentrations p0) = 50%nat /\
    strictly_increasing (ParticleDistribution.sizes p0) /\
    Forall (fun s => 0.1 <= s <= 100) (ParticleDistribution.sizes p0) /\
    Forall (fun c => 0 < c) (ParticleDistribution.concentrations p0) /\
    0 < trapz (ParticleDistribution.concentrations p0) (ParticleDistribution.sizes p0) /\
    ParticleDistribution.normalize p0 total = Ok p /\
    ParticleDistribution.sizes p = ParticleDistribution.sizes p0 /\
    trapz (ParticleDistribution.concentrations p) (ParticleDistribution.sizes p) = total.
Proof.
  destruct default_distribution_ok as [p0 [E0 [Hs [Hwf [Hpos Hm]]]]].
  destruct (default_particles_ok total) as [p [E [Hs' [_ [Hmass _]]]]].
  rewrite E0 in E. cbn [bind] in E.
  exists p0, p. split; [exact E0 |].
  split; [rewrite Hs; exact logspace50_length |].
  split; [rewrite Hwf, Hs; exact logspace50_length |].
  split; [rewrite Hs; exact logspace50_strictly_increasing |].
  split; [rewrite Hs; exact logspace50_range |].
  split; [exact Hpos |]. split; [exact Hm |].
  split; [exact E |]. split; [congruence | exact Hmass].
Qed.

Section SetUp.

Import WaterTreatmentSimulation.

Lemma stages_ok (kwargs : Kwargs) (p : ParticleDistribution.t) :
  get (kw_flow_rate kwargs) 100 <> 0 ->
  get (kw_floc_chambers kwargs) 3%Z <> 0%Z ->
  get (kw_overflow_rate kwargs) 10 <> 0 ->
  (rapid_mix <- RapidMixing.init (get (kw_rapid_mix_volume kwargs) 10)
                  (get (kw_flow_rate kwargs) 100)
                  (get (kw_rapid_mix_G kwargs) 1000)
                  (get (kw_rapid_mix_time kwargs) 30) ;;
   flocculation <- Flocculation.init (get (kw_floc_chambers kwargs) 3%Z)
                     (get (kw_floc_volume kwargs) 200)
                     (get (kw_floc_G kwargs) 50)
                     (get (kw_floc_time kwargs) 1800) ;;
   sedimentation <- Sedimentation.init (get (kw_sed_area kwargs) 100)
                      (get (kw_sed_height kwargs) 3)
                      (get (kw_overflow_rate kwargs) 10) ;;
   Ok (p, rapid_mix, flocculation, sedimentation))
  = Ok (p,
        RapidMixing.mk (get (kw_rapid_mix_volume kwargs) 10)
          (get (kw_flow_rate kwargs) 100) (get (kw_rapid_mix_G kwargs) 1000)
          (get (kw_rapid_mix_time kwargs) 30)
          (get (kw_rapid_mix_volume kwargs) 10 / (get (kw_flow_rate kwargs) 100 / 3600)),
        Flocculation.mk (get (kw_floc_chambers kwargs) 3%Z)
          (get (kw_floc_volume kwargs) 200) (get (kw_floc_G kwargs) 50)
          (get (kw_floc_time kwargs) 1800)
          (get (kw_floc_volume kwargs) 200 / IZR (get (kw_floc_chambers kwargs) 3%Z))
          (get (kw_floc_time kwargs) 1800 / IZR (get (kw_floc_chambers kwargs) 3%Z)),
        Sedimentation.mk (get (kw_sed_area kwargs) 100) (get (kw_sed_height kwargs) 3)
          (get (kw_overflow_rate kwargs) 10)
          (get (kw_sed_height kwargs) 3 / (get (kw_overflow_rate kwargs) 10 / 3600))).
Proof.
  intros Hflow Hch Hover.
  unfold RapidMixing.init.
  rewrite (py_div_ok (get (kw_flow_rate kwargs) 100) 3600) by lra. cbn [bind].
  rewrite py_div_ok by (intros E; apply Hflow; lra). cbn [bind].
  rewrite flocculation_init_ok by exact Hch. cbn [bind].
  rewrite sedimentation_init_ok by exact Hover. cbn [bind].
  reflexivity.
Qed.

Lemma stages_no_chamber (kwargs : Kwargs) (p : ParticleDistribution.t) :
  get (kw_flow_rate kwargs) 100 <> 0 ->
  get (kw_floc_chambers kwargs) 3%Z = 0%Z ->
  (rapid_mix <- RapidMixing.init (get (kw_rapid_mix_volume kwargs) 10)
                  (get (kw_flow_rate kwargs) 100)
                  (get (kw_rapid_mix_G kwargs) 1000)
                  (get (kw_rapid_mix_time kwargs) 30) ;;
   flocculation <- Flocculation.init (get (kw_floc_chambers kwargs) 3%Z)
                     (get (kw_floc_volume kwargs) 200)
                     (get (kw_floc_G kwargs) 50)
                     (get (kw_floc_time kwargs) 1800) ;;
   sedimentation <- Sedimentation.init (get (kw_sed_area kwargs) 100)
                      (get (kw_sed_height kwargs) 3)
                      (get (kw_overflow_rate kwargs) 10) ;;
   Ok (p, rapid_mix, flocculation, sedimentation))
  = Raise ZeroDivisionError.
Proof.
  intros Hflow Hch.
  unfold RapidMixing.init.
  rewrite (py_div_ok (get (kw_flow_rate kwargs) 100) 3600) by lra. cbn [bind].
  rewrite py_div_ok by (intros E; apply Hflow; lra). cbn [bind].
  rewrite Hch. rewrite flocculation_init_zero. reflexivity.
Qed.

Lemma particles_then (A : Type) (total : R)
    (k : ParticleDistribution.t -> result A) :
  exists p,
    (particles0 <- ParticleDistribution.init_default ;;
     particles <- ParticleDistribution.normalize particles0 total ;;
     k particles) = k p /\
    ParticleDistribution.sizes p = ParticleDistribution.logspace50 /\
    well_formed p /\
    trapz (ParticleDistribution.concentrations p) (ParticleDistribution.sizes p) = total /\
    (0 <= total -> Forall (fun c => 0 <= c) (ParticleDistribution.concentrations p)).
Proof.
  destruct (default_particles_ok total) as [p [Ep H]].
  exists p. split; [| exact H].
  destruct ParticleDistribution.init_default as [p0 | e |];
    cbn [bind] in *; try discriminate.
  rewrite Ep. reflexivity.
Qed.

End SetUp.

(** X11.  Without the [thermo] package [setup_system] returns whenever the
    temperature is at least 4 degrees Celsius and the flow rate, the number
    of flocculation chambers and the overflow rate are not 0, each taken
    from the keyword arguments or from its default.  The object it leaves
    holds the water as given, a distribution on the default bin centres
    whose mass is [initial_solids], and the three stages with their
    derived residence and chamber times.  A chamber count of 0 makes it
    raise [ZeroDivisionError] instead. *)
Theorem setup_system_returns (Chemical_water : R -> R * R)
    (kwargs : WaterTreatmentSimulation.Kwargs) :
  4 <= WaterTreatmentSimulation.get (WaterTreatmentSimulation.kw_temperature kwargs) 20 ->
  WaterTreatmentSimulation.get (WaterTreatmentSimulation.kw_flow_rate kwargs) 100 <> 0 ->
  WaterTreatmentSimulation.get (WaterTreatmentSimulation.kw_overflow_rate kwargs) 10
    <> 0 ->
  let chambers :=
    WaterTreatmentSimulation.get (WaterTreatmentSimulation.kw_floc_chambers kwargs) 3%Z in
  (chambers = 0%Z ->
   WaterTreatmentSimulation.setup_system false Chemical_water kwargs
     = WaterTreatmentSimulation.SetUpRaises ZeroDivisionError) /\
  (chambers <> 0%Z ->
   exists sim,
     WaterTreatmentSimulation.setup_system false Chemical_water kwargs
       = WaterTreatmentSimulation.SetUp sim /\
     WaterProperties.temperature (WaterTreatmentSimulation.water_props sim)
       = WaterTreatmentSimulation.get (WaterTreatmentSimulation.kw_temperature kwargs) 20 /\
     WaterProperties.pH (WaterTreatmentSimulation.water_props sim)
       = WaterTreatmentSimulation.get (WaterTreatmentSimulation.kw_pH kwargs) 7.0 /\
     WaterProperties.alkalinity (WaterTreatmentSimulation.water_props sim)
       = WaterTreatmentSimulation.get (WaterTreatmentSimulation.kw_alkalinity kwargs) 100 /\
     WaterProperties.turbidity (WaterTreatmentSimulation.water_props sim)
       = WaterTreatmentSimulation.get (WaterTreatmentSimulation.kw_turbidity kwargs) 50 /\
     0 < WaterProperties.viscosity (WaterTreatmentSimulation.water_props sim) /\
     WaterProperties.density (WaterTreatmentSimulation.water_props sim) <= 1000 /\
     ParticleDistribution.sizes (WaterTreatmentSimulation.particles sim)
       = ParticleDistribution.logspace50 /\
     trapz (ParticleDistribution.concentrations (WaterTreatmentSimulation.particles sim))
           (ParticleDistribution.sizes (WaterTreatmentSimulation.particles sim))
       = WaterTreatmentSimulation.get
           (WaterTreatmentSimulation.kw_initial_solids kwargs) 50 /\
     RapidMixing.residence_time (WaterTreatmentSimulation.rapid_mix sim)
       = WaterTreatmentSimulation.get
           (WaterTreatmentSimulation.kw_rapid_mix_volume kwargs) 10
         / (WaterTreatmentSimulation.get
              (WaterTreatmentSimulation.kw_flow_rate kwargs) 100 / 3600) /\
     Flocculation.chambers (WaterTreatmentSimulation.flocculation sim) = chambers /\
     Flocculation.chamber_time (WaterTreatmentSimulation.flocculation sim)
       = WaterTreatmentSimulation.get (WaterTreatmentSimulation.kw_floc_time kwargs) 1800
         / IZR chambers /\
     Sedimentation.height (WaterTreatmentSimulation.sedimentation sim)
       = WaterTreatmentSimulation.get (WaterTreatmentSimulation.kw_sed_height kwargs) 3 /\
     Sedimentation.residence_time (WaterTreatmentSimulation.sedimentation sim)
       = WaterTreatmentSimulation.get (WaterTreatmentSimulation.kw_sed_height kwargs) 3
         / (WaterTreatmentSimulation.get
              (WaterTreatmentSimulation.kw_overflow_rate kwargs) 10 / 3600)).
Proof.
  intros HT Hflow Hover chambers.
  destruct (constructed_from_four Chemical_water _
              (WaterTreatmentSimulation.get (WaterTreatmentSimulation.kw_pH kwargs) 7.0)
              (WaterTreatmentSimulation.get
                 (WaterTreatmentSimulation.kw_alkalinity kwargs) 100)
              (WaterTreatmentSimulation.get
                 (WaterTreatmentSimulation.kw_turbidity kwargs) 50) HT)
    as [rho [mu [Ew [Hmu Hrho]]]].
  unfold WaterTreatmentSimulation.setup_system. rewrite Ew.
  match goal with
  | |- context [bind ParticleDistribution.init_default
                  (fun particles0 =>
                     bind (ParticleDistribution.normalize particles0 ?total) ?k)] =>
      destruct (particles_then _ total k) as [p [Ep [Hs [_ [Hmass _]]]]]
  end.
  split.
  - intros Hch. rewrite Ep.
    rewrite (stages_no_chamber kwargs p Hflow Hch). reflexivity.
  - intros Hch. rewrite Ep.
    rewrite (stages_ok kwargs p Hflow Hch Hover).
    eexists. split; [reflexivity |].
    cbn. repeat split; try reflexivity; assumption.
Qed.

Lemma setup_system_returns_witness :
  (4 <= WaterTreatmentSimulation.get
          (WaterTreatmentSimulation.kw_temperature no_kwargs) 20 /\
   WaterTreatmentSimulation.get (WaterTreatmentSimulation.kw_flow_rate no_kwargs) 100
     <> 0 /\
   WaterTreatmentSimulation.get (WaterTreatmentSimulation.kw_overflow_rate no_kwargs) 10
     <> 0 /\
   WaterTreatmentSimulation.get (WaterTreatmentSimulation.kw_floc_chambers no_kwargs) 3%Z
     <> 0%Z) /\
  exists sim,
    WaterTreatmentSimulation.setup_system false (fun _ => (0, 0)) no_kwargs
      = WaterTreatmentSimulation.SetUp sim /\
    trapz (ParticleDistribution.concentrations (WaterTreatmentSimulation.particles sim))
          (ParticleDistribution.sizes (WaterTreatmentSimulation.particles sim))
      = 50 /\
    Sedimentation.residence_time (WaterTreatmentSimulation.sedimentation sim)
      = 3 / (10 / 3600).
Proof.
  assert (HT : 4 <= WaterTreatmentSimulation.get
                      (WaterTreatmentSimulation.kw_temperature no_kwargs) 20)
    by (simpl; lra).
  assert (Hflow : WaterTreatmentSimulation.get
                    (WaterTreatmentSimulation.kw_flow_rate no_kwargs) 100 <> 0)
    by (simpl; lra).
  assert (Hover : WaterTreatmentSimulation.get
                    (WaterTreatmentSimulation.kw_overflow_rate no_kwargs) 10 <> 0)
    by (simpl; lra).
  assert (Hch : WaterTreatmentSimulation.get
                  (WaterTreatmentSimulation.kw_floc_chambers no_kwargs) 3%Z <> 0%Z)
    by (simpl; discriminate).
  split; [exact (conj HT (conj Hflow (conj Hover Hch))) |].
  destruct (proj2 (setup_system_returns (fun _ => (0, 0)) no_kwargs HT Hflow Hover) Hch)
    as [sim [E [_ [_ [_ [_ [_ [_ [_ [Hm [_ [_ [_ [_ Hres]]]]]]]]]]]]]].
  exists sim. exact (conj E (conj Hm Hres)).
Defined.

(** ** Settling and the sedimentation tank *)

Section Tank.

Lemma mapM_ext {A B : Type} (f g : A -> result B) (l : list A) :
  (forall x, f x = g x) -> mapM f l = mapM g l.
Proof.
  intros H. induction l as [| x l IH]; [reflexivity |].
  simpl. rewrite H, IH. reflexivity.
Qed.

(** The tank enters [process] only through the quotient of its residence
    time and its height. *)
Lemma process_through_quotient (sed1 sed2 : Sedimentation.t) (w : WaterProperties.t)
    (p : ParticleDistribution.t) (floc_density : R) :
  (forall v, np_divide (v * Sedimentation.residence_time sed1) (Sedimentation.height sed1)
             = np_divide (v * Sedimentation.residence_time sed2)
                         (Sedimentation.height sed2)) ->
  Sedimentation.process sed1 w p floc_density = Sedimentation.process sed2 w p floc_density.
Proof.
  intros H. unfold Sedimentation.process. cbv zeta.
  unfold Sedimentation.settling_velocity, Sedimentation.hindered_settling. cbv zeta.
  destruct (mapM _ (ParticleDistribution.sizes p)) as [velocities | e |];
    [| reflexivity | reflexivity].
  cbn [bind].
  destruct (mapM _ velocities) as [hindered | e |]; [| reflexivity | reflexivity].
  cbn [bind].
  rewrite (mapM_ext
             (fun v => x <- np_divide (v * Sedimentation.residence_time sed1)
                                      (Sedimentation.height sed1) ;;
                       Ok (Rmin 1.0 x))
             (fun v => x <- np_divide (v * Sedimentation.residence_time sed2)
                                      (Sedimentation.height sed2) ;;
                       Ok (Rmin 1.0 x)))
    by (intros v; rewrite H; reflexivity).
  reflexivity.
Qed.

Lemma Rpower_one (n : R) : Rpower 1 n = 1.
Proof. unfold Rpower. rewrite ln_1. rewrite Rmult_0_r. apply exp_0. Qed.

End Tank.

(** X12.  Surface loading alone decides the removal: two tanks built by
    the constructor with the same overflow rate (not 0) give the very same
    report on every water and every distribution, whatever their areas and
    their heights (not 0). *)
Theorem removal_independent_of_tank_size (area1 area2 height1 height2 overflow_rate : R)
    (w : WaterProperties.t) (p : ParticleDistribution.t) (floc_density : R) :
  overflow_rate <> 0 -> height1 <> 0 -> height2 <> 0 ->
  exists sed1 sed2,
    Sedimentation.init area1 height1 overflow_rate = Ok sed1 /\
    Sedimentation.init area2 height2 overflow_rate = Ok sed2 /\
    Sedimentation.process sed1 w p floc_density
      = Sedimentation.process sed2 w p floc_density.
Proof.
  intros Ho H1 H2.
  rewrite !sedimentation_init_ok by exact Ho.
  eexists. eexists. split; [reflexivity |]. split; [reflexivity |].
  apply process_through_quotient. intros v.
  cbn [Sedimentation.residence_time Sedimentation.height].
  rewrite !np_divide_ok by assumption.
  f_equal. field. repeat split; assumption.
Qed.

Lemma removal_independent_of_tank_size_witness :
  (10 <> 0 /\ 3 <> 0 /\ 5 <> 0) /\
  exists sed1 sed2,
    Sedimentation.init 100 3 10 = Ok sed1 /\
    Sedimentation.init 40 5 10 = Ok sed2 /\
    Sedimentation.process sed1 baseline_water (two_bins 30 20) 1200
      = Sedimentation.process sed2 baseline_water (two_bins 30 20) 1200.
Proof.
  assert (Ho : 10 <> 0) by lra.
  assert (H1 : 3 <> 0) by lra.
  assert (H2 : 5 <> 0) by lra.
  split; [exact (conj Ho (conj H1 H2)) |].
  exact (removal_independent_of_tank_size 100 40 3 5 10 baseline_water
           (two_bins 30 20) 1200 Ho H1 H2).
Defined.

(** X13.  For a particle denser than the water, [settling_velocity]
    returns a velocity between 0 and the Stokes velocity
    [g d^2 (rho_p - rho_w) / (18 mu)]: exactly the Stokes velocity while
    the Reynolds number computed from it is at most 0.1, and strictly less
    once it is above, where the drag correction applies. *)
Theorem settling_velocity_at_most_stokes (sed : Sedimentation.t) (diameter rho_p : R)
    (w : WaterProperties.t) :
  0 < diameter -> 0 < WaterProperties.viscosity w ->
  0 < WaterProperties.density w -> WaterProperties.density w < rho_p ->
  let d := diameter * 1e-6 in
  let vs_stokes :=
    9.81 * d ^ 2 * (rho_p - WaterProperties.density w)
    / (18 * WaterProperties.viscosity w) in
  let Re := WaterProperties.density w * vs_stokes * d / WaterProperties.viscosity w in
  exists v,
    Sedimentation.settling_velocity sed diameter rho_p w = Ok v /\
    0 < v <= vs_stokes /\
    (Re <= 0.1 -> v = vs_stokes) /\
    (0.1 < Re -> v < vs_stokes).
Proof.
  intros Hd Hmu Hrho Hfloc d vs_stokes Re.
  unfold Sedimentation.settling_velocity. cbv zeta.
  fold d.
  set (mu := WaterProperties.viscosity w) in *.
  set (rho_w := WaterProperties.density w) in *.
  assert (Hd' : 0 < d) by (subst d; lra).
  rewrite np_divide_ok by lra. cbn [bind]. fold vs_stokes.
  assert (Hvs : 0 < vs_stokes).
  { subst vs_stokes. apply Rdiv_lt_0_compat; [| lra].
    apply Rmult_lt_0_compat; [| lra].
    apply Rmult_lt_0_compat; [lra | apply pow_lt; exact Hd']. }
  rewrite np_divide_ok by lra. cbn [bind]. fold Re.
  assert (HRe : 0 < Re).
  { subst Re. apply Rdiv_lt_0_compat; [| lra].
    apply Rmult_lt_0_compat; [apply Rmult_lt_0_compat |]; assumption. }
  destruct (Rlt_dec 0.1 Re) as [Hre | Hre].
  - rewrite np_divide_ok by lra. cbn [bind].
    rewrite np_sqrt_ok by lra. cbn [bind].
    assert (Hsq : 0 < sqrt Re) by (apply sqrt_lt_R0; exact HRe).
    rewrite np_divide_ok by lra. cbn [bind].
    set (Cd := 24 / Re + 3 / sqrt Re + 0.34).
    assert (H24 : 0 < 24 / Re) by (apply Rdiv_lt_0_compat; lra).
    assert (H3 : 0 < 3 / sqrt Re) by (apply Rdiv_lt_0_compat; lra).
    assert (HCd : 24 / Re < Cd) by (subst Cd; lra).
    assert (Hden : 0 < 3 * Cd * rho_w) by (apply Rmult_lt_0_compat; lra).
    rewrite np_divide_ok by lra. cbn [bind].
    set (A := 4 * 9.81 * d * (rho_p - rho_w)).
    assert (HA : 0 < A)
      by (subst A; apply Rmult_lt_0_compat; [apply Rmult_lt_0_compat |]; lra).
    assert (Hrad : 0 < A / (3 * Cd * rho_w)) by (apply Rdiv_lt_0_compat; assumption).
    rewrite np_sqrt_ok by lra.
    assert (Hsquare : A / (3 * (24 / Re) * rho_w) = vs_stokes * vs_stokes).
    { subst A Re vs_stokes. field. repeat split; lra. }
    assert (Hless : A / (3 * Cd * rho_w) < vs_stokes * vs_stokes).
    { rewrite <- Hsquare. unfold Rdiv at 1 3.
      apply Rmult_lt_compat_l; [exact HA |].
      apply Rinv_lt_contravar.
      - apply Rmult_lt_0_compat; [| exact Hden].
        apply Rmult_lt_0_compat; lra.
      - apply Rmult_lt_compat_r; [exact Hrho |]. lra. }
    assert (Hv : sqrt (A / (3 * Cd * rho_w)) < vs_stokes).
    { rewrite <- (sqrt_square vs_stokes) by lra.
      apply sqrt_lt_1_alt. split; [lra | exact Hless]. }
    eexists. split; [reflexivity |].
    split; [split; [apply sqrt_lt_R0; exact Hrad | lra] |].
    split; [intros H; exfalso; lra | intros _; exact Hv].
  - exists vs_stokes. split; [reflexivity |].
    split; [lra |]. split; [intros _; reflexivity | intros H; exfalso; lra].
Qed.

Lemma settling_velocity_at_most_stokes_witness :
  (0 < 10 /\ 0 < WaterProperties.viscosity baseline_water /\
   0 < WaterProperties.density baseline_water /\
   WaterProperties.density baseline_water < 1200) /\
  exists v,
    Sedimentation.settling_velocity default_sedimentation 10 1200 baseline_water = Ok v /\
    0 < v <= 9.81 * (10 * 1e-6) ^ 2 * (1200 - 998.2) / (18 * 0.001002).
Proof.
  assert (Hd : 0 < 10) by lra.
  assert (Hmu : 0 < WaterProperties.viscosity baseline_water) by (simpl; lra).
  assert (Hrho : 0 < WaterProperties.density baseline_water) by (simpl; lra).
  assert (Hfloc : WaterProperties.density baseline_water < 1200) by (simpl; lra).
  split; [exact (conj Hd (conj Hmu (conj Hrho Hfloc))) |].
  destruct (settling_velocity_at_most_stokes default_sedimentation 10 1200
              baseline_water Hd Hmu Hrho Hfloc) as [v [E [Hv _]]].
  exists v. exact (conj E Hv).
Defined.

(** X14.  Hindered settling only ever slows a particle down, and by no
    more than the factor [0.4 ** n]: for a free velocity [vs0 >= 0], an
    exponent [n >= 0] and a particle density other than 0 the result lies
    between [vs0 * 0.4 ** n] and [vs0], and it is [vs0] itself when the
    solids concentration over the density is zero or negative. *)
Theorem hindered_settling_bounds (sed : Sedimentation.t)
    (vs0 concentration density_particle n : R) :
  0 <= vs0 -> 0 <= n -> density_particle <> 0 ->
  exists v,
    Sedimentation.hindered_settling sed vs0 concentration density_particle n = Ok v /\
    vs0 * Rpower 0.4 n <= v <= vs0 /\
    (concentration / 1e6 / density_particle <= 0 -> v = vs0).
Proof.
  intros Hv Hn Hrho. unfold Sedimentation.hindered_settling. cbv zeta.
  rewrite np_divide_ok by exact Hrho. cbn [bind].
  set (phi := Rmin 0.6 (Rmax 0.0 (concentration / 1e6 / density_particle))).
  assert (Hphi : 0 <= phi <= 0.6).
  { subst phi. split.
    - apply Rmin_glb; [lra |]. apply Rle_trans with 0.0; [lra | apply Rmax_l].
    - apply Rmin_l. }
  eexists. split; [reflexivity |].
  split; [split |].
  - apply Rmult_le_compat_l; [exact Hv |].
    apply Rle_Rpower_l; [exact Hn | lra].
  - rewrite <- (Rmult_1_r vs0) at 2.
    apply Rmult_le_compat_l; [exact Hv |].
    apply Rle_trans with (Rpower 1 n); [| rewrite Rpower_one; lra].
    apply Rle_Rpower_l; [exact Hn | lra].
  - intros Hc.
    assert (E : phi = 0).
    { subst phi. rewrite Rmax_left by lra. rewrite Rmin_right by lra. lra. }
    rewrite E. replace (1 - 0) with 1 by lra.
    rewrite Rpower_one. lra.
Qed.

Lemma hindered_settling_bounds_witness :
  (0 <= 0.001 /\ 0 <= 4.65 /\ 1200 <> 0) /\
  exists v,
    Sedimentation.hindered_settling default_sedimentation 0.001 50 1200 4.65 = Ok v /\
    0.001 * Rpower 0.4 4.65 <= v <= 0.001.
Proof.
  assert (Hv : 0 <= 0.001) by lra.
  assert (Hn : 0 <= 4.65) by lra.
  assert (Hrho : 1200 <> 0) by lra.
  split; [exact (conj Hv (conj Hn Hrho)) |].
  destruct (hindered_settling_bounds default_sedimentation 0.001 50 1200 4.65 Hv Hn Hrho)
    as [v [E [Hb _]]].
  exists v. exact (conj E Hb).
Defined.

(** X15.  On water of positive viscosity and density that is lighter
    than the flocs, in a tank of positive height whose residence time is
    not negative, [process] returns for every distribution with one
    concentration per bin centre, with mass, non-negative concentrations
    and increasing positive bin centres: the efficiency is a percentage between 0 and 100, every bin
    of the effluent holds between 0 and what the influent held, the
    effluent concentration is the mass of that effluent distribution and
    equals the influent mass times [1 - efficiency / 100], and there is one
    non-negative hindered velocity per bin. *)
Theorem sedimentation_mass_balance (sed : Sedimentation.t) (w : WaterProperties.t)
    (floc_density : R) (p : ParticleDistribution.t) :
  0 < WaterProperties.viscosity w ->
  0 < WaterProperties.density w ->
  WaterProperties.density w < floc_density ->
  0 < Sedimentation.height sed ->
  0 <= Sedimentation.residence_time sed ->
  well_formed p ->
  Forall (fun s => 0 < s) (ParticleDistribution.sizes p) ->
  increasing (ParticleDistribution.sizes p) ->
  Forall (fun c => 0 <= c) (ParticleDistribution.concentrations p) ->
  trapz (ParticleDistribution.concentrations p) (ParticleDistribution.sizes p) <> 0 ->
  exists report e,
    Sedimentation.process sed w p floc_density = Ok report /\
    Sedimentation.removal_efficiency report = Finite e /\
    0 <= e <= 100 /\
    Forall2 (fun out c => 0 <= out <= c)
            (Sedimentation.size_distribution report)
            (ParticleDistribution.concentrations p) /\
    Sedimentation.effluent_concentration report
      = trapz (Sedimentation.size_distribution report) (ParticleDistribution.sizes p) /\
    Sedimentation.effluent_concentration report
      = trapz (ParticleDistribution.concentrations p) (ParticleDistribution.sizes p)
        * (1 - e / 100) /\
    length (Sedimentation.settling_velocities report)
      = length (ParticleDistribution.sizes p) /\
    Forall (fun v => 0 <= v) (Sedimentation.settling_velocities report).
Proof.
  intros Hvisc Hdens Hfloc Hheight Hres Hwf Hsizes Hinc Hconc Hmass.
  set (I := trapz (ParticleDistribution.concentrations p)
                  (ParticleDistribution.sizes p)) in *.
  destruct (mapM_exists
              (fun d => Sedimentation.settling_velocity sed d floc_density w)
              (fun v => 0 <= v) (ParticleDistribution.sizes p))
    as [velocities [Hv [HvP Hvl]]].
  { intros d Hd. apply settling_velocity_ok; try assumption.
    exact (proj1 (Forall_forall _ _) Hsizes d Hd). }
  destruct (mapM_exists
              (fun vs => Sedimentation.hindered_settling sed vs I floc_density 4.65)
              (fun v => 0 <= v) velocities) as [hindered [Hh [HhP Hhl]]].
  { intros v Hin. apply (hindered_settling_ok sed w floc_density Hdens Hfloc).
    exact (proj1 (Forall_forall _ velocities) HvP v Hin). }
  destruct (mapM_exists
              (fun v => x <- np_divide (v * Sedimentation.residence_time sed)
                                       (Sedimentation.height sed) ;;
                        Ok (Rmin 1.0 x))
              (fun r => 0 <= r <= 1) hindered) as [removal [Hr [HrP Hrl]]].
  { intros v Hin. apply (removal_fraction_ok sed Hheight Hres).
    exact (proj1 (Forall_forall _ hindered) HhP v Hin). }
  unfold Sedimentation.process. cbv zeta. fold I.
  rewrite Hv. cbn [bind]. rewrite Hh. cbn [bind]. rewrite Hr. cbn [bind].
  assert (Hbins : Forall2 (fun out c => 0 <= out <= c)
                    (mul_arrays (ParticleDistribution.concentrations p)
                                (map (fun r => 1 - r) removal))
                    (ParticleDistribution.concentrations p)).
  { apply effluent_between; [| exact Hconc | exact HrP].
    unfold well_formed in Hwf. congruence. }
  pose proof (trapz_between _ _ _ Hinc Hbins) as [H0 H1]. fold I in H1.
  set (F := trapz (mul_arrays (ParticleDistribution.concentrations p)
                              (map (fun r => 1 - r) removal))
                  (ParticleDistribution.sizes p)) in *.
  rewrite np_div_finite by exact Hmass. cbn [np_mul].
  eexists. eexists. split; [reflexivity |].
  cbn [Sedimentation.removal_efficiency Sedimentation.size_distribution
       Sedimentation.effluent_concentration Sedimentation.settling_velocities].
  split; [reflexivity |].
  assert (HI : 0 < I) by lra.
  assert (Hq : 0 <= (I - F) / I <= 1).
  { split.
    - apply Rmult_le_pos; [lra |]. apply Rlt_le. apply Rinv_0_lt_compat. exact HI.
    - apply Rmult_le_reg_r with I; [exact HI |].
      replace ((I - F) / I * I) with (I - F) by (field; lra). lra. }
  split; [lra |]. split; [exact Hbins |]. split; [reflexivity |].
  split; [field; lra |]. split; [congruence | exact HhP].
Qed.

Lemma sedimentation_mass_balance_witness :
  (0 < WaterProperties.viscosity baseline_water /\
   0 < WaterProperties.density baseline_water /\
   WaterProperties.density baseline_water < 1200 /\
   0 < Sedimentation.height default_sedimentation /\
   0 <= Sedimentation.residence_time default_sedimentation /\
   well_formed (two_bins 30 20) /\
   Forall (fun s => 0 < s) (ParticleDistribution.sizes (two_bins 30 20)) /\
   increasing (ParticleDistribution.sizes (two_bins 30 20)) /\
   Forall (fun c => 0 <= c) (ParticleDistribution.concentrations (two_bins 30 20)) /\
   trapz (ParticleDistribution.concentrations (two_bins 30 20))
         (ParticleDistribution.sizes (two_bins 30 20)) <> 0) /\
  exists report e,
    Sedimentation.process default_sedimentation baseline_water (two_bins 30 20) 1200
      = Ok report /\
    Sedimentation.removal_efficiency report = Finite e /\
    0 <= e <= 100.
Proof.
  assert (Hvisc : 0 < WaterProperties.viscosity baseline_water) by (simpl; lra).
  assert (Hdens : 0 < WaterProperties.density baseline_water) by (simpl; lra).
  assert (Hfloc : WaterProperties.density baseline_water < 1200) by (simpl; lra).
  assert (Hheight : 0 < Sedimentation.height default_sedimentation) by (simpl; lra).
  assert (Hres : 0 <= Sedimentation.residence_time default_sedimentation)
    by (simpl; lra).
  assert (Hwf : well_formed (two_bins 30 20)) by reflexivity.
  assert (Hs : Forall (fun s => 0 < s) (ParticleDistribution.sizes (two_bins 30 20)))
    by (simpl; apply Forall_cons; [lra | apply Forall_cons; [lra | apply Forall_nil]]).
  assert (Hinc : increasing (ParticleDistribution.sizes (two_bins 30 20)))
    by (simpl; split; [lra | exact I]).
  assert (Hc : Forall (fun c => 0 <= c)
                 (ParticleDistribution.concentrations (two_bins 30 20)))
    by (simpl; apply Forall_cons; [lra | apply Forall_cons; [lra | apply Forall_nil]]).
  assert (Hm : trapz (ParticleDistribution.concentrations (two_bins 30 20))
                     (ParticleDistribution.sizes (two_bins 30 20)) <> 0)
    by (simpl; lra).
  split; [exact (conj Hvisc (conj Hdens (conj Hfloc (conj Hheight (conj Hres
            (conj Hwf (conj Hs (conj Hinc (conj Hc Hm))))))))) |].
  destruct (sedimentation_mass_balance default_sedimentation baseline_water 1200
              (two_bins 30 20) Hvisc Hdens Hfloc Hheight Hres Hwf Hs Hinc Hc Hm)
    as [report [e [E [He [Hb _]]]]].
  exists report, e. exact (conj E (conj He Hb)).
Defined.

(** ** The kernels and the population balance *)

Section Balance.

Variables (n sizes : list R) (G : R) (w : WaterProperties.t).
Hypothesis Hpos : Forall (fun s => 0 < s) sizes.
Hypothesis Hmu : WaterProperties.viscosity w <> 0.
Hypothesis Hrho : WaterProperties.density w <> 0.

Lemma breakage_on_bin (i : nat) :
  (i < length sizes)%nat ->
  Flocculation.breakage_kernel (nth i sizes 0 * 1e-6) G 1200
    (WaterProperties.viscosity w) (WaterProperties.density w)
  = Ok (breakage_value (nth i sizes 0 * 1e-6) G (WaterProperties.viscosity w)
          (WaterProperties.density w)).
Proof.
  intros Hi. apply breakage_kernel_ok; [exact Hmu | exact Hrho |].
  pose proof (size_positive sizes Hpos i Hi). lra.
Qed.

Hypothesis Hlen : length n = length sizes.

Lemma birth_break_term_ok (i j : nat) :
  (i < j)%nat -> (j < length sizes)%nat ->
  Flocculation.birth_break_term Flocculation.breakage_kernel n sizes G w i j
  = Ok (2.0 / (INR j - INR i + 1)
        * breakage_value (nth j sizes 0 * 1e-6) G (WaterProperties.viscosity w)
            (WaterProperties.density w)
        * nth j n 0).
Proof.
  intros Hij Hj. unfold Flocculation.birth_break_term.
  rewrite getitem_ok by lia. cbn [bind].
  rewrite breakage_on_bin by exact Hj. cbn [bind].
  rewrite getitem_ok by lia. cbn [bind].
  destruct (Nat.ltb_spec i j) as [_ | Hn]; [reflexivity | lia].
Qed.

Lemma dndt_at_ok (i : nat) :
  (i < length sizes)%nat ->
  Flocculation.dndt_at Flocculation.coagulation_kernel Flocculation.breakage_kernel
    n sizes G w (length sizes) i
  = Ok (birth_agg n sizes G w i - death_agg n sizes G w i
        - death_break n sizes G w i + birth_break n sizes G w i).
Proof.
  intros Hi. unfold Flocculation.dndt_at.
  rewrite (for_sum_ok _ _ _ (fun j => 0.5 * pair_rate n sizes G w j (i - j - 1)))
    by (intros j Hj; apply in_seq in Hj; apply birth_term_ok; (assumption || lia)).
  cbn [bind].
  rewrite (for_sum_ok _ _ _ (fun j => pair_rate n sizes G w i j))
    by (intros j Hj; apply in_seq in Hj; apply death_agg_term_ok; (assumption || lia)).
  cbn [bind].
  rewrite getitem_ok by lia. cbn [bind].
  rewrite breakage_on_bin by exact Hi. cbn [bind].
  rewrite getitem_ok by lia. cbn [bind].
  rewrite (for_sum_ok _ _ _
             (fun j => 2.0 / (INR j - INR i + 1)
                       * breakage_value (nth j sizes 0 * 1e-6) G
                           (WaterProperties.viscosity w) (WaterProperties.density w)
                       * nth j n 0))
    by (intros j Hj; apply in_seq in Hj; apply birth_break_term_ok; lia).
  cbn [bind].
  f_equal. rewrite birth_agg_sum, death_agg_sum.
  unfold death_break, birth_break. ring.
Qed.

Lemma population_balance_ok (t : R) :
  Flocculation.population_balance t n sizes G w
  = Ok (map (fun i => birth_agg n sizes G w i - death_agg n sizes G w i
                      - death_break n sizes G w i + birth_break n sizes G w i)
            (seq 0 (length sizes))).
Proof.
  unfold Flocculation.population_balance, Flocculation.population_balance_of_self.
  apply mapM_ok. intros i Hi. apply in_seq in Hi. apply dndt_at_ok. lia.
Qed.

End Balance.

Section EmptySuspension.

Lemma Rsum_all_zero {A : Type} (f : A -> R) (l : list A) :
  (forall x, In x l -> f x = 0) -> Rsum (map f l) = 0.
Proof.
  intros H. induction l as [| x l IH]; [reflexivity |].
  simpl. rewrite (H x (or_introl eq_refl)).
  rewrite IH by (intros y Hy; apply H; right; exact Hy). lra.
Qed.

Lemma zeros_over_seq (a k : nat) : map (fun _ : nat => 0) (seq a k) = repeat 0 k.
Proof.
  revert a. induction k as [| k IH]; intros a; [reflexivity |].
  simpl. f_equal. apply IH.
Qed.

Lemma for_sum_raises (js1 js2 : list nat) (j : nat) (acc : R)
    (body : nat -> result R) (e : exn) :
  (forall k, In k js1 -> exists x, body k = Ok x) ->
  body j = Raise e ->
  for_sum (js1 ++ j :: js2) acc body = Raise e.
Proof.
  revert acc. induction js1 as [| k js1 IH]; intros acc Hok Hj; simpl.
  - rewrite Hj. reflexivity.
  - destruct (Hok k (or_introl eq_refl)) as [x Hx]. rewrite Hx. cbn [bind].
    apply IH; [| exact Hj]. intros k' Hk'. apply Hok. right. exact Hk'.
Qed.

End EmptySuspension.

(** X16.  [coagulation_kernel] is symmetric in the two diameters, in what
    it returns and in how it fails; for diameters above zero, a viscosity
    above zero and a temperature not below absolute zero it returns a rate
    that is not negative. *)
Theorem coagulation_kernel_symmetric (di dj G temperature viscosity : R) :
  Flocculation.coagulation_kernel di dj G temperature viscosity
    = Flocculation.coagulation_kernel dj di G temperature viscosity /\
  (0 < di -> 0 < dj -> 0 < viscosity -> 0 <= temperature + 273.15 ->
   exists K,
     Flocculation.coagulation_kernel di dj G temperature viscosity = Ok K /\ 0 <= K).
Proof.
  split.
  - unfold Flocculation.coagulation_kernel. cbv zeta.
    replace (dj + di) with (di + dj) by ring.
    replace (dj * di) with (di * dj) by ring.
    reflexivity.
  - intros Hi Hj Hmu HT.
    rewrite coagulation_kernel_ok by nra.
    eexists. split; [reflexivity |].
    apply kernel_value_nonneg; assumption.
Qed.

(** X17.  Larger flocs break faster: under a shear rate [G > 0], with
    viscosity and water density other than 0, the breakage rate of a floc
    is above zero and strictly increasing in its diameter. *)
Theorem breakage_kernel_increasing (d1 d2 G density_floc viscosity density_water : R) :
  0 < d1 -> d1 < d2 -> 0 < G -> viscosity <> 0 -> density_water <> 0 ->
  exists S1 S2,
    Flocculation.breakage_kernel d1 G density_floc viscosity density_water = Ok S1 /\
    Flocculation.breakage_kernel d2 G density_floc viscosity density_water = Ok S2 /\
    0 < S1 < S2.
Proof.
  intros H1 H12 HG Hmu Hrho.
  rewrite !breakage_kernel_ok by (assumption || lra).
  eexists. eexists. split; [reflexivity |]. split; [reflexivity |].
  rewrite shear_rate_abs by assumption.
  rewrite Rabs_right by lra.
  assert (Hp1 : 0 < Rpower d1 (2 / 3)) by apply exp_pos.
  assert (Hlt : Rpower d1 (2 / 3) < Rpower d2 (2 / 3))
    by (apply Rlt_Rpower_l; lra).
  split; nra.
Qed.

Lemma breakage_kernel_increasing_witness :
  (0 < 1e-6 /\ 1e-6 < 5e-6 /\ 0 < 50 /\ 0.001002 <> 0 /\ 998.2 <> 0) /\
  exists S1 S2,
    Flocculation.breakage_kernel 1e-6 50 1200 0.001002 998.2 = Ok S1 /\
    Flocculation.breakage_kernel 5e-6 50 1200 0.001002 998.2 = Ok S2 /\
    0 < S1 < S2.
Proof.
  assert (H1 : 0 < 1e-6) by lra.
  assert (H12 : 1e-6 < 5e-6) by lra.
  assert (HG : 0 < 50) by lra.
  assert (Hmu : 0.001002 <> 0) by lra.
  assert (Hrho : 998.2 <> 0) by lra.
  split; [exact (conj H1 (conj H12 (conj HG (conj Hmu Hrho)))) |].
  exact (breakage_kernel_increasing 1e-6 5e-6 50 1200 0.001002 998.2 H1 H12 HG Hmu Hrho).
Defined.

(** X18.  On a state with one concentration per bin, bin centres above
    zero, and viscosity and water density other than 0, [population_balance]
    returns, for any shear rate and any sign of the concentrations: one rate
    per bin, in bin [i] the aggregation births minus the aggregation deaths
    minus the breakage death [S_i n_i] plus the breakage births
    [sum_{j > i} 2 / (j - i + 1) * S_j * n_j]. *)
Theorem population_balance_value (t : R) (n sizes : list R) (G : R)
    (w : WaterProperties.t) :
  length n = length sizes ->
  Forall (fun s => 0 < s) sizes ->
  WaterProperties.viscosity w <> 0 ->
  WaterProperties.density w <> 0 ->
  exists dndt,
    Flocculation.population_balance t n sizes G w = Ok dndt /\
    length dndt = length sizes /\
    forall i, (i < length sizes)%nat ->
      nth i dndt 0 =
        birth_agg n sizes G w i - death_agg n sizes G w i
        - death_break n sizes G w i + birth_break n sizes G w i.
Proof.
  intros Hlen Hpos Hmu Hrho.
  rewrite (population_balance_ok n sizes G w Hpos Hmu Hrho Hlen t).
  eexists. split; [reflexivity |].
  split; [rewrite length_map; apply length_seq |].
  intros i Hi.
  set (f := fun i => birth_agg n sizes G w i - death_agg n sizes G w i
                     - death_break n sizes G w i + birth_break n sizes G w i).
  change (nth i (map f (seq 0 (length sizes))) 0 = f i).
  rewrite (nth_indep _ 0 (f 0%nat)) by (rewrite length_map, length_seq; exact Hi).
  rewrite map_nth. rewrite seq_nth by exact Hi. reflexivity.
Qed.

Lemma population_balance_value_witness :
  (length [3; 1] = length [1; 2] /\
   Forall (fun s => 0 < s) [1; 2] /\
   WaterProperties.viscosity baseline_water <> 0 /\
   WaterProperties.density baseline_water <> 0) /\
  exists dndt,
    Flocculation.population_balance 0 [3; 1] [1; 2] 50 baseline_water = Ok dndt /\
    length dndt = length [1; 2].
Proof.
  assert (Hlen : length [3; 1] = length [1; 2]) by reflexivity.
  assert (Hpos : Forall (fun s => 0 < s) [1; 2])
    by (apply Forall_cons; [lra | apply Forall_cons; [lra | apply Forall_nil]]).
  assert (Hmu : WaterProperties.viscosity baseline_water <> 0) by (simpl; lra).
  assert (Hrho : WaterProperties.density baseline_water <> 0) by (simpl; lra).
  split; [exact (conj Hlen (conj Hpos (conj Hmu Hrho))) |].
  destruct (population_balance_value 0 [3; 1] [1; 2] 50 baseline_water Hlen Hpos Hmu Hrho)
    as [dndt [E [Hl _]]].
  exists dndt. exact (conj E Hl).
Defined.

(** X19.  An empty suspension stays empty: on the all-zero state every
    rate [population_balance] returns is 0, for any bin centres above zero
    and any shear rate. *)
Theorem empty_suspension_is_steady (t : R) (sizes : list R) (G : R)
    (w : WaterProperties.t) :
  Forall (fun s => 0 < s) sizes ->
  WaterProperties.viscosity w <> 0 ->
  WaterProperties.density w <> 0 ->
  Flocculation.population_balance t (repeat 0 (length sizes)) sizes G w
    = Ok (repeat 0 (length sizes)).
Proof.
  intros Hpos Hmu Hrho.
  rewrite (population_balance_ok (repeat 0 (length sizes)) sizes G w Hpos Hmu Hrho
             (repeat_length 0 (length sizes)) t).
  f_equal.
  rewrite (map_ext_in _ (fun _ => 0)).
  - apply zeros_over_seq.
  - intros i Hi.
    assert (Hb : birth_agg (repeat 0 (length sizes)) sizes G w i = 0).
    { unfold birth_agg. rewrite Rsum_all_zero; [lra |].
      intros j _. rewrite !nth_repeat. ring. }
    assert (Hd : death_agg (repeat 0 (length sizes)) sizes G w i = 0).
    { unfold death_agg. rewrite nth_repeat. ring. }
    assert (Hdb : death_break (repeat 0 (length sizes)) sizes G w i = 0).
    { unfold death_break. rewrite nth_repeat. ring. }
    assert (Hbb : birth_break (repeat 0 (length sizes)) sizes G w i = 0).
    { unfold birth_break. apply Rsum_all_zero.
      intros j _. rewrite nth_repeat. ring. }
    rewrite Hb, Hd, Hdb, Hbb. ring.
Qed.

Lemma empty_suspension_is_steady_witness :
  (Forall (fun s => 0 < s) [1; 2] /\
   WaterProperties.viscosity baseline_water <> 0 /\
   WaterProperties.density baseline_water <> 0) /\
  Flocculation.population_balance 0 (repeat 0 (length [1; 2])) [1; 2] 50 baseline_water
    = Ok (repeat 0 (length [1; 2])).
Proof.
  assert (Hpos : Forall (fun s => 0 < s) [1; 2])
    by (apply Forall_cons; [lra | apply Forall_cons; [lra | apply Forall_nil]]).
  assert (Hmu : WaterProperties.viscosity baseline_water <> 0) by (simpl; lra).
  assert (Hrho : WaterProperties.density baseline_water <> 0) by (simpl; lra).
  split; [exact (conj Hpos (conj Hmu Hrho)) |].
  exact (empty_suspension_is_steady 0 [1; 2] 50 baseline_water Hpos Hmu Hrho).
Defined.

Section ShortState.

Lemma getitem_out_of_range (l : list R) (i : nat) :
  (length l <= i)%nat -> getitem l i = Raise IndexError.
Proof.
  intros H. unfold getitem.
  destruct (nth_error l i) as [x |] eqn:E; [| reflexivity].
  assert (Hi : (i < length l)%nat) by (apply nth_error_Some; congruence). lia.
Qed.

End ShortState.

(** X20.  A state with fewer concentrations than there are bin centres
    makes [population_balance] raise [IndexError] (bin centres above zero,
    viscosity other than 0): nothing checks the two lengths against each
    other. *)
Theorem population_balance_short_state (t : R) (n sizes : list R) (G : R)
    (w : WaterProperties.t) :
  (length n < length sizes)%nat ->
  Forall (fun s => 0 < s) sizes ->
  WaterProperties.viscosity w <> 0 ->
  Flocculation.population_balance t n sizes G w = Raise IndexError.
Proof.
  intros Hlen Hpos Hmu.
  unfold Flocculation.population_balance, Flocculation.population_balance_of_self.
  destruct (length sizes) as [| N] eqn:EN; [lia |].
  change (seq 0 (S N)) with (0%nat :: seq 1 N). cbn [mapM].
  assert (Hfirst :
    Flocculation.dndt_at Flocculation.coagulation_kernel Flocculation.breakage_kernel
      n sizes G w (S N) 0 = Raise IndexError).
  { unfold Flocculation.dndt_at. change (seq 0 0) with (@nil nat). cbn [for_sum bind].
    assert (Hsplit : seq 0 (S N)
                     = seq 0 (length n) ++ length n :: seq (S (length n)) (N - length n)).
    { replace (S N) with (length n + S (N - length n))%nat by lia.
      rewrite seq_app. simpl.
      replace (length n + S (N - length n) - length n)%nat with (S (N - length n)) by lia.
      reflexivity. }
    rewrite Hsplit.
    rewrite (for_sum_raises _ _ _ _ _ IndexError); [reflexivity | |].
    - intros k Hk. apply in_seq in Hk.
      unfold Flocculation.death_agg_term.
      rewrite getitem_ok by lia. cbn [bind].
      rewrite getitem_ok by lia. cbn [bind].
      rewrite (kernel_on_bins sizes G w Hpos Hmu) by lia. cbn [bind].
      rewrite getitem_ok by lia. cbn [bind].
      rewrite getitem_ok by lia. cbn [bind].
      eexists. reflexivity.
    - unfold Flocculation.death_agg_term.
      rewrite getitem_ok by lia. cbn [bind].
      rewrite getitem_ok by lia. cbn [bind].
      rewrite (kernel_on_bins sizes G w Hpos Hmu) by lia. cbn [bind].
      destruct n as [| n0 n'].
      + reflexivity.
      + rewrite getitem_ok by (simpl; lia). cbn [bind].
        rewrite getitem_out_of_range by lia. reflexivity. }
  rewrite Hfirst. reflexivity.
Qed.

Lemma population_balance_short_state_witness :
  ((length [3] < length [1; 2])%nat /\
   Forall (fun s => 0 < s) [1; 2] /\
   WaterProperties.viscosity baseline_water <> 0) /\
  Flocculation.population_balance 0 [3] [1; 2] 50 baseline_water = Raise IndexError.
Proof.
  assert (Hlen : (length [3] < length [1; 2])%nat) by (simpl; lia).
  assert (Hpos : Forall (fun s => 0 < s) [1; 2])
    by (apply Forall_cons; [lra | apply Forall_cons; [lra | apply Forall_nil]]).
  assert (Hmu : WaterProperties.viscosity baseline_water <> 0) by (simpl; lra).
  split; [exact (conj Hlen (conj Hpos Hmu)) |].
  exact (population_balance_short_state 0 [3] [1; 2] 50 baseline_water Hlen Hpos Hmu).
Defined.

(** ** The chambers of the flocculation stage *)

Section Chambers.

Variable solver :
  (R -> list R -> result (list R)) -> R * R -> list R -> list R
  -> result Flocculation.OdeResult.
Hypothesis Hsolver : well_behaved solver.

Lemma linspace100_grid (stop : R) :
  length (Flocculation.linspace100 stop) = 100%nat /\
  nth 0 (Flocculation.linspace100 stop) 0 = 0 /\
  nth 99 (Flocculation.linspace100 stop) 0 = stop.
Proof.
  unfold Flocculation.linspace100. split; [rewrite length_map; apply length_seq |].
  split.
  - cbn [seq map nth]. simpl. lra.
  - set (f := fun k => INR k * (stop / 99)).
    rewrite (nth_indep _ 0 (f 0%nat)) by (rewrite length_map, length_seq; lia).
    rewrite map_nth. rewrite seq_nth by lia. unfold f.
    replace (INR (0 + 99)) with 99; [field |].
    change (0 + 99)%nat with 99%nat. rewrite INR_IZR_INZ. reflexivity.
Qed.

Lemma chamber_runs (self : Flocculation.t) (w : WaterProperties.t)
    (p : ParticleDistribution.t) (chamber : Z) :
  well_formed p ->
  exists p' r,
    Flocculation.process_chamber solver self w p chamber = Ok (p', r) /\
    well_formed p' /\
    ParticleDistribution.sizes p' = ParticleDistribution.sizes p /\
    (Forall (fun c => 0 <= c) (ParticleDistribution.concentrations p) ->
     Forall (fun c => 0 <= c) (ParticleDistribution.concentrations p')) /\
    Flocculation.chamber r = (chamber + 1)%Z /\
    Flocculation.time r = Flocculation.linspace100 (Flocculation.chamber_time self) /\
    Flocculation.distribution r <> [] /\
    length (Flocculation.mean_size r) = length (Flocculation.distribution r) /\
    ParticleDistribution.concentrations p'
      = last (Flocculation.distribution r) [].
Proof.
  intros Hwf. unfold Flocculation.process_chamber. cbv zeta.
  destruct (Hsolver
              (fun t n => Flocculation.population_balance t n
                            (ParticleDistribution.sizes p)
                            (Flocculation.G_avg self) w)
              (0, Flocculation.chamber_time self)
              (ParticleDistribution.concentrations p)
              (Flocculation.linspace100 (Flocculation.chamber_time self)))
    as [sol [Hsol [Hy Hcols]]].
  rewrite Hsol. cbn [bind].
  destruct (Flocculation.ode_y sol) as [| c cs] eqn:E; [contradiction Hy; reflexivity |].
  cbn [Flocculation.last_column bind].
  eexists. eexists. split; [reflexivity |].
  cbn [ParticleDistribution.sizes ParticleDistribution.concentrations
       Flocculation.chamber Flocculation.time Flocculation.distribution
       Flocculation.mean_size].
  pose proof (proj1 (Forall_forall _ (c :: cs)) Hcols (last cs c)
                (last_in (list R) cs c)) as [Hl Hn].
  split; [unfold well_formed in *; simpl; congruence |].
  split; [reflexivity |]. split; [exact Hn |].
  split; [reflexivity |]. split; [reflexivity |].
  split; [discriminate |]. split; [apply length_map |].
  apply last_of_cons.
Qed.

Lemma chambers_run (self : Flocculation.t) (w : WaterProperties.t)
    (k : nat) (chamber : Z) (p : ParticleDistribution.t)
    (results : list Flocculation.ChamberResult) :
  well_formed p ->
  exists p' new,
    Flocculation.process_loop solver self w k chamber p results
      = Ok (p', results ++ new) /\
    well_formed p' /\
    ParticleDistribution.sizes p' = ParticleDistribution.sizes p /\
    (Forall (fun c => 0 <= c) (ParticleDistribution.concentrations p) ->
     Forall (fun c => 0 <= c) (ParticleDistribution.concentrations p')) /\
    map Flocculation.chamber new
      = map (fun j => (chamber + Z.of_nat j + 1)%Z) (seq 0 k) /\
    Forall (fun r =>
              Flocculation.time r
                = Flocculation.linspace100 (Flocculation.chamber_time self) /\
              Flocculation.distribution r <> [] /\
              length (Flocculation.mean_size r) = length (Flocculation.distribution r))
           new.
Proof.
  revert chamber p results. induction k as [| k IH]; intros chamber p results Hwf.
  - exists p, []. simpl. rewrite app_nil_r.
    split; [reflexivity |]. split; [exact Hwf |]. split; [reflexivity |].
    split; [intros H; exact H |]. split; [reflexivity | apply Forall_nil].
  - destruct (chamber_runs self w p chamber Hwf)
      as [p1 [r [Hc [Hwf1 [Hs1 [Hn1 [Hch [Ht [Hd [Hm _]]]]]]]]]].
    destruct (IH (chamber + 1)%Z p1 (results ++ [r]) Hwf1)
      as [p' [new [Hl [Hwf' [Hs' [Hn' [Hnum Hall]]]]]]].
    exists p', (r :: new).
    cbn [Flocculation.process_loop]. rewrite Hc. cbn [bind].
    rewrite Hl. rewrite <- app_assoc.
    split; [reflexivity |]. split; [exact Hwf' |]. split; [congruence |].
    split; [intros H; apply Hn'; apply Hn1; exact H |].
    split.
    + change (seq 0 (S k)) with (0%nat :: seq 1 k). cbn [map].
      rewrite Hch. f_equal; [f_equal; lia |].
      rewrite Hnum. rewrite <- seq_shift. rewrite map_map.
      apply map_ext. intros j. lia.
    + apply Forall_cons; [exact (conj Ht (conj Hd Hm)) | exact Hall].
Qed.

End Chambers.

(** X21.  Behind an integrator that returns at least one column of the
    state's length (without a negative entry when the state it was started
    from has none), [process] numbers its results 1, 2, ... up to the
    chamber count; every result carries the same grid of 100 times from 0
    to the chamber time and one mean size per column.  A chamber count of
    zero or below runs no chamber: the distribution comes back as it went
    in, with an empty list of results. *)
Theorem flocculation_chambers_numbered
    (solver : (R -> list R -> result (list R)) -> R * R -> list R -> list R
              -> result Flocculation.OdeResult)
    (self : Flocculation.t) (w : WaterProperties.t) (p : ParticleDistribution.t) :
  well_behaved solver -> well_formed p ->
  exists p' results,
    Flocculation.process solver self w p = Ok (p', results) /\
    map Flocculation.chamber results
      = map (fun j => (Z.of_nat j + 1)%Z)
            (seq 0 (Z.to_nat (Flocculation.chambers self))) /\
    Forall (fun r =>
              Flocculation.time r
                = Flocculation.linspace100 (Flocculation.chamber_time self) /\
              length (Flocculation.time r) = 100%nat /\
              nth 0 (Flocculation.time r) 0 = 0 /\
              nth 99 (Flocculation.time r) 0 = Flocculation.chamber_time self /\
              length (Flocculation.mean_size r) = length (Flocculation.distribution r))
           results /\
    ((Flocculation.chambers self <= 0)%Z -> p' = p /\ results = []).
Proof.
  intros Hsolver Hwf. unfold Flocculation.process.
  destruct (chambers_run solver Hsolver self w
              (Z.to_nat (Flocculation.chambers self)) 0 p [] Hwf)
    as [p' [new [Hl [_ [_ [_ [Hnum Hall]]]]]]].
  exists p', new. split; [exact Hl |]. split; [exact Hnum |]. split.
  - apply Forall_impl with (2 := Hall). intros r [Ht [_ Hm]].
    destruct (linspace100_grid (Flocculation.chamber_time self)) as [G1 [G2 G3]].
    rewrite Ht. repeat split; assumption.
  - intros Hle.
    replace (Z.to_nat (Flocculation.chambers self)) with 0%nat in Hl by lia.
    simpl in Hl. injection Hl as E1 E2. split; [symmetry; exact E1 | symmetry; exact E2].
Qed.

Lemma stalled_solver_well_behaved : well_behaved stalled_solver.
Proof.
  intros rhs t_span y0 t_eval. eexists.
  split; [reflexivity |]. split; [discriminate |].
  simpl. apply Forall_cons; [| apply Forall_nil].
  split; [reflexivity | intros H; exact H].
Qed.

Lemma flocculation_chambers_numbered_witness :
  (well_behaved stalled_solver /\ well_formed (two_bins 30 20)) /\
  exists p' results,
    Flocculation.process stalled_solver default_flocculation baseline_water
      (two_bins 30 20) = Ok (p', results) /\
    map Flocculation.chamber results = [1%Z; 2%Z; 3%Z].
Proof.
  assert (Hwf : well_formed (two_bins 30 20)) by reflexivity.
  split; [exact (conj stalled_solver_well_behaved Hwf) |].
  destruct (flocculation_chambers_numbered stalled_solver default_flocculation
              baseline_water (two_bins 30 20) stalled_solver_well_behaved Hwf)
    as [p' [results [E [Hnum _]]]].
  exists p', results. exact (conj E Hnum).
Defined.

(** ** The whole train *)

Section Train.

Variable has_pyeql : bool.
Variable solver :
  (R -> list R -> result (list R)) -> R * R -> list R -> list R
  -> result Flocculation.OdeResult.
Hypothesis Hsolver : well_behaved solver.

Lemma increasing_scaled (k : R) (x : list R) :
  0 <= k -> increasing x -> increasing (map (fun s => s * k) x).
Proof.
  intros Hk. induction x as [| x0 x IH]; [intros _; exact I |].
  destruct x as [| x1 x]; [intros _; exact I |].
  intros [H01 H].
  change (map (fun s => s * k) (x0 :: x1 :: x))
    with (x0 * k :: map (fun s => s * k) (x1 :: x)).
  change (map (fun s => s * k) (x1 :: x)) with (x1 * k :: map (fun s => s * k) x) in *.
  split; [nra | apply IH; exact H].
Qed.

Lemma operable_after_run (sim : WaterTreatmentSimulation.t) (dose : R) :
  operable sim -> operable (WaterTreatmentSimulation.after_run has_pyeql sim dose).
Proof.
  unfold operable, WaterTreatmentSimulation.after_run.
  cbn [WaterTreatmentSimulation.water_props WaterTreatmentSimulation.particles
       WaterTreatmentSimulation.sedimentation].
  destruct (physics_after_dose has_pyeql (WaterTreatmentSimulation.water_props sim) dose
              (RapidMixing.volume (WaterTreatmentSimulation.rapid_mix sim)))
    as [Ev [Ed _]].
  rewrite Ev, Ed. intros H; exact H.
Qed.

(** What [run_simulation] returns on an operable plant, stage by stage. *)
Lemma train_runs (sim : WaterTreatmentSimulation.t) (dose : R) :
  operable sim -> 0 <= dose ->
  let w' := fst (WaterProperties.add_coagulant has_pyeql
                   (WaterTreatmentSimulation.water_props sim) dose
                   (RapidMixing.volume (WaterTreatmentSimulation.rapid_mix sim))) in
  exists p_floc floc_results report,
    WaterTreatmentSimulation.run_simulation has_pyeql solver sim dose
    = Ok (WaterTreatmentSimulation.mkResults
            (WaterTreatmentSimulation.mkStage (WaterProperties.pH w')
               (WaterProperties.alkalinity w')
               (ParticleDistribution.mean_size (WaterTreatmentSimulation.particles sim)))
            (WaterProperties.turbidity w')
            (WaterTreatmentSimulation.mkStage (WaterProperties.pH w')
               (WaterProperties.alkalinity w')
               (ParticleDistribution.mean_size p_floc))
            floc_results report (Sedimentation.removal_efficiency report)) /\
    length floc_results
      = Z.to_nat (Flocculation.chambers (WaterTreatmentSimulation.flocculation sim)) /\
    0 <= Sedimentation.effluent_concentration report /\
    (Sedimentation.removal_efficiency report = NaN \/
     exists e, Sedimentation.removal_efficiency report = Finite e /\ 0 <= e <= 100).
Proof.
  intros [Hmu [[Hrho0 Hrho1] [Hwf [Hpos [Hinc [Hconc [Hmass [Hh Hres]]]]]]]] Hd w'.
  pose proof (scale_factor_bounds dose Hd) as Hscale.
  unfold WaterTreatmentSimulation.run_simulation.
  rewrite process_ok; [| lra | exact Hmass]. cbn [bind]. fold w'.
  set (scale := 1 + 0.1 * Rmin 1.0 (dose / 0.05)) in *.
  set (p := WaterTreatmentSimulation.particles sim) in *.
  set (mass := trapz (ParticleDistribution.concentrations p)
                     (ParticleDistribution.sizes p)) in *.
  set (p_mix := ParticleDistribution.mk
                  (map (fun s => s * scale) (ParticleDistribution.sizes p))
                  (map (fun c => c * mass / (scale * mass))
                       (ParticleDistribution.concentrations p))).
  assert (Hwf_mix : well_formed p_mix).
  { unfold well_formed, p_mix. simpl. rewrite !length_map. exact Hwf. }
  assert (Hpos_mix : Forall (fun s => 0 < s) (ParticleDistribution.sizes p_mix)).
  { unfold p_mix. simpl. apply Forall_forall. intros y Hin.
    apply in_map_iff in Hin. destruct Hin as [s [<- Hin]].
    pose proof (proj1 (Forall_forall _ _) Hpos s Hin). simpl in *. nra. }
  assert (Hinc_mix : increasing (ParticleDistribution.sizes p_mix)).
  { unfold p_mix. simpl. apply increasing_scaled; [lra | exact Hinc]. }
  assert (Hconc_mix : Forall (fun c => 0 <= c) (ParticleDistribution.concentrations p_mix)).
  { unfold p_mix. simpl. apply Forall_forall. intros y Hin.
    apply in_map_iff in Hin. destruct Hin as [c [<- Hin]].
    pose proof (proj1 (Forall_forall _ _) Hconc c Hin) as Hc. simpl in Hc.
    replace (c * mass / (scale * mass)) with (c * / scale) by (field; split; lra).
    apply Rmult_le_pos; [exact Hc |]. apply Rlt_le. apply Rinv_0_lt_compat. lra. }
  destruct (chambers_run solver Hsolver (WaterTreatmentSimulation.flocculation sim) w'
              (Z.to_nat (Flocculation.chambers (WaterTreatmentSimulation.flocculation sim)))
              0 p_mix [] Hwf_mix)
    as [p_floc [floc_results [Hfloc [Hwf_floc [Hs_floc [Hn_floc [Hnum _]]]]]]].
  unfold Flocculation.process. rewrite Hfloc. cbn [bind app].
  destruct (physics_after_dose has_pyeql (WaterTreatmentSimulation.water_props sim) dose
              (RapidMixing.volume (WaterTreatmentSimulation.rapid_mix sim)))
    as [Ev [Ed _]].
  fold w' in Ev, Ed.
  assert (Hmu' : 0 < WaterProperties.viscosity w') by (rewrite Ev; exact Hmu).
  assert (Hrho' : 0 < WaterProperties.density w') by (rewrite Ed; exact Hrho0).
  assert (Hfd' : WaterProperties.density w' < 1200) by (rewrite Ed; exact Hrho1).
  assert (Hpos_floc : Forall (fun s => 0 < s) (ParticleDistribution.sizes p_floc))
    by (rewrite Hs_floc; exact Hpos_mix).
  assert (Hinc_floc : increasing (ParticleDistribution.sizes p_floc))
    by (rewrite Hs_floc; exact Hinc_mix).
  pose proof (Hn_floc Hconc_mix) as Hconc_floc.
  destruct (process_returns (WaterTreatmentSimulation.sedimentation sim) w' 1200 p_floc
              Hmu' Hrho' Hfd' Hh Hres Hwf_floc Hpos_floc Hinc_floc Hconc_floc)
    as [report [Hrun [[He0 _] _]]].
  rewrite Hrun. cbn [bind].
  exists p_floc, floc_results, report.
  split; [reflexivity |].
  split; [apply (f_equal (@length _)) in Hnum; rewrite !length_map, length_seq in Hnum;
          exact Hnum |].
  split; [exact He0 |].
  destruct (Req_dec_T (trapz (ParticleDistribution.concentrations p_floc)
                             (ParticleDistribution.sizes p_floc)) 0) as [Ez | Hnz].
  - left.
    destruct (zero_mass_gives_nan (WaterTreatmentSimulation.sedimentation sim) w' 1200
                p_floc Hmu' Hrho' Hfd' Hh Hres Hwf_floc Hpos_floc Hinc_floc Hconc_floc Ez)
      as [report' [Hrun' [_ Hnan]]].
    rewrite Hrun in Hrun'. injection Hrun' as <-. exact Hnan.
  - right.
    destruct (removal_efficiency_bounds (WaterTreatmentSimulation.sedimentation sim) w'
                1200 p_floc Hmu' Hrho' Hfd' Hh Hres Hwf_floc Hpos_floc Hinc_floc
                Hconc_floc Hnz)
      as [report' [e [Hrun' [He Hb]]]].
    rewrite Hrun in Hrun'. injection Hrun' as <-.
    exists e. exact (conj He Hb).
Qed.

End Train.

Lemma two_bin_plant_operable : operable two_bin_plant.
Proof.
  unfold operable, two_bin_plant. simpl.
  split; [lra |]. split; [lra |]. split; [reflexivity |].
  split; [apply Forall_cons; [lra | apply Forall_cons; [lra | apply Forall_nil]] |].
  split; [split; [lra | exact I] |].
  split; [apply Forall_cons; [lra | apply Forall_cons; [lra | apply Forall_nil]] |].
  split; [lra |]. split; lra.
Qed.

(** X22.  On an operable plant, for every dose [>= 0] and behind an
    integrator that returns non-negative columns of the state's length,
    [run_simulation] returns.  The pH and alkalinity it reports as
    ['initial'] are those after dosing, the same as under
    ['after_coagulation'], because both are read from the one water object
    that dosing updated: for a dose above zero on water with alkalinity the
    reported initial alkalinity is below the alkalinity the plant was set
    up with.  There is one flocculation result per chamber, the final
    efficiency is the sedimentation stage's, and it is either [nan] or a
    percentage between 0 and 100. *)
Theorem run_simulation_report (has_pyeql : bool)
    (solver : (R -> list R -> result (list R)) -> R * R -> list R -> list R
              -> result Flocculation.OdeResult)
    (sim : WaterTreatmentSimulation.t) (dose : R) :
  well_behaved solver -> operable sim -> 0 <= dose ->
  let w' := fst (WaterProperties.add_coagulant has_pyeql
                   (WaterTreatmentSimulation.water_props sim) dose
                   (RapidMixing.volume (WaterTreatmentSimulation.rapid_mix sim))) in
  exists results,
    WaterTreatmentSimulation.run_simulation has_pyeql solver sim dose = Ok results /\
    WaterTreatmentSimulation.initial results
      = WaterTreatmentSimulation.mkStage (WaterProperties.pH w')
          (WaterProperties.alkalinity w')
          (ParticleDistribution.mean_size (WaterTreatmentSimulation.particles sim)) /\
    WaterTreatmentSimulation.stage_pH (WaterTreatmentSimulation.after_coagulation results)
      = WaterTreatmentSimulation.stage_pH (WaterTreatmentSimulation.initial results) /\
    WaterTreatmentSimulation.stage_alkalinity
        (WaterTreatmentSimulation.after_coagulation results)
      = WaterTreatmentSimulation.stage_alkalinity
          (WaterTreatmentSimulation.initial results) /\
    WaterTreatmentSimulation.initial_turbidity results
      = WaterProperties.turbidity (WaterTreatmentSimulation.water_props sim) /\
    (0 < dose ->
     0 < WaterProperties.alkalinity (WaterTreatmentSimulation.water_props sim) ->
     WaterTreatmentSimulation.stage_alkalinity (WaterTreatmentSimulation.initial results)
       < WaterProperties.alkalinity (WaterTreatmentSimulation.water_props sim)) /\
    length (WaterTreatmentSimulation.flocculation_results results)
      = Z.to_nat (Flocculation.chambers (WaterTreatmentSimulation.flocculation sim)) /\
    WaterTreatmentSimulation.final_efficiency results
      = Sedimentation.removal_efficiency
          (WaterTreatmentSimulation.sedimentation_results results) /\
    (WaterTreatmentSimulation.final_efficiency results = NaN \/
     exists e, WaterTreatmentSimulation.final_efficiency results = Finite e /\
               0 <= e <= 100).
Proof.
  intros Hsolver Hop Hd w'.
  destruct (train_runs has_pyeql solver Hsolver sim dose Hop Hd)
    as [p_floc [floc_results [report [Hrun [Hlen [_ Heff]]]]]].
  fold w' in Hrun.
  eexists. split; [exact Hrun |].
  cbn [WaterTreatmentSimulation.initial WaterTreatmentSimulation.after_coagulation
       WaterTreatmentSimulation.stage_pH WaterTreatmentSimulation.stage_alkalinity
       WaterTreatmentSimulation.initial_turbidity
       WaterTreatmentSimulation.flocculation_results
       WaterTreatmentSimulation.sedimentation_results
       WaterTreatmentSimulation.final_efficiency].
  split; [reflexivity |]. split; [reflexivity |]. split; [reflexivity |].
  split; [unfold w'; apply physics_after_dose |].
  split.
  - intros Hpos Halk. unfold w'. rewrite alkalinity_after_dose.
    apply Rmax_lub_lt; lra.
  - split; [exact Hlen |]. split; [reflexivity | exact Heff].
Qed.

Lemma run_simulation_report_witness :
  (well_behaved stalled_solver /\ operable two_bin_plant /\ 0 <= 0.02) /\
  exists results,
    WaterTreatmentSimulation.run_simulation false stalled_solver two_bin_plant 0.02
      = Ok results /\
    WaterTreatmentSimulation.stage_alkalinity
        (WaterTreatmentSimulation.after_coagulation results)
      = WaterTreatmentSimulation.stage_alkalinity
          (WaterTreatmentSimulation.initial results).
Proof.
  assert (Hd : 0 <= 0.02) by lra.
  split; [exact (conj stalled_solver_well_behaved (conj two_bin_plant_operable Hd)) |].
  destruct (run_simulation_report false stalled_solver two_bin_plant 0.02
              stalled_solver_well_behaved two_bin_plant_operable Hd)
    as [results [E [_ [_ [Ha _]]]]].
  exists results. exact (conj E Ha).
Defined.

(** X23.  [run_simulation] leaves the dosed water in the object, so a
    second run starts from it: on an operable plant whose water has a pH
    of at most 9, behind an integrator that returns non-negative columns
    of the state's length, a run with dose [d1] followed by a run with dose [d2]
    (both [>= 0]) returns, and reports the pH and alkalinity that one run
    with the dose [d1 + d2] reports. *)
Theorem second_run_accumulates_dose (has_pyeql : bool)
    (solver : (R -> list R -> result (list R)) -> R * R -> list R -> list R
              -> result Flocculation.OdeResult)
    (sim : WaterTreatmentSimulation.t) (d1 d2 : R) :
  well_behaved solver -> operable sim -> 0 <= d1 -> 0 <= d2 ->
  WaterProperties.pH (WaterTreatmentSimulation.water_props sim) <= 9 ->
  exists second single,
    WaterTreatmentSimulation.run_simulation has_pyeql solver
      (WaterTreatmentSimulation.after_run has_pyeql sim d1) d2 = Ok second /\
    WaterTreatmentSimulation.run_simulation has_pyeql solver sim (d1 + d2) = Ok single /\
    WaterTreatmentSimulation.stage_pH (WaterTreatmentSimulation.after_coagulation second)
      = WaterTreatmentSimulation.stage_pH
          (WaterTreatmentSimulation.after_coagulation single) /\
    WaterTreatmentSimulation.stage_alkalinity
        (WaterTreatmentSimulation.after_coagulation second)
      = WaterTreatmentSimulation.stage_alkalinity
          (WaterTreatmentSimulation.after_coagulation single).
Proof.
  intros Hsolver Hop H1 H2 HpH.
  assert (H12 : 0 <= d1 + d2) by lra.
  destruct (train_runs has_pyeql solver Hsolver
              (WaterTreatmentSimulation.after_run has_pyeql sim d1) d2
              (operable_after_run has_pyeql sim d1 Hop) H2)
    as [pf2 [fr2 [rep2 [Hrun2 _]]]].
  destruct (train_runs has_pyeql solver Hsolver sim (d1 + d2) Hop H12)
    as [pf1 [fr1 [rep1 [Hrun1 _]]]].
  eexists. eexists. split; [exact Hrun2 |]. split; [exact Hrun1 |].
  cbn [WaterTreatmentSimulation.after_coagulation WaterTreatmentSimulation.stage_pH
       WaterTreatmentSimulation.stage_alkalinity].
  unfold WaterTreatmentSimulation.after_run.
  cbn [WaterTreatmentSimulation.water_props WaterTreatmentSimulation.rapid_mix].
  rewrite (doses_add_up has_pyeql (WaterTreatmentSimulation.water_props sim) d1 d2
             (RapidMixing.volume (WaterTreatmentSimulation.rapid_mix sim))
             (RapidMixing.volume (WaterTreatmentSimulation.rapid_mix sim))
             (RapidMixing.volume (WaterTreatmentSimulation.rapid_mix sim)) H1 H2 HpH).
  split; reflexivity.
Qed.

Lemma second_run_accumulates_dose_witness :
  (well_behaved stalled_solver /\ operable two_bin_plant /\ 0 <= 0.02 /\ 0 <= 0.03 /\
   WaterProperties.pH (WaterTreatmentSimulation.water_props two_bin_plant) <= 9) /\
  exists second single,
    WaterTreatmentSimulation.run_simulation false stalled_solver
      (WaterTreatmentSimulation.after_run false two_bin_plant 0.02) 0.03 = Ok second /\
    WaterTreatmentSimulation.run_simulation false stalled_solver two_bin_plant
      (0.02 + 0.03) = Ok single /\
    WaterTreatmentSimulation.stage_alkalinity
        (WaterTreatmentSimulation.after_coagulation second)
      = WaterTreatmentSimulation.stage_alkalinity
          (WaterTreatmentSimulation.after_coagulation single).
Proof.
  assert (H1 : 0 <= 0.02) by lra.
  assert (H2 : 0 <= 0.03) by lra.
  assert (HpH : WaterProperties.pH (WaterTreatmentSimulation.water_props two_bin_plant)
                <= 9) by (simpl; lra).
  split; [exact (conj stalled_solver_well_behaved
                   (conj two_bin_plant_operable (conj H1 (conj H2 HpH)))) |].
  destruct (second_run_accumulates_dose false stalled_solver two_bin_plant 0.02 0.03
              stalled_solver_well_behaved two_bin_plant_operable H1 H2 HpH)
    as [second [single [E2 [E1 [_ Ha]]]]].
  exists second, single. exact (conj E2 (conj E1 Ha)).
Defined.

(** ** The pilot plant *)

Section Pilot.

Variable has_pyeql : bool.
Variable solver :
  (R -> list R -> result (list R)) -> R * R -> list R -> list R
  -> result Flocculation.OdeResult.
Hypothesis Hsolver : well_behaved solver.

Lemma linspace_nonneg (start stop : R) (num : nat) :
  0 <= start -> 0 <= stop -> Forall (fun d => 0 <= d) (linspace start stop num).
Proof.
  intros H0 H1. unfold linspace.
  destruct num as [| [| m]].
  - apply Forall_nil.
  - apply Forall_cons; [exact H0 | apply Forall_nil].
  - apply Forall_forall. intros d Hin.
    apply in_map_iff in Hin. destruct Hin as [k [<- Hk]].
    apply in_seq in Hk.
    replace (S (S m) - 1)%nat with (S m) by lia.
    assert (Hden : 0 < INR (S m)) by (apply lt_0_INR; lia).
    assert (Hk0 : 0 <= INR k) by apply pos_INR.
    assert (Hk1 : INR k <= INR (S m)) by (apply le_INR; lia).
    generalize dependent (INR (S m)). intros N Hden Hk1.
    generalize dependent (INR k). intros K Hk0 Hk1.
    set (q := K / N).
    assert (Hq : 0 <= q <= 1).
    { unfold q. split.
      - apply Rmult_le_pos; [exact Hk0 |]. apply Rlt_le. apply Rinv_0_lt_compat. exact Hden.
      - apply Rmult_le_reg_r with N; [exact Hden |].
        unfold Rdiv. rewrite Rmult_assoc. rewrite Rinv_l by lra. lra. }
    assert (E : K * ((stop - start) / N) + start = q * stop + (1 - q) * start).
    { unfold q. field. lra. }
    rewrite E. nra.
Qed.

Lemma linspace_length (start stop : R) (num : nat) :
  length (linspace start stop num) = num.
Proof.
  unfold linspace. destruct num as [| [| m]]; [reflexivity | reflexivity |].
  rewrite length_map. apply length_seq.
Qed.

Lemma experiment_runs (self : PilotPlantSimulation.t) (dose : R) :
  operable (PilotPlantSimulation.sim self) -> 0 <= dose ->
  let w' := fst (WaterProperties.add_coagulant has_pyeql
                   (WaterTreatmentSimulation.water_props (PilotPlantSimulation.sim self))
                   dose
                   (RapidMixing.volume
                      (WaterTreatmentSimulation.rapid_mix (PilotPlantSimulation.sim self)))) in
  exists results,
    PilotPlantSimulation.run_pilot_experiment has_pyeql solver self (Some dose)
      = Ok (results, PilotPlantSimulation._calculate_pilot_performance self results) /\
    WaterTreatmentSimulation.run_simulation has_pyeql solver
      (PilotPlantSimulation.sim self) dose = Ok results /\
    WaterTreatmentSimulation.stage_alkalinity
        (WaterTreatmentSimulation.after_coagulation results)
      = WaterProperties.alkalinity w' /\
    WaterTreatmentSimulation.initial_turbidity results
      = WaterProperties.turbidity
          (WaterTreatmentSimulation.water_props (PilotPlantSimulation.sim self)) /\
    WaterTreatmentSimulation.final_efficiency results
      = Sedimentation.removal_efficiency
          (WaterTreatmentSimulation.sedimentation_results results) /\
    (WaterTreatmentSimulation.final_efficiency results = NaN \/
     exists e, WaterTreatmentSimulation.final_efficiency results = Finite e /\
               0 <= e <= 100).
Proof.
  intros Hop Hd w'.
  destruct (train_runs has_pyeql solver Hsolver (PilotPlantSimulation.sim self) dose
              Hop Hd)
    as [p_floc [floc_results [report [Hrun [_ [_ Heff]]]]]].
  fold w' in Hrun.
  eexists. unfold PilotPlantSimulation.run_pilot_experiment.
  rewrite Hrun. cbn [bind].
  split; [reflexivity |]. split; [reflexivity |].
  cbn [WaterTreatmentSimulation.after_coagulation
       WaterTreatmentSimulation.stage_alkalinity
       WaterTreatmentSimulation.initial_turbidity
       WaterTreatmentSimulation.sedimentation_results
       WaterTreatmentSimulation.final_efficiency].
  split; [reflexivity |].
  split; [unfold w'; apply physics_after_dose |].
  split; [reflexivity | exact Heff].
Qed.

Lemma trials_run (a0 : R) (doses : list R) :
  Forall (fun d => 0 <= d) doses ->
  forall (self : PilotPlantSimulation.t) (acc : R)
         (rows : list PilotPlantSimulation.Row),
  operable (PilotPlantSimulation.sim self) ->
  0 <= acc ->
  WaterProperties.alkalinity
    (WaterTreatmentSimulation.water_props (PilotPlantSimulation.sim self))
  = Rmax 0 (a0 - acc / 342.15 * 6 * 100.09 * 1000) ->
  exists new,
    PilotPlantSimulation.dose_trials has_pyeql solver self doses rows
      = Ok (rows ++ new) /\
    map PilotPlantSimulation.dose_g_L new = doses /\
    map PilotPlantSimulation.final_alkalinity new
      = map (fun total => Rmax 0 (a0 - total / 342.15 * 6 * 100.09 * 1000))
            (running_totals acc doses) /\
    Forall (fun row =>
              PilotPlantSimulation.coagulant_consumption_g_day row
              = PilotPlantSimulation.coagulant_dose self
                * pilot_plant_config.flow_rate_m3h * 24)
           new.
Proof.
  intros Hdoses. induction Hdoses as [| d ds Hd Hds IH]; intros self acc rows Hop Hacc Halk.
  - exists []. simpl. rewrite app_nil_r.
    split; [reflexivity |]. split; [reflexivity |]. split; [reflexivity | apply Forall_nil].
  - destruct (experiment_runs self d Hop Hd) as [results [Hrun [_ [Ha _]]]].
    cbn [PilotPlantSimulation.dose_trials]. rewrite Hrun. cbn [bind].
    set (self' := PilotPlantSimulation.mk
                    (WaterTreatmentSimulation.after_run has_pyeql
                       (PilotPlantSimulation.sim self) d)
                    (PilotPlantSimulation.coagulant_dose self)).
    assert (Hstep : WaterProperties.alkalinity
                      (fst (WaterProperties.add_coagulant has_pyeql
                              (WaterTreatmentSimulation.water_props
                                 (PilotPlantSimulation.sim self)) d
                              (RapidMixing.volume
                                 (WaterTreatmentSimulation.rapid_mix
                                    (PilotPlantSimulation.sim self)))))
                    = Rmax 0 (a0 - (acc + d) / 342.15 * 6 * 100.09 * 1000)).
    { rewrite alkalinity_after_dose. rewrite Halk.
      rewrite Rmax_floor_twice by lra. f_equal. lra. }
    destruct (IH self' (acc + d)
                (rows ++ [PilotPlantSimulation.mkRow d
                            (WaterTreatmentSimulation.final_efficiency results)
                            (Sedimentation.effluent_concentration
                               (WaterTreatmentSimulation.sedimentation_results results))
                            (WaterTreatmentSimulation.stage_pH
                               (WaterTreatmentSimulation.after_coagulation results))
                            (WaterTreatmentSimulation.stage_alkalinity
                               (WaterTreatmentSimulation.after_coagulation results))
                            (PilotPlantSimulation.coagulant_g_per_day
                               (PilotPlantSimulation._calculate_pilot_performance
                                  self results))]))
      as [new [Hl [Hdose [Hcol Hcons]]]].
    + unfold self'. cbn [PilotPlantSimulation.sim].
      apply operable_after_run. exact Hop.
    + lra.
    + unfold self'. cbn [PilotPlantSimulation.sim].
      unfold WaterTreatmentSimulation.after_run.
      cbn [WaterTreatmentSimulation.water_props]. exact Hstep.
    + eexists. rewrite Hl. rewrite <- app_assoc. cbn [app].
      split; [reflexivity |].
      cbn [map running_totals PilotPlantSimulation.dose_g_L
           PilotPlantSimulation.final_alkalinity].
      split; [rewrite Hdose; reflexivity |].
      split; [rewrite Hcol, Ha, Hstep; reflexivity |].
      apply Forall_cons; [reflexivity | exact Hcons].
Qed.

End Pilot.

Lemma two_bin_pilot_operable : operable (PilotPlantSimulation.sim two_bin_pilot).
Proof. exact two_bin_plant_operable. Qed.

(** X24.  The trials of [dose_response_curve] are not independent: each
    runs on the water the trials before it have dosed.  On an operable
    pilot plant whose water has an alkalinity that is not negative, behind
    an integrator that returns non-negative columns of the state's length,
    for a dose range that is not negative, the curve returns one row per point,
    the doses being [np.linspace] over the range; the alkalinity in row [k]
    is [max(0, alkalinity - consumed)] for the sum of the doses of rows 0
    to [k], not for the dose of row [k] alone; and the coagulant
    consumption is the same in every row, computed from the dose the plant
    was set up with. *)
Theorem dose_response_curve_accumulates (has_pyeql : bool)
    (solver : (R -> list R -> result (list R)) -> R * R -> list R -> list R
              -> result Flocculation.OdeResult)
    (self : PilotPlantSimulation.t) (dose_range : option (R * R)) (n_points : nat) :
  well_behaved solver ->
  operable (PilotPlantSimulation.sim self) ->
  0 <= WaterProperties.alkalinity
         (WaterTreatmentSimulation.water_props (PilotPlantSimulation.sim self)) ->
  let range := match dose_range with Some r => r | None => (0.005, 0.060) end in
  0 <= fst range -> 0 <= snd range ->
  exists rows,
    PilotPlantSimulation.dose_response_curve has_pyeql solver self dose_range n_points
      = Ok rows /\
    length rows = n_points /\
    map PilotPlantSimulation.dose_g_L rows = linspace (fst range) (snd range) n_points /\
    map PilotPlantSimulation.final_alkalinity rows
      = map (fun total =>
               Rmax 0 (WaterProperties.alkalinity
                         (WaterTreatmentSimulation.water_props
                            (PilotPlantSimulation.sim self))
                       - total / 342.15 * 6 * 100.09 * 1000))
            (running_totals 0 (linspace (fst range) (snd range) n_points)) /\
    Forall (fun row =>
              PilotPlantSimulation.coagulant_consumption_g_day row
              = PilotPlantSimulation.coagulant_dose self * 1.62 * 24)
           rows.
Proof.
  intros Hsolver Hop Halk range Hlo Hhi.
  unfold PilotPlantSimulation.dose_response_curve. cbv zeta.
  assert (Hrange : match dose_range with Some r => r | None => (0.005, 0.060) end = range)
    by reflexivity.
  replace (match dose_range with Some r => r | None => (0.005, 0.060) end) with range
    by (destruct dose_range; reflexivity).
  destruct (trials_run has_pyeql solver Hsolver
              (WaterProperties.alkalinity
                 (WaterTreatmentSimulation.water_props (PilotPlantSimulation.sim self)))
              (linspace (fst range) (snd range) n_points)
              (linspace_nonneg (fst range) (snd range) n_points Hlo Hhi)
              self 0 [] Hop (Rle_refl 0))
    as [rows [Hrun [Hdose [Hcol Hcons]]]].
  - replace (0 / 342.15 * 6 * 100.09 * 1000) with 0 by lra.
    rewrite Rminus_0_r. rewrite Rmax_right by exact Halk. reflexivity.
  - exists rows. split; [exact Hrun |].
    split; [rewrite <- (length_map PilotPlantSimulation.dose_g_L), Hdose;
            apply linspace_length |].
    split; [exact Hdose |]. split; [exact Hcol | exact Hcons].
Qed.

Lemma dose_response_curve_accumulates_witness :
  (well_behaved stalled_solver /\
   operable (PilotPlantSimulation.sim two_bin_pilot) /\
   0 <= WaterProperties.alkalinity
          (WaterTreatmentSimulation.water_props (PilotPlantSimulation.sim two_bin_pilot)) /\
   0 <= fst (0.005, 0.060) /\ 0 <= snd (0.005, 0.060)) /\
  exists rows,
    PilotPlantSimulation.dose_response_curve false stalled_solver two_bin_pilot None 8
      = Ok rows /\
    length rows = 8%nat.
Proof.
  assert (Halk : 0 <= WaterProperties.alkalinity
                        (WaterTreatmentSimulation.water_props
                           (PilotPlantSimulation.sim two_bin_pilot)))
    by (simpl; lra).
  assert (Hlo : 0 <= fst (0.005, 0.060)) by (simpl; lra).
  assert (Hhi : 0 <= snd (0.005, 0.060)) by (simpl; lra).
  split; [exact (conj stalled_solver_well_behaved
                   (conj two_bin_pilot_operable (conj Halk (conj Hlo Hhi)))) |].
  destruct (dose_response_curve_accumulates false stalled_solver two_bin_pilot None 8
              stalled_solver_well_behaved two_bin_pilot_operable Halk Hlo Hhi)
    as [rows [E [Hlen _]]].
  exists rows. exact (conj E Hlen).
Defined.

(** X25.  On an operable pilot plant, behind an integrator that returns
    non-negative columns of the state's length, [run_pilot_experiment]
    returns for every dose [>= 0], and the performance figures it adds are these: the
    coagulant consumption is the dose the plant was set up with times
    1.62 * 24, whatever dose the experiment was run with; rapid mixing is
    credited with 0 and flocculation with 5 percentage points, and
    sedimentation with the total minus 5, which is negative when the total
    is below 5; the sludge is the water's turbidity attribute minus the
    effluent concentration, times 1.62 * 24 / 1000; the theoretical
    retention time is 300000 s and the hydraulic efficiency 83.3 / 300000
    for every run. *)
Theorem pilot_performance_figures (has_pyeql : bool)
    (solver : (R -> list R -> result (list R)) -> R * R -> list R -> list R
              -> result Flocculation.OdeResult)
    (self : PilotPlantSimulation.t) (dose : R) :
  well_behaved solver -> operable (PilotPlantSimulation.sim self) -> 0 <= dose ->
  exists results performance,
    PilotPlantSimulation.run_pilot_experiment has_pyeql solver self (Some dose)
      = Ok (results, performance) /\
    WaterTreatmentSimulation.run_simulation has_pyeql solver
      (PilotPlantSimulation.sim self) dose = Ok results /\
    PilotPlantSimulation.coagulant_g_per_day performance
      = PilotPlantSimulation.coagulant_dose self * 1.62 * 24 /\
    PilotPlantSimulation.coagulant_g_per_m3 performance
      = PilotPlantSimulation.coagulant_dose self /\
    PilotPlantSimulation.efficiency_rapid_mix performance = 0 /\
    PilotPlantSimulation.efficiency_flocculation performance = 5 /\
    PilotPlantSimulation.efficiency_total performance
      = WaterTreatmentSimulation.final_efficiency results /\
    ((PilotPlantSimulation.efficiency_total performance = NaN /\
      PilotPlantSimulation.efficiency_sedimentation performance = NaN) \/
     exists e,
       PilotPlantSimulation.efficiency_total performance = Finite e /\
       0 <= e <= 100 /\
       PilotPlantSimulation.efficiency_sedimentation performance = Finite (e - 5)) /\
    PilotPlantSimulation.sludge_g_per_day performance
      = (WaterProperties.turbidity
           (WaterTreatmentSimulation.water_props (PilotPlantSimulation.sim self))
         - Sedimentation.effluent_concentration
             (WaterTreatmentSimulation.sedimentation_results results))
        * 1.62 * 24 / 1000 /\
    PilotPlantSimulation.theoretical_retention_s performance = 300000 /\
    PilotPlantSimulation.actual_retention_s performance = 83.3 /\
    PilotPlantSimulation.hydraulic_efficiency performance = 83.3 / 300000.
Proof.
  intros Hsolver Hop Hd.
  destruct (experiment_runs has_pyeql solver Hsolver self dose Hop Hd)
    as [results [Hrun [Hsim [_ [Hturb [_ Heff]]]]]].
  exists results. eexists. split; [exact Hrun |]. split; [exact Hsim |].
  unfold PilotPlantSimulation._calculate_pilot_performance. cbv zeta.
  cbn [PilotPlantSimulation.coagulant_g_per_day PilotPlantSimulation.coagulant_g_per_m3
       PilotPlantSimulation.efficiency_rapid_mix
       PilotPlantSimulation.efficiency_flocculation
       PilotPlantSimulation.efficiency_total
       PilotPlantSimulation.efficiency_sedimentation
       PilotPlantSimulation.sludge_g_per_day
       PilotPlantSimulation.theoretical_retention_s
       PilotPlantSimulation.actual_retention_s
       PilotPlantSimulation.hydraulic_efficiency].
  unfold pilot_plant_config.flow_rate_m3h, pilot_plant_config.rapid_mix_volume,
    pilot_plant_config.flocculation_volume, pilot_plant_config.sedimentation_volume,
    pilot_plant_config.flow_rate, pilot_plant_config.total_retention.
  assert (Hret : (0.0154 + 0.0154 + 0.0067) / (0.45 / 1000 / 3600) = 300000)
    by lra.
  rewrite Hret. rewrite Hturb.
  split; [reflexivity |]. split; [reflexivity |]. split; [reflexivity |].
  split; [reflexivity |]. split; [reflexivity |].
  split.
  - destruct Heff as [Hnan | [e [He Hb]]].
    + left. rewrite Hnan. split; reflexivity.
    + right. exists e. rewrite He. split; [reflexivity |]. split; [exact Hb |].
      reflexivity.
  - split; [reflexivity |]. split; [reflexivity |]. split; reflexivity.
Qed.

Lemma pilot_performance_figures_witness :
  (well_behaved stalled_solver /\ operable (PilotPlantSimulation.sim two_bin_pilot) /\
   0 <= 0.04) /\
  exists results performance,
    PilotPlantSimulation.run_pilot_experiment false stalled_solver two_bin_pilot
      (Some 0.04) = Ok (results, performance) /\
    PilotPlantSimulation.coagulant_g_per_day performance = 0.025 * 1.62 * 24.
Proof.
  assert (Hd : 0 <= 0.04) by lra.
  split; [exact (conj stalled_solver_well_behaved (conj two_bin_pilot_operable Hd)) |].
  destruct (pilot_performance_figures false stalled_solver two_bin_pilot 0.04
              stalled_solver_well_behaved two_bin_pilot_operable Hd)
    as [results [performance [E [_ [Hc _]]]]].
  exists results, performance. exact (conj E Hc).
Defined.

(** ** From set-up to report *)

Section SetUpAndRun.

Import WaterTreatmentSimulation.

Lemma constructed_in_range (Chemical_water : R -> R * R)
    (temperature pH alkalinity turbidity : R) :
  4 <= temperature <= 100 ->
  exists rho mu,
    WaterProperties.init false Chemical_water temperature pH alkalinity turbidity
    = WaterProperties.Constructed
        (WaterProperties.mk temperature pH alkalinity turbidity rho mu) /\
    0 < mu /\ 835 <= rho <= 1000.
Proof.
  intros [HT0 HT1]. unfold WaterProperties.init, WaterProperties.update_properties.
  cbv zeta. cbn [WaterProperties.temperature WaterProperties.pH
                 WaterProperties.alkalinity WaterProperties.turbidity].
  destruct (Rlt_dec (Rabs (temperature + 273.15 - 140)) 0.826) as [Hout | _];
    [exfalso; apply (viscosity_in_range temperature); [left; lra | exact Hout] |].
  destruct (py_pow_frac_above (temperature - 4) 1.9) as [p [E [Hp Hv]]]; [lra |].
  rewrite E. eexists. eexists. split; [reflexivity |].
  split; [apply Rmult_lt_0_compat; [lra | apply exp_pos] |].
  assert (Hsq : p <= 9216).
  { destruct (Req_dec_T (temperature - 4) 0) as [E0 | Hne].
    - unfold py_pow_frac in E.
      destruct (Rlt_dec (temperature - 4) 0); [discriminate |].
      destruct (Req_dec_T (temperature - 4) 0); [| contradiction].
      injection E as <-. lra.
    - rewrite Hv by lra.
      apply Rle_trans with (Rmax 1 ((temperature - 4) ^ 2)).
      + apply Rpower_below_square. lra.
      + apply Rmax_lub; [lra | nra]. }
  lra.
Qed.

Lemma setup_system_operable (Chemical_water : R -> R * R) (kwargs : Kwargs) :
  4 <= get (kw_temperature kwargs) 20 <= 100 ->
  0 < get (kw_initial_solids kwargs) 50 ->
  get (kw_flow_rate kwargs) 100 <> 0 ->
  get (kw_floc_chambers kwargs) 3%Z <> 0%Z ->
  0 < get (kw_overflow_rate kwargs) 10 ->
  0 < get (kw_sed_height kwargs) 3 ->
  exists sim,
    setup_system false Chemical_water kwargs = SetUp sim /\
    operable sim /\
    WaterProperties.pH (water_props sim) = get (kw_pH kwargs) 7.0 /\
    WaterProperties.alkalinity (water_props sim) = get (kw_alkalinity kwargs) 100 /\
    WaterProperties.turbidity (water_props sim) = get (kw_turbidity kwargs) 50 /\
    trapz (ParticleDistribution.concentrations (particles sim))
          (ParticleDistribution.sizes (particles sim))
      = get (kw_initial_solids kwargs) 50 /\
    Flocculation.chambers (flocculation sim) = get (kw_floc_chambers kwargs) 3%Z /\
    Sedimentation.overflow_rate (sedimentation sim) = get (kw_overflow_rate kwargs) 10.
Proof.
  intros HT Hsolids Hflow Hch Hover Hheight.
  destruct (constructed_in_range Chemical_water _
              (get (kw_pH kwargs) 7.0) (get (kw_alkalinity kwargs) 100)
              (get (kw_turbidity kwargs) 50) HT)
    as [rho [mu [Ew [Hmu Hrho]]]].
  unfold setup_system. rewrite Ew.
  match goal with
  | |- context [bind ParticleDistribution.init_default
                  (fun particles0 =>
                     bind (ParticleDistribution.normalize particles0 ?total) ?k)] =>
      destruct (particles_then _ total k) as [p [Ep [Hs [Hwf [Hmass Hnonneg]]]]]
  end.
  rewrite Ep.
  rewrite (stages_ok kwargs p Hflow Hch) by lra.
  eexists. split; [reflexivity |].
  split; [| cbn; repeat split; try reflexivity; assumption].
  unfold operable. cbn.
  split; [exact Hmu |]. split; [lra |]. split; [exact Hwf |].
  rewrite Hs.
  split; [exact logspace50_positive |].
  split; [apply strictly_increasing_increasing; exact logspace50_strictly_increasing |].
  split; [apply Hnonneg; lra |].
  split; [rewrite <- Hs, Hmass; lra |].
  split; [exact Hheight |].
  apply Rlt_le. apply Rdiv_lt_0_compat; [exact Hheight |].
  apply Rdiv_lt_0_compat; [exact Hover | lra].
Qed.

End SetUpAndRun.

(** X26.  A plant set up by [setup_system] runs: without the [thermo]
    package, for a temperature from 4 to 100 degrees Celsius, initial
    solids, overflow rate and tank height above zero and a flow rate and a
    chamber count other than 0 (each from the keyword arguments or from its
    default), the object it leaves is operable, and [run_simulation] on it
    returns for every dose [>= 0] behind an integrator that returns
    non-negative columns, with a final efficiency that is [nan] or between
    0 and 100. *)
Theorem setup_then_run (has_pyeql : bool) (Chemical_water : R -> R * R)
    (solver : (R -> list R -> result (list R)) -> R * R -> list R -> list R
              -> result Flocculation.OdeResult)
    (kwargs : WaterTreatmentSimulation.Kwargs) (dose : R) :
  well_behaved solver ->
  4 <= WaterTreatmentSimulation.get (WaterTreatmentSimulation.kw_temperature kwargs) 20
    <= 100 ->
  0 < WaterTreatmentSimulation.get (WaterTreatmentSimulation.kw_initial_solids kwargs) 50 ->
  WaterTreatmentSimulation.get (WaterTreatmentSimulation.kw_flow_rate kwargs) 100 <> 0 ->
  WaterTreatmentSimulation.get (WaterTreatmentSimulation.kw_floc_chambers kwargs) 3%Z
    <> 0%Z ->
  0 < WaterTreatmentSimulation.get (WaterTreatmentSimulation.kw_overflow_rate kwargs) 10 ->
  0 < WaterTreatmentSimulation.get (WaterTreatmentSimulation.kw_sed_height kwargs) 3 ->
  0 <= dose ->
  exists sim results,
    WaterTreatmentSimulation.setup_system false Chemical_water kwargs
      = WaterTreatmentSimulation.SetUp sim /\
    operable sim /\
    WaterTreatmentSimulation.run_simulation has_pyeql solver sim dose = Ok results /\
    length (WaterTreatmentSimulation.flocculation_results results)
      = Z.to_nat (WaterTreatmentSimulation.get
                    (WaterTreatmentSimulation.kw_floc_chambers kwargs) 3%Z) /\
    (WaterTreatmentSimulation.final_efficiency results = NaN \/
     exists e, WaterTreatmentSimulation.final_efficiency results = Finite e /\
               0 <= e <= 100).
Proof.
  intros Hsolver HT Hsolids Hflow Hch Hover Hheight Hd.
  destruct (setup_system_operable Chemical_water kwargs HT Hsolids Hflow Hch Hover Hheight)
    as [sim [Eset [Hop [_ [_ [_ [_ [Hchambers _]]]]]]]].
  destruct (train_runs has_pyeql solver Hsolver sim dose Hop Hd)
    as [p_floc [floc_results [report [Hrun [Hlen [_ Heff]]]]]].
  exists sim. eexists. split; [exact Eset |]. split; [exact Hop |].
  split; [exact Hrun |].
  cbn [WaterTreatmentSimulation.flocculation_results
       WaterTreatmentSimulation.final_efficiency].
  split; [rewrite Hlen, Hchambers; reflexivity | exact Heff].
Qed.

Lemma setup_then_run_witness :
  (well_behaved stalled_solver /\
   4 <= WaterTreatmentSimulation.get
          (WaterTreatmentSimulation.kw_temperature no_kwargs) 20 <= 100 /\
   0 < WaterTreatmentSimulation.get
         (WaterTreatmentSimulation.kw_initial_solids no_kwargs) 50 /\
   WaterTreatmentSimulation.get (WaterTreatmentSimulation.kw_flow_rate no_kwargs) 100
     <> 0 /\
   WaterTreatmentSimulation.get (WaterTreatmentSimulation.kw_floc_chambers no_kwargs) 3%Z
     <> 0%Z /\
   0 < WaterTreatmentSimulation.get
         (WaterTreatmentSimulation.kw_overflow_rate no_kwargs) 10 /\
   0 < WaterTreatmentSimulation.get (WaterTreatmentSimulation.kw_sed_height no_kwargs) 3 /\
   0 <= 0.02) /\
  exists sim results,
    WaterTreatmentSimulation.setup_system false (fun _ => (0, 0)) no_kwargs
      = WaterTreatmentSimulation.SetUp sim /\
    WaterTreatmentSimulation.run_simulation false stalled_solver sim 0.02 = Ok results.
Proof.
  assert (HT : 4 <= WaterTreatmentSimulation.get
                      (WaterTreatmentSimulation.kw_temperature no_kwargs) 20 <= 100)
    by (simpl; lra).
  assert (Hsolids : 0 < WaterTreatmentSimulation.get
                          (WaterTreatmentSimulation.kw_initial_solids no_kwargs) 50)
    by (simpl; lra).
  assert (Hflow : WaterTreatmentSimulation.get
                    (WaterTreatmentSimulation.kw_flow_rate no_kwargs) 100 <> 0)
    by (simpl; lra).
  assert (Hch : WaterTreatmentSimulation.get
                  (WaterTreatmentSimulation.kw_floc_chambers no_kwargs) 3%Z <> 0%Z)
    by (simpl; discriminate).
  assert (Hover : 0 < WaterTreatmentSimulation.get
                        (WaterTreatmentSimulation.kw_overflow_rate no_kwargs) 10)
    by (simpl; lra).
  assert (Hheight : 0 < WaterTreatmentSimulation.get
                          (WaterTreatmentSimulation.kw_sed_height no_kwargs) 3)
    by (simpl; lra).
  assert (Hd : 0 <= 0.02) by lra.
  split; [exact (conj stalled_solver_well_behaved (conj HT (conj Hsolids (conj Hflow
            (conj Hch (conj Hover (conj Hheight Hd))))))) |].
  destruct (setup_then_run false (fun _ => (0, 0)) stalled_solver no_kwargs 0.02
              stalled_solver_well_behaved HT Hsolids Hflow Hch Hover Hheight Hd)
    as [sim [results [E [_ [Hrun _]]]]].
  exists sim, results. exact (conj E Hrun).
Defined.

(** X27.  [setup_pilot_system] returns for every water temperature from 4
    to 100 degrees Celsius (without the [thermo] package) and every
    initial turbidity above zero: it leaves an operable plant with one
    flocculation chamber, a distribution whose mass is the initial
    turbidity, the overflow rate 0.45 / 1000 * 3600 / 0.0435 m/h computed
    from the pilot dimensions, and the dose given.
    [run_pilot_experiment()] called without a dose then runs with that
    dose and returns, behind an integrator that returns non-negative
    columns of the state's length. *)
Theorem pilot_setup_then_experiment (has_pyeql : bool) (Chemical_water : R -> R * R)
    (solver : (R -> list R -> result (list R)) -> R * R -> list R -> list R
              -> result Flocculation.OdeResult)
    (water_temp water_pH water_alkalinity initial_turbidity coagulant_dose : R) :
  well_behaved solver ->
  4 <= water_temp <= 100 -> 0 < initial_turbidity -> 0 <= coagulant_dose ->
  exists self results performance,
    PilotPlantSimulation.setup_pilot_system false Chemical_water water_temp water_pH
      water_alkalinity initial_turbidity coagulant_dose
      = PilotPlantSimulation.PilotSetUp self /\
    PilotPlantSimulation.coagulant_dose self = coagulant_dose /\
    operable (PilotPlantSimulation.sim self) /\
    WaterProperties.alkalinity
      (WaterTreatmentSimulation.water_props (PilotPlantSimulation.sim self))
      = water_alkalinity /\
    trapz (ParticleDistribution.concentrations
             (WaterTreatmentSimulation.particles (PilotPlantSimulation.sim self)))
          (ParticleDistribution.sizes
             (WaterTreatmentSimulation.particles (PilotPlantSimulation.sim self)))
      = initial_turbidity /\
    Flocculation.chambers
      (WaterTreatmentSimulation.flocculation (PilotPlantSimulation.sim self)) = 1%Z /\
    Sedimentation.overflow_rate
      (WaterTreatmentSimulation.sedimentation (PilotPlantSimulation.sim self))
      = 0.45 / 1000 * 3600 / 0.0435 /\
    PilotPlantSimulation.run_pilot_experiment has_pyeql solver self None
      = Ok (results, performance) /\
    WaterTreatmentSimulation.run_simulation has_pyeql solver
      (PilotPlantSimulation.sim self) coagulant_dose = Ok results /\
    length (WaterTreatmentSimulation.flocculation_results results) = 1%nat.
Proof.
  intros Hsolver HT Hturb Hd.
  unfold PilotPlantSimulation.setup_pilot_system. cbv zeta.
  match goal with
  | |- context [WaterTreatmentSimulation.setup_system false Chemical_water ?k] =>
      set (params := k)
  end.
  destruct (setup_system_operable Chemical_water params)
    as [sim [Eset [Hop [_ [Halk [_ [Hmass [Hch Hover]]]]]]]].
  - exact HT.
  - exact Hturb.
  - simpl. unfold pilot_plant_config.flow_rate_m3h. lra.
  - simpl. discriminate.
  - simpl. unfold pilot_plant_config.flow_rate, pilot_plant_config.sedimentation_area. lra.
  - simpl. unfold pilot_plant_config.sedimentation_water_height. lra.
  - rewrite Eset.
    destruct (train_runs has_pyeql solver Hsolver sim coagulant_dose Hop Hd)
      as [p_floc [floc_results [report [Hrun [Hlen _]]]]].
    eexists. eexists. eexists. split; [reflexivity |].
    cbn [PilotPlantSimulation.coagulant_dose PilotPlantSimulation.sim].
    split; [reflexivity |]. split; [exact Hop |]. split; [exact Halk |].
    split; [exact Hmass |]. split; [exact Hch |].
    split; [rewrite Hover; reflexivity |].
    unfold PilotPlantSimulation.run_pilot_experiment.
    cbn [PilotPlantSimulation.coagulant_dose PilotPlantSimulation.sim].
    rewrite Hrun. cbn [bind].
    split; [reflexivity |]. split; [reflexivity |].
    cbn [WaterTreatmentSimulation.flocculation_results].
    rewrite Hlen, Hch. reflexivity.
Qed.

Lemma pilot_setup_then_experiment_witness :
  (well_behaved stalled_solver /\ 4 <= 20 <= 100 /\ 0 < 50 /\ 0 <= 0.025) /\
  exists self results performance,
    PilotPlantSimulation.setup_pilot_system false (fun _ => (0, 0)) 20 7.2 100 50 0.025
      = PilotPlantSimulation.PilotSetUp self /\
    PilotPlantSimulation.run_pilot_experiment false stalled_solver self None
      = Ok (results, performance).
Proof.
  assert (HT : 4 <= 20 <= 100) by lra.
  assert (Hturb : 0 < 50) by lra.
  assert (Hd : 0 <= 0.025) by lra.
  split; [exact (conj stalled_solver_well_behaved (conj HT (conj Hturb Hd))) |].
  destruct (pilot_setup_then_experiment false (fun _ => (0, 0)) stalled_solver
              20 7.2 100 50 0.025 stalled_solver_well_behaved HT Hturb Hd)
    as [self [results [performance [E [_ [_ [_ [_ [_ [_ [Hrun _]]]]]]]]]]].
  exists self, results, performance. exact (conj E Hrun).
Defined.
